(** * The Kea DHCPv4 hook of carbide: option handling of callouts.cc

    A shallow embedding of [crates/dhcp/src/kea/callouts.h] and
    [crates/dhcp/src/kea/callouts.cc]: the receive callout [pkt4_receive]
    that fills the discovery builder from a relayed query, and the send
    callout [pkt4_send] that writes the options of the resolved machine
    into the response; and of [shim_load] of [crates/dhcp/src/kea/loader.cc].

    Integers of the C++ code are [Z] with the wrap-around of their width
    written out, bytes are [Z] in [0, 255], [std::string] and C strings
    are [string], the option collection of a packet (a [std::multimap]
    keyed by the option code) is a list in the order in which the multimap
    is iterated: by code, the options of one code in insertion order. *)

From Stdlib Require Import ZArith List String Ascii Bool Lia DecimalString Sorted.
Import ListNotations.
Open Scope string_scope.
Open Scope Z_scope.

#[local] Set Warnings "-register-all".

(** ** Option codes (Kea's dhcp4.h, and callouts.h for the MQTT code) *)

Definition DHO_SUBNET_MASK : Z := 1.
Definition DHO_ROUTERS : Z := 3.
Definition DHO_NAME_SERVERS : Z := 5.
Definition DHO_DOMAIN_NAME_SERVERS : Z := 6.
Definition DHO_HOST_NAME : Z := 12.
Definition DHO_INTERFACE_MTU : Z := 26.
Definition DHO_BROADCAST_ADDRESS : Z := 28.
Definition DHO_NTP_SERVERS : Z := 42.
Definition DHO_VENDOR_ENCAPSULATED_OPTIONS : Z := 43.
Definition DHO_DHCP_REQUESTED_ADDRESS : Z := 50.
Definition DHO_VENDOR_CLASS_IDENTIFIER : Z := 60.
Definition DHO_BOOT_FILE_NAME : Z := 67.
Definition DHO_DHCP_AGENT_OPTIONS : Z := 82.
Definition DHO_SYSTEM : Z := 93.
Definition DHO_MQTT_SERVER : Z := 224.

Definition RAI_OPTION_AGENT_CIRCUIT_ID : Z := 1.
Definition RAI_OPTION_REMOTE_ID : Z := 2.
Definition RAI_OPTION_LINK_SELECTION : Z := 5.

Definition IPV4_ADDR_SIZEB : Z := 4.

(** ** Exceptions and results *)

(** The exceptions the code can meet; all of them derive from
    [std::exception], which is what [update_option] catches. *)
Inductive Exception : Type :=
| BadValue        (* isc::BadValue: a second option of one code in a Pkt4 *)
| IOError         (* isc::asiolink::IOError: text that is no address *)
| OutOfRange      (* isc::OutOfRange: an OptionString of no characters *)
| bad_any_cast    (* boost::bad_any_cast *)
| NoSuchCalloutContext.  (* isc::hooks::NoSuchCalloutContext *)

Inductive Outcome (A : Type) : Type :=
| Ok (a : A)
| Throw (e : Exception).
Arguments Ok {A} a.
Arguments Throw {A} e.

Definition threw {A : Type} (r : Outcome A) : bool :=
  match r with Ok _ => false | Throw _ => true end.

(** ** Options *)

(** The classes of option objects the hook meets.  The constructor tells the
    dynamic class, which is what [dynamic_pointer_cast] looks at. *)
Inductive OptionPayload : Type :=
| Generic (data : list Z)       (* class Option: the bytes of the payload *)
| Custom (data : list Z)        (* class OptionCustom *)
| Uint16 (value : Z)            (* OptionInt<uint16_t>, alias OptionUint16 *)
| Uint32 (value : Z)            (* OptionInt<uint32_t> *)
| Text (value : string)         (* OptionString *)
| AddrLst (addrs : list Z).     (* Option4AddrLst, addresses as uint32 *)

(** An option: its code, its own value and the sub-options it carries
    ([Option::options_]). *)
Inductive KeaOption : Type :=
| MkOption (type : Z) (payload : OptionPayload) (options_ : list KeaOption).

(** [OptionPtr], a shared pointer that may be null. *)
Abbreviation OptionPtr := (Datatypes.option KeaOption).

Definition getType (o : KeaOption) : Z :=
  match o with MkOption t _ _ => t end.
Definition getPayload (o : KeaOption) : OptionPayload :=
  match o with MkOption _ p _ => p end.
Definition getOptions (o : KeaOption) : list KeaOption :=
  match o with MkOption _ _ l => l end.

Definition bytes_of_string (s : string) : list Z :=
  map (fun c => Z.of_N (N_of_ascii c)) (list_ascii_of_string s).

Definition string_of_bytes (l : list Z) : string :=
  string_of_list_ascii (map (fun b => ascii_of_N (Z.to_N b)) l).

(** [Option::getData()]: the buffer [data_].  The integer and address-list
    classes keep their value in a member of their own and leave [data_]
    empty. *)
Definition getData (o : KeaOption) : list Z :=
  match getPayload o with
  | Generic d | Custom d => d
  | Text s => bytes_of_string s
  | _ => []
  end.

(** *** The multimap of options, shared by [Pkt4] and [Option] *)

Definition has_type (code : Z) (o : KeaOption) : bool := getType o =? code.

(** All the options of one code, in insertion order: the range of the code
    ([equal_range]). *)
Definition options_with (code : Z) (l : list KeaOption) : list KeaOption :=
  filter (has_type code) l.

(** [find(type)]: the first option of that code. *)
Definition coll_get (l : list KeaOption) (code : Z) : OptionPtr :=
  find (has_type code) l.

(** [erase(find(type))]: removes the first option of that code only. *)
Fixpoint coll_del (l : list KeaOption) (code : Z) : list KeaOption :=
  match l with
  | [] => []
  | o :: l' => if has_type code o then l' else o :: coll_del l' code
  end.

(** The order of the multimap: no option comes before one of a smaller
    code. *)
Definition code_sorted (l : list KeaOption) : Prop :=
  StronglySorted (fun a b => getType a <= getType b) l.

(** [insert(make_pair(type, opt))]: the new option goes to the upper bound
    of its code, after the options whose code is not greater than its own and
    before those whose code is greater.  (On a collection in the order of the
    codes these are the options before and after that place, and the order
    is kept: [coll_insert_upper_bound] and [coll_insert_sorted] below.) *)
Definition coll_insert (l : list KeaOption) (o : KeaOption) : list KeaOption :=
  (filter (fun x => getType x <=? getType o) l
   ++ o :: filter (fun x => getType o <? getType x) l)%list.

(** *** Constructors of the option classes *)

Definition uint16 (v : Z) : Z := v mod 2 ^ 16.
Definition uint32 (v : Z) : Z := v mod 2 ^ 32.

Definition new_Option (type : Z) : KeaOption := MkOption type (Generic []) [].
Definition new_OptionInt16 (type v : Z) : KeaOption :=
  MkOption type (Uint16 (uint16 v)) [].
Definition new_OptionInt32 (type v : Z) : KeaOption :=
  MkOption type (Uint32 (uint32 v)) [].
Definition new_Option4AddrLst (type : Z) (addrs : list Z) : KeaOption :=
  MkOption type (AddrLst addrs) [].

(** [OptionString]'s constructor goes through [OptionString::setValue],
    which throws [isc::OutOfRange] for a value of no characters; the callers
    in callouts.cc that can meet an empty string test [strlen] first. *)
Definition new_OptionString (type : Z) (value : string) : Outcome KeaOption :=
  if (String.length value =? 0)%nat then Throw OutOfRange
  else Ok (MkOption type (Text value) []).

(** ** IPv4 addresses *)

Definition is_digit (c : ascii) : bool :=
  let n := Z.of_N (N_of_ascii c) in (48 <=? n) && (n <=? 57).

Definition digit_val (c : ascii) : Z := Z.of_N (N_of_ascii c) - 48.

(** [IOAddress(const std::string&)] on the text of an IPv4 address: the
    dotted-quad syntax of [inet_pton(AF_INET)].  [done] are the finished
    octets, [tp] the octet being read and [saw_digit] tells whether it has a
    digit yet.  (Text of an IPv6 address is accepted by [IOAddress] and then
    refused by [Option4AddrLst]: in both cases an exception leaves the
    expression that builds the option.) *)
Fixpoint inet_pton4 (src : string) (done : list Z) (tp : Z) (saw_digit : bool)
  : option (list Z) :=
  match src with
  | EmptyString =>
      if saw_digit && (Nat.eqb (List.length done) 3) then Some (done ++ [tp])%list
      else None
  | String ch src' =>
      if is_digit ch then
        let new := tp * 10 + digit_val ch in
        if saw_digit && (tp =? 0) then None
        else if 255 <? new then None
        else if negb saw_digit && (Nat.leb 4 (List.length done)) then None
        else inet_pton4 src' done new true
      else if Ascii.eqb ch "." && saw_digit then
        if Nat.leb 3 (List.length done) then None
        else inet_pton4 src' (done ++ [tp])%list 0 false
      else None
  end.

(** [IOAddress::fromBytes(AF_INET, p).toUint32()]: the four bytes in network
    order. *)
Definition be32 (b : list Z) : Z :=
  fold_left (fun acc x => acc * 256 + x) b 0.

Definition IOAddress_of_string (s : string) : Outcome Z :=
  match inet_pton4 s [] 0 false with
  | Some octets => Ok (be32 octets)
  | None => Throw IOError
  end.

Definition dec (n : Z) : string := NilZero.string_of_uint (N.to_uint (Z.to_N n)).

(** [IOAddress::toText()] of an IPv4 address. *)
Definition IOAddress_toText (a : Z) : string :=
  (dec (a / 2 ^ 24 mod 256) ++ "." ++ dec (a / 2 ^ 16 mod 256) ++ "."
   ++ dec (a / 2 ^ 8 mod 256) ++ "." ++ dec (a mod 256))%string.

(** The splitting of [getAddresses]: [std::getline(ss, s, ',')] until it
    fails.  [cur] holds the characters of the piece being read, last one
    first.  A piece ends at a comma or at the end of the text; [getline] fails
    when it meets the end of the text before any character, so text that ends
    in a comma gives no last, empty piece. *)
Fixpoint getline_pieces (ss : string) (cur : list ascii) : list string :=
  match ss with
  | EmptyString =>
      match cur with
      | [] => []
      | _ => [string_of_list_ascii (rev cur)]
      end
  | String ch ss' =>
      if Ascii.eqb ch "," then
        string_of_list_ascii (rev cur) :: getline_pieces ss' []
      else getline_pieces ss' (ch :: cur)
  end.

Fixpoint IOAddress_each (pieces : list string) : Outcome (list Z) :=
  match pieces with
  | [] => Ok []
  | s :: rest =>
      match IOAddress_of_string s with
      | Throw e => Throw e
      | Ok a =>
          match IOAddress_each rest with
          | Throw e => Throw e
          | Ok out => Ok (a :: out)
          end
      end
  end.

Definition getAddresses (ips : string) : Outcome (list Z) :=
  IOAddress_each (getline_pieces ips []).

(** ** The machine record and [boost::any] *)

(** The accessors of carbide_rust.h that callouts.cc calls on a [Machine*].
    The header is generated from the Rust side and is not among the sources.
    Every accessor whose result callouts.cc keeps in a [char*] and hands back
    to a [machine_free_*] function is a string here (one that may be a null
    pointer where callouts.cc tests for it); the address accessors, whose
    results go straight into [IOAddress] or [OptionInt<uint32_t>] and are
    never freed, are 32-bit integers, as in loader.cc, which passes addresses
    to the Rust side with [toUint32()]. *)
Record Machine : Type := mkMachine {
  machine_get_interface_address : Z;
  machine_get_interface_subnet_mask : Z;
  machine_get_broadcast_address : Z;
  machine_get_interface_router : Z;
  machine_get_next_server : Z;
  machine_get_interface_hostname : string;
  machine_get_filename : option string;
  machine_get_client_type : string;
  machine_get_nameservers : string;
  machine_get_ntpservers : string;
  machine_get_mqtt_server : option string;
  machine_get_interface_mtu : Z;
  machine_get_uuid : string
}.

(** What [set_options] wraps in a [boost::any]. *)
Inductive any : Type :=
| any_Machine (m : Machine)      (* Machine* *)
| any_string (s : string)        (* std::string *)
| any_char_ptr (s : string)      (* char* *)
| any_uint16 (v : Z).            (* uint16_t *)

Definition any_cast_Machine (param : any) : Outcome Machine :=
  match param with any_Machine m => Ok m | _ => Throw bad_any_cast end.
Definition any_cast_string (param : any) : Outcome string :=
  match param with any_string s => Ok s | _ => Throw bad_any_cast end.
Definition any_cast_char_ptr (param : any) : Outcome string :=
  match param with any_char_ptr s => Ok s | _ => Throw bad_any_cast end.
Definition any_cast_uint16 (param : any) : Outcome Z :=
  match param with any_uint16 v => Ok v | _ => Throw bad_any_cast end.

(** ** Packets and the callout handle *)

Record Pkt4 : Type := mkPkt4 {
  giaddr : Z;
  hwaddr : list Z;
  yiaddr : Z;
  siaddr : Z;
  options : list KeaOption
}.

Definition with_options (pkt : Pkt4) (l : list KeaOption) : Pkt4 :=
  mkPkt4 (giaddr pkt) (hwaddr pkt) (yiaddr pkt) (siaddr pkt) l.
Definition setYiaddr (pkt : Pkt4) (a : Z) : Pkt4 :=
  mkPkt4 (giaddr pkt) (hwaddr pkt) a (siaddr pkt) (options pkt).
Definition setSiaddr (pkt : Pkt4) (a : Z) : Pkt4 :=
  mkPkt4 (giaddr pkt) (hwaddr pkt) (yiaddr pkt) a (options pkt).

(** [Pkt4::isRelayed()]: a relay address that is neither 0.0.0.0 nor
    255.255.255.255. *)
Definition isRelayed (pkt : Pkt4) : bool :=
  negb (giaddr pkt =? 0) && negb (giaddr pkt =? 2 ^ 32 - 1).

Inductive CalloutNextStep : Type := NEXT_STEP_CONTINUE | NEXT_STEP_DROP.

(** The item "machine" of the context of the handle: none, or a
    [boost::shared_ptr<Machine>], which may be null. *)
Inductive ContextItem : Type :=
| no_item
| item (machine : option Machine).

Record CalloutHandle : Type := mkHandle {
  status : CalloutNextStep;
  context_machine : ContextItem
}.

(** [CalloutHandle::getContext("machine", machine)]: it throws when the
    context has no item of the name. *)
Definition getContext (h : CalloutHandle) : Outcome (option Machine) :=
  match context_machine h with
  | no_item => Throw NoSuchCalloutContext
  | item machine => Ok machine
  end.

Definition setStatus (h : CalloutHandle) (s : CalloutNextStep) : CalloutHandle :=
  mkHandle s (context_machine h).

(** ** The send phase

    Code that works on the shared response packet and may throw: the packet
    is threaded through, and what was done to it before an exception stays
    done. *)

Definition Eff (A : Type) : Type := Pkt4 -> Outcome A * Pkt4.

Definition ret {A : Type} (a : A) : Eff A := fun pkt => (Ok a, pkt).

Definition bind {A B : Type} (m : Eff A) (k : A -> Eff B) : Eff B :=
  fun pkt =>
    match m pkt with
    | (Ok a, pkt') => k a pkt'
    | (Throw e, pkt') => (Throw e, pkt')
    end.

Definition lift {A : Type} (r : Outcome A) : Eff A := fun pkt => (r, pkt).

Declare Scope eff_scope.
Delimit Scope eff_scope with eff.
Notation "x <- m ;; k" := (bind m (fun x => k))
  (at level 61, m at next level, right associativity) : eff_scope.
Notation "m ;; k" := (bind m (fun _ => k))
  (at level 61, right associativity) : eff_scope.

Section SendPhase.

(** Whether [addOption] refuses a second option of one code.  Kea's
    [Pkt4::addOption] throws [isc::BadValue] when the packet already has an
    option of the code ("DHCPv4 options must be unique"); the multimap
    underneath would take it.  The library is not part of the repository, so
    the model has both behaviours and every property is proved for each. *)
Variable unique_v4 : bool.

Definition addOption_to (l : list KeaOption) (opt : KeaOption)
  : Outcome (list KeaOption) :=
  match coll_get l (getType opt) with
  | Some _ => if unique_v4 then Throw BadValue else Ok (coll_insert l opt)
  | None => Ok (coll_insert l opt)
  end.

(** [Pkt4::getOption], [Pkt4::delOption] and [Pkt4::addOption] on the
    response. *)
Definition Pkt4_getOption (code : Z) : Eff OptionPtr :=
  fun pkt => (Ok (coll_get (options pkt) code), pkt).

Definition Pkt4_delOption (code : Z) : Eff unit :=
  fun pkt => (Ok tt, with_options pkt (coll_del (options pkt) code)).

Definition Pkt4_addOption (opt : KeaOption) : Eff unit :=
  fun pkt =>
    match addOption_to (options pkt) opt with
    | Ok l => (Ok tt, with_options pkt l)
    | Throw e => (Throw e, pkt)
    end.

(** [Option::getOption], [Option::delOption] and [Option::addOption] on the
    sub-options of an option.  (The one place that adds sub-options,
    [set_vendor_options], adds them to an option it has just created.) *)
Definition Option_getOption (o : KeaOption) (code : Z) : OptionPtr :=
  coll_get (getOptions o) code.

Definition Option_delOption (o : KeaOption) (code : Z) : KeaOption :=
  MkOption (getType o) (getPayload o) (coll_del (getOptions o) code).

Definition Option_addOption (o : KeaOption) (sub : KeaOption) : Outcome KeaOption :=
  match addOption_to (getOptions o) sub with
  | Ok l => Ok (MkOption (getType o) (getPayload o) l)
  | Throw e => Throw e
  end.

Open Scope eff_scope.

(** callouts.h, [get_and_delete_option<T>]. *)
Definition get_and_delete_option (option : Z) : Eff OptionPtr :=
  option_val <- Pkt4_getOption option ;;
  match option_val with
  | Some _ => Pkt4_delOption option ;; ret option_val
  | None => ret option_val
  end.

(** The constructor of [CDHCPOptionsManager<T>]; its result is the member
    [option_val] ([handle], [response4_ptr] and [option] stay what the caller
    passed). *)
Definition CDHCPOptionsManager (option : Z) : Eff OptionPtr :=
  get_and_delete_option option.

(** [CDHCPOptionsHandler<Option>::resetOption]: the new value of the member
    [option_val].  The [LOG_ERROR] of the default case changes nothing. *)
Definition resetOption (option : Z) (option_val : OptionPtr) (param : any)
  : Outcome OptionPtr :=
  if option =? DHO_SUBNET_MASK then
    match any_cast_Machine param with
    | Ok m => Ok (Some (new_OptionInt32 option (machine_get_interface_subnet_mask m)))
    | Throw e => Throw e
    end
  else if option =? DHO_BROADCAST_ADDRESS then
    match any_cast_Machine param with
    | Ok m => Ok (Some (new_OptionInt32 option (machine_get_broadcast_address m)))
    | Throw e => Throw e
    end
  else if option =? DHO_HOST_NAME then
    match any_cast_Machine param with
    | Ok m =>
        match new_OptionString option (machine_get_interface_hostname m) with
        | Ok o => Ok (Some o)
        | Throw e => Throw e
        end
    | Throw e => Throw e
    end
  else if option =? DHO_BOOT_FILE_NAME then
    match any_cast_Machine param with
    | Ok m =>
        match machine_get_filename m with
        | Some filename =>
            match new_OptionString option filename with
            | Ok o => Ok (Some o)
            | Throw e => Throw e
            end
        | None => Ok option_val
        end
    | Throw e => Throw e
    end
  else if option =? DHO_VENDOR_CLASS_IDENTIFIER then
    match any_cast_char_ptr param with
    | Ok s =>
        match new_OptionString DHO_VENDOR_CLASS_IDENTIFIER s with
        | Ok o => Ok (Some o)
        | Throw e => Throw e
        end
    | Throw e => Throw e
    end
  else Ok option_val.

(** [CDHCPOptionsHandler<Option>::resetAndAddOption], on an object whose
    member [option_val] is what the constructor found.  The [LOG_ERROR] of the
    default case changes nothing. *)
Definition resetAndAddOption (option : Z) (option_val : OptionPtr)
  (param : any) : Eff unit :=
  if option =? DHO_ROUTERS then
    m <- lift (any_cast_Machine param) ;;
    Pkt4_addOption (new_Option4AddrLst option [uint32 (machine_get_interface_router m)])
  else if (option =? DHO_NAME_SERVERS) || (option =? DHO_DOMAIN_NAME_SERVERS)
          || (option =? DHO_NTP_SERVERS) then
    s <- lift (any_cast_string param) ;;
    addrs <- lift (getAddresses s) ;;
    Pkt4_addOption (new_Option4AddrLst option addrs)
  else if option =? DHO_MQTT_SERVER then
    s <- lift (any_cast_string param) ;;
    o <- lift (new_OptionString option s) ;;
    Pkt4_addOption o
  else if (option =? DHO_SUBNET_MASK) || (option =? DHO_BROADCAST_ADDRESS)
          || (option =? DHO_HOST_NAME) || (option =? DHO_BOOT_FILE_NAME)
          || (option =? DHO_VENDOR_CLASS_IDENTIFIER) then
    option_val' <- lift (resetOption option option_val param) ;;
    match option_val' with
    | Some o => Pkt4_addOption o
    | None => ret tt
    end
  else if option =? DHO_INTERFACE_MTU then
    Pkt4_delOption DHO_INTERFACE_MTU ;;
    v <- lift (any_cast_uint16 param) ;;
    Pkt4_addOption (new_OptionInt16 DHO_INTERFACE_MTU v)
  else ret tt.

(** The body of the [try] block of [update_option<Option>]. *)
Definition update_option_try (option : Z) (param : any) : Eff unit :=
  option_val <- CDHCPOptionsManager option ;;
  resetAndAddOption option option_val param.

(** [update_option<Option>]: the [catch] logs and asks the server to drop the
    response; the packet stays as the exception left it. *)
Definition update_option (handle : CalloutHandle) (response4 : Pkt4)
  (option : Z) (param : any) : CalloutHandle * Pkt4 :=
  match update_option_try option param response4 with
  | (Ok _, response4') => (handle, response4')
  | (Throw _, response4') => (setStatus handle NEXT_STEP_DROP, response4')
  end.

(** [set_options]. *)
Definition set_options (handle : CalloutHandle) (response4 : Pkt4)
  (machine : Machine) : CalloutHandle * Pkt4 :=
  let '(handle, response4) :=
    update_option handle response4 DHO_ROUTERS (any_Machine machine) in
  let nameservers := machine_get_nameservers machine in
  let '(handle, response4) :=
    update_option handle response4 DHO_NAME_SERVERS (any_string nameservers) in
  let '(handle, response4) :=
    update_option handle response4 DHO_DOMAIN_NAME_SERVERS (any_string nameservers) in
  let ntpservers := machine_get_ntpservers machine in
  let '(handle, response4) :=
    update_option handle response4 DHO_NTP_SERVERS (any_string ntpservers) in
  let '(handle, response4) :=
    match machine_get_mqtt_server machine with
    | Some mqtt_server =>
        update_option handle response4 DHO_MQTT_SERVER (any_string mqtt_server)
    | None => (handle, response4)
    end in
  let mtu := uint16 (machine_get_interface_mtu machine) in
  let '(handle, response4) :=
    update_option handle response4 DHO_INTERFACE_MTU (any_uint16 mtu) in
  let '(handle, response4) :=
    update_option handle response4 DHO_SUBNET_MASK (any_Machine machine) in
  let '(handle, response4) :=
    update_option handle response4 DHO_BROADCAST_ADDRESS (any_Machine machine) in
  let '(handle, response4) :=
    update_option handle response4 DHO_HOST_NAME (any_Machine machine) in
  let '(handle, response4) :=
    update_option handle response4 DHO_BOOT_FILE_NAME (any_Machine machine) in
  let machine_client_type := machine_get_client_type machine in
  if (0 <? String.length machine_client_type)%nat then
    update_option handle response4 DHO_VENDOR_CLASS_IDENTIFIER
      (any_char_ptr machine_client_type)
  else (handle, response4).

(** The first part of [set_vendor_options]: the object [option_vendor] as it
    is when it is handed to [response4_ptr->addOption]. *)
Definition option_vendor (machine : Machine) : Outcome KeaOption :=
  let option_vendor := new_Option DHO_VENDOR_ENCAPSULATED_OPTIONS in
  let option_vendor :=
    match Option_getOption option_vendor 6 with
    | Some _ => Option_delOption option_vendor 6
    | None => option_vendor
    end in
  match Option_addOption option_vendor (new_OptionInt32 6 8) with
  | Throw e => Throw e
  | Ok option_vendor =>
      let option_vendor :=
        match Option_getOption option_vendor 70 with
        | Some _ => Option_delOption option_vendor 70
        | None => option_vendor
        end in
      let machine_uuid := machine_get_uuid machine in
      if (0 <? String.length machine_uuid)%nat then
        match new_OptionString 70 machine_uuid with
        | Throw e => Throw e
        | Ok vendor_option_70 => Option_addOption option_vendor vendor_option_70
        end
      else Ok option_vendor
  end.

(** [set_vendor_options]: nothing here catches. *)
Definition set_vendor_options (machine : Machine) : Eff unit :=
  o <- lift (option_vendor machine) ;;
  Pkt4_addOption o.

(** [pkt4_send]: the value it returns, or the exception that leaves it, with
    the handle and the response as they are then.  Nothing here catches, so
    the exception of [getContext] on a context without the item leaves
    [pkt4_send] before the test for a null machine, which is reached with a
    null pointer in the item only. *)
Definition pkt4_send (handle : CalloutHandle) (response4 : Pkt4)
  : Outcome Z * CalloutHandle * Pkt4 :=
  match getContext handle with
  | Throw e => (Throw e, handle, response4)
  | Ok None => (Ok 1, setStatus handle NEXT_STEP_DROP, response4)
  | Ok (Some machine) =>
      let response4 := setYiaddr response4 (uint32 (machine_get_interface_address machine)) in
      let '(handle, response4) := set_options handle response4 machine in
      let response4 := setSiaddr response4 (uint32 (machine_get_next_server machine)) in
      match set_vendor_options machine response4 with
      | (Ok _, response4) => (Ok 0, handle, response4)
      | (Throw e, response4) => (Throw e, handle, response4)
      end
  end.

Close Scope eff_scope.

End SendPhase.

(** ** The receive phase

    What [pkt4_receive] does is a sequence of calls out of the hook: log
    lines, the counters, the calls on the discovery builder of the Rust side
    and the calls on the callout handle.  The model returns that sequence
    with the value of each function.  The arguments of the log lines, and the
    allocation and release of the builder and of the machine, are left
    out. *)

(** [DiscoveryBuilderResult] of carbide_rust.h.  callouts.cc names one
    enumerator, [Success]; the others stand for the failures. *)
Inductive DiscoveryBuilderResult : Type :=
| Success
| BuilderFailure (code : Z).

Definition is_Success (r : DiscoveryBuilderResult) : bool :=
  match r with Success => true | BuilderFailure _ => false end.

(** The calls on the [DiscoveryBuilderFFI] object, with their arguments. *)
Inductive FFICall : Type :=
| discovery_set_link_select (addr : Z)
| discovery_set_circuit_id (value : string)
| discovery_set_remote_id (value : string)
| discovery_set_vendor_class (value : string)
| discovery_set_desired_address (text : string)
| discovery_set_client_system (value : Z)
| discovery_set_relay (addr : Z)
| discovery_set_mac_address (mac : list Z)
| discovery_fetch_machine.

Inductive Severity : Type := INFO | ERROR.

(** The argument of [carbide_increment_dropped_requests]. *)
Inductive DropReason : Type :=
| reason_text (s : string)
| discovery_builder_result_as_str (r : DiscoveryBuilderResult).

Inductive Event : Type :=
| Log (sev : Severity) (message : string)
| Ffi (call : FFICall)
| carbide_increment_total_requests
| carbide_increment_dropped_requests (reason : DropReason)
| handle_setStatus (s : CalloutNextStep)
| handle_setContext_machine (m : Machine).

Definition Rx (A : Type) : Type := (A * list Event)%type.

Definition rx_ret {A : Type} (a : A) : Rx A := (a, []).

Definition rx_bind {A B : Type} (m : Rx A) (k : A -> Rx B) : Rx B :=
  let '(a, t1) := m in
  let '(b, t2) := k a in
  (b, (t1 ++ t2)%list).

Definition emit (e : Event) : Rx unit := (tt, [e]).

Definition LOG_INFO (message : string) : Rx unit := emit (Log INFO message).
Definition LOG_ERROR (message : string) : Rx unit := emit (Log ERROR message).

Declare Scope rx_scope.
Delimit Scope rx_scope with rx.
Notation "x <- m ;; k" := (rx_bind m (fun x => k))
  (at level 61, m at next level, right associativity) : rx_scope.
Notation "m ;; k" := (rx_bind m (fun _ => k))
  (at level 61, right associativity) : rx_scope.

(** [std::string::c_str()] as the Rust side reads it: up to the first NUL. *)
Fixpoint c_str (s : string) : string :=
  match s with
  | EmptyString => EmptyString
  | String ch s' =>
      if Ascii.eqb ch Ascii.zero then EmptyString else String ch (c_str s')
  end.

(** [memcpy] of four bytes into a [uint32_t] and [htonl], on a little-endian
    host. *)
Definition memcpy_uint32 (buf : list Z) : Z :=
  fold_right (fun x acc => x + 256 * acc) 0 (firstn 4 buf).

Definition htonl (x : Z) : Z :=
  Z.lor (Z.lor (Z.shiftl (Z.land x 255) 24)
               (Z.shiftl (Z.land (Z.shiftr x 8) 255) 16))
        (Z.lor (Z.shiftl (Z.land (Z.shiftr x 16) 255) 8)
               (Z.land (Z.shiftr x 24) 255)).

(** The classes [update_discovery_parameters<T>] is instantiated with. *)
Inductive OptionClass : Type := T_OptionCustom | T_OptionString | T_OptionUint16.

(** [boost::dynamic_pointer_cast<T>]. *)
Definition dynamic_pointer_cast (T : OptionClass) (p : OptionPtr) : OptionPtr :=
  match p with
  | None => None
  | Some o =>
      match T, getPayload o with
      | T_OptionCustom, Custom _ => Some o
      | T_OptionString, Text _ => Some o
      | T_OptionUint16, Uint16 _ => Some o
      | _, _ => None
      end
  end.

Section ReceivePhase.

(** The Rust side: what each call on the discovery builder returns, and the
    machine pointer that [discovery_fetch_machine] stores (null when it
    stores none). *)
Variable ffi_result : FFICall -> DiscoveryBuilderResult.
Variable fetched_machine : option Machine.

Definition ffi (call : FFICall) : Rx DiscoveryBuilderResult :=
  (ffi_result call, [Ffi call]).

Open Scope rx_scope.

(** [update_discovery_parameters_option82]. *)
Definition update_discovery_parameters_option82 (option : Z)
  (option_val : KeaOption) : Rx DiscoveryBuilderResult :=
  if option =? RAI_OPTION_LINK_SELECTION then
    match coll_get (getOptions option_val) RAI_OPTION_LINK_SELECTION with
    | Some link_select =>
        let link_select_buf := getData link_select in
        if (Z.of_nat (List.length link_select_buf) =? 4) then
          ffi (discovery_set_link_select (be32 link_select_buf))
        else rx_ret Success
    | None => rx_ret Success
    end
  else if option =? RAI_OPTION_AGENT_CIRCUIT_ID then
    match coll_get (getOptions option_val) RAI_OPTION_AGENT_CIRCUIT_ID with
    | Some circuit_id_opt =>
        let circuit_value := string_of_bytes (getData circuit_id_opt) in
        LOG_INFO "LOG_CARBIDE_PKT4_RECEIVE: CIRCUIT ID [%1] in packet" ;;
        ffi (discovery_set_circuit_id (c_str circuit_value))
    | None => rx_ret Success
    end
  else if option =? RAI_OPTION_REMOTE_ID then
    match coll_get (getOptions option_val) RAI_OPTION_REMOTE_ID with
    | Some remote_id_opt =>
        let remote_value := string_of_bytes (getData remote_id_opt) in
        LOG_INFO "LOG_CARBIDE_PKT4_RECEIVE: REMOTE ID [%1] in packet" ;;
        ffi (discovery_set_remote_id (c_str remote_value))
    | None => rx_ret Success
    end
  else rx_ret Success.

(** [update_discovery_parameters] for an [OptionCustom]. *)
Definition update_discovery_parameters_OptionCustom (option : Z)
  (option_val : KeaOption) : Rx DiscoveryBuilderResult :=
  if option =? DHO_DHCP_AGENT_OPTIONS then
    ret_val <- update_discovery_parameters_option82 RAI_OPTION_LINK_SELECTION option_val ;;
    if negb (is_Success ret_val) then
      LOG_ERROR "LOG_CARBIDE_PKT4_RECEIVE: Failed in handling link select address." ;;
      rx_ret ret_val
    else
      ret_val <- update_discovery_parameters_option82 RAI_OPTION_AGENT_CIRCUIT_ID option_val ;;
      if negb (is_Success ret_val) then
        LOG_ERROR "LOG_CARBIDE_PKT4_RECEIVE: Failed in handling circuit_id." ;;
        rx_ret ret_val
      else
        ret_val <- update_discovery_parameters_option82 RAI_OPTION_REMOTE_ID option_val ;;
        if negb (is_Success ret_val) then
          LOG_ERROR "LOG_CARBIDE_PKT4_RECEIVE: Failed in handling remote_id." ;;
          rx_ret ret_val
        else rx_ret Success
  else rx_ret Success.

(** [update_discovery_parameters] for an [OptionString]. *)
Definition update_discovery_parameters_OptionString (option : Z)
  (option_val : KeaOption) : Rx DiscoveryBuilderResult :=
  if option =? DHO_VENDOR_CLASS_IDENTIFIER then
    match getPayload option_val with
    | Text value => ffi (discovery_set_vendor_class (c_str value))
    | _ => rx_ret Success
    end
  else rx_ret Success.

(** [update_discovery_parameters] for an [OptionUint16]. *)
Definition update_discovery_parameters_OptionUint16 (option : Z)
  (option_val : KeaOption) : Rx DiscoveryBuilderResult :=
  if option =? DHO_SYSTEM then
    match getPayload option_val with
    | Uint16 value => ffi (discovery_set_client_system value)
    | _ => rx_ret Success
    end
  else rx_ret Success.

(** The template [update_discovery_parameters<T>(query4_ptr, discovery,
    option)]. *)
Definition update_discovery_parameters (T : OptionClass) (query4 : Pkt4)
  (option : Z) : Rx DiscoveryBuilderResult :=
  match dynamic_pointer_cast T (coll_get (options query4) option) with
  | Some option_val =>
      LOG_INFO "LOG_CARBIDE_GENERIC" ;;
      match T with
      | T_OptionCustom => update_discovery_parameters_OptionCustom option option_val
      | T_OptionString => update_discovery_parameters_OptionString option option_val
      | T_OptionUint16 => update_discovery_parameters_OptionUint16 option option_val
      end
  | None =>
      if negb (option =? DHO_DHCP_AGENT_OPTIONS) then
        LOG_ERROR "LOG_CARBIDE_PKT4_RECEIVE: Missing option [%1] in packet" ;;
        rx_ret Success
      else rx_ret Success
  end.

(** The block of [pkt4_receive] that reads the requested address (option
    50).  What [discovery_set_desired_address] returns is not kept. *)
Definition desired_address_block (query4 : Pkt4) : Rx unit :=
  match coll_get (options query4) DHO_DHCP_REQUESTED_ADDRESS with
  | Some opt =>
      let buf := getData opt in
      let bufSize := Z.of_nat (List.length buf) in
      if bufSize =? IPV4_ADDR_SIZEB then
        let temp := memcpy_uint32 buf in
        let v4 := htonl temp in
        let desired := IOAddress_toText v4 in
        _ <- ffi (discovery_set_desired_address (c_str desired)) ;;
        LOG_INFO "LOG_CARBIDE_PKT4_RECEIVE: Desired Address [%1] set"
      else
        LOG_ERROR "LOG_CARBIDE_PKT4_RECEIVE: Desired addr buf len wrong: [%1]"
  | None => rx_ret tt
  end.

(** [pkt4_receive] on the query of the handle (the pointer is taken not to be
    null: the first statement already dereferences it). *)
Definition pkt4_receive (query4 : Pkt4) : Rx Z :=
  LOG_INFO "LOG_CARBIDE_PKT4_RECEIVE" ;;
  emit carbide_increment_total_requests ;;
  if negb (isRelayed query4) then
    LOG_ERROR "LOG_CARBIDE_PKT4_RECEIVE" ;;
    emit (handle_setStatus NEXT_STEP_DROP) ;;
    emit (carbide_increment_dropped_requests (reason_text "NonRelayedPacket")) ;;
    rx_ret 0
  else
    LOG_INFO "LOG_CARBIDE_PKT4_RECEIVE: Packet type name: %1" ;;
    builder_result <-
      update_discovery_parameters T_OptionCustom query4 DHO_DHCP_AGENT_OPTIONS ;;
    builder_result <-
      (if is_Success builder_result then
         update_discovery_parameters T_OptionString query4 DHO_VENDOR_CLASS_IDENTIFIER
       else rx_ret builder_result) ;;
    (if is_Success builder_result then desired_address_block query4
     else rx_ret tt) ;;
    builder_result <-
      (if is_Success builder_result then
         update_discovery_parameters T_OptionUint16 query4 DHO_SYSTEM
       else rx_ret builder_result) ;;
    builder_result <-
      (if is_Success builder_result then
         ffi (discovery_set_relay (giaddr query4))
       else rx_ret builder_result) ;;
    builder_result <-
      (if is_Success builder_result then
         ffi (discovery_set_mac_address (hwaddr query4))
       else rx_ret builder_result) ;;
    fetch <-
      (if is_Success builder_result then
         builder_result <- ffi discovery_fetch_machine ;;
         rx_ret (builder_result, fetched_machine)
       else rx_ret (builder_result, None)) ;;
    let builder_result := fst fetch in
    let machine := snd fetch in
    match is_Success builder_result, machine with
    | true, Some machine =>
        emit (handle_setContext_machine machine) ;;
        rx_ret 0
    | _, _ =>
        LOG_ERROR "LOG_CARBIDE_PKT4_RECV: Error while executing machine discovery in discovery_fetch_machine: %1, machine_ptr=%2" ;;
        emit (handle_setStatus NEXT_STEP_DROP) ;;
        emit (carbide_increment_dropped_requests
                (discovery_builder_result_as_str builder_result)) ;;
        rx_ret 1
    end.

Close Scope rx_scope.

End ReceivePhase.

(** ** Notions used to state the properties *)

(** The response after [delOption(code)]. *)
Definition pkt_del (pkt : Pkt4) (code : Z) : Pkt4 :=
  with_options pkt (coll_del (options pkt) code).

(** The option object that [resetAndAddOption] hands to [addOption] (none
    when it adds nothing), or the exception that stops it before. *)
Definition handed_option (option : Z) (option_val : OptionPtr) (param : any)
  : Outcome OptionPtr :=
  if option =? DHO_ROUTERS then
    match any_cast_Machine param with
    | Ok m =>
        Ok (Some (new_Option4AddrLst option [uint32 (machine_get_interface_router m)]))
    | Throw e => Throw e
    end
  else if (option =? DHO_NAME_SERVERS) || (option =? DHO_DOMAIN_NAME_SERVERS)
          || (option =? DHO_NTP_SERVERS) then
    match any_cast_string param with
    | Ok s =>
        match getAddresses s with
        | Ok addrs => Ok (Some (new_Option4AddrLst option addrs))
        | Throw e => Throw e
        end
    | Throw e => Throw e
    end
  else if option =? DHO_MQTT_SERVER then
    match any_cast_string param with
    | Ok s =>
        match new_OptionString option s with
        | Ok o => Ok (Some o)
        | Throw e => Throw e
        end
    | Throw e => Throw e
    end
  else if (option =? DHO_SUBNET_MASK) || (option =? DHO_BROADCAST_ADDRESS)
          || (option =? DHO_HOST_NAME) || (option =? DHO_BOOT_FILE_NAME)
          || (option =? DHO_VENDOR_CLASS_IDENTIFIER) then
    resetOption option option_val param
  else if option =? DHO_INTERFACE_MTU then
    match any_cast_uint16 param with
    | Ok v => Ok (Some (new_OptionInt16 DHO_INTERFACE_MTU v))
    | Throw e => Throw e
    end
  else Ok None.

(** The calls of [update_option] that [set_options] makes, in order. *)
Definition set_options_calls (machine : Machine) : list (Z * any) :=
  ([(DHO_ROUTERS, any_Machine machine);
    (DHO_NAME_SERVERS, any_string (machine_get_nameservers machine));
    (DHO_DOMAIN_NAME_SERVERS, any_string (machine_get_nameservers machine));
    (DHO_NTP_SERVERS, any_string (machine_get_ntpservers machine))]
   ++ match machine_get_mqtt_server machine with
      | Some mqtt_server => [(DHO_MQTT_SERVER, any_string mqtt_server)]
      | None => []
      end
   ++ [(DHO_INTERFACE_MTU, any_uint16 (uint16 (machine_get_interface_mtu machine)));
       (DHO_SUBNET_MASK, any_Machine machine);
       (DHO_BROADCAST_ADDRESS, any_Machine machine);
       (DHO_HOST_NAME, any_Machine machine);
       (DHO_BOOT_FILE_NAME, any_Machine machine)]
   ++ (if (0 <? String.length (machine_get_client_type machine))%nat
       then [(DHO_VENDOR_CLASS_IDENTIFIER,
              any_char_ptr (machine_get_client_type machine))]
       else []))%list.

Definition run_calls (unique_v4 : bool) (calls : list (Z * any))
  (st : CalloutHandle * Pkt4) : CalloutHandle * Pkt4 :=
  fold_left
    (fun st call => update_option unique_v4 (fst st) (snd st) (fst call) (snd call))
    calls st.

(** Specification side, for the overwrite of section 4.1 and the rules of
    section 4.5: the option that stands for a value under a code, when the
    value has one (an address list that parses, text of at least one
    character, a boot file name that the record has). *)
Definition text_option (code : Z) (s : string) : OptionPtr :=
  if (String.length s =? 0)%nat then None else Some (MkOption code (Text s) []).

Definition option_of_value (code : Z) (v : any) : OptionPtr :=
  match v with
  | any_uint16 n =>
      if code =? DHO_INTERFACE_MTU
      then Some (MkOption code (Uint16 (uint16 n)) []) else None
  | any_string s =>
      if (code =? DHO_NAME_SERVERS) || (code =? DHO_DOMAIN_NAME_SERVERS)
         || (code =? DHO_NTP_SERVERS) then
        match getAddresses s with
        | Ok addrs => Some (MkOption code (AddrLst addrs) [])
        | Throw _ => None
        end
      else if code =? DHO_MQTT_SERVER then text_option code s
      else None
  | any_char_ptr s =>
      if code =? DHO_VENDOR_CLASS_IDENTIFIER then text_option code s else None
  | any_Machine m =>
      if code =? DHO_ROUTERS then
        Some (MkOption code (AddrLst [uint32 (machine_get_interface_router m)]) [])
      else if code =? DHO_SUBNET_MASK then
        Some (MkOption code (Uint32 (uint32 (machine_get_interface_subnet_mask m))) [])
      else if code =? DHO_BROADCAST_ADDRESS then
        Some (MkOption code (Uint32 (uint32 (machine_get_broadcast_address m))) [])
      else if code =? DHO_HOST_NAME then
        text_option code (machine_get_interface_hostname m)
      else if code =? DHO_BOOT_FILE_NAME then
        match machine_get_filename m with
        | Some filename => text_option code filename
        | None => None
        end
      else None
  end.

(** ** Records and packets of the examples *)

(** A machine at 10.0.0.10/24 behind the router 10.0.0.1, with two name
    servers, one NTP server, no boot file name and an MTU of 1400. *)
Definition example_machine : Machine :=
  mkMachine 167772170 4294967040 167772415 167772161 167772162 "host1" None ""
    "10.0.0.1,10.0.0.2" "10.0.0.3" None 1400 "6f1c0c1e".

Definition example_handle : CalloutHandle :=
  mkHandle NEXT_STEP_CONTINUE (item (Some example_machine)).

Definition response_of (l : list KeaOption) : Pkt4 := mkPkt4 0 [] 0 0 l.

(** A query relayed by 192.0.2.1 for aa:bb:cc:dd:ee:ff, with the given
    options. *)
Definition query_of (l : list KeaOption) : Pkt4 :=
  mkPkt4 3221225985 [170; 187; 204; 221; 238; 255] 0 0 l.

(** A query that reached the server without a relay. *)
Definition direct_query : Pkt4 :=
  mkPkt4 0 [170; 187; 204; 221; 238; 255] 0 0
    [MkOption DHO_VENDOR_CLASS_IDENTIFIER (Text "PXEClient") []].

(** The example machine with another boot file name. *)
Definition with_filename (m : Machine) (filename : option string) : Machine :=
  mkMachine (machine_get_interface_address m) (machine_get_interface_subnet_mask m)
    (machine_get_broadcast_address m) (machine_get_interface_router m)
    (machine_get_next_server m) (machine_get_interface_hostname m) filename
    (machine_get_client_type m) (machine_get_nameservers m)
    (machine_get_ntpservers m) (machine_get_mqtt_server m)
    (machine_get_interface_mtu m) (machine_get_uuid m).

(** [update_option] twice for one code, on the example handle. *)
Definition overwrite_twice (unique_v4 : bool) (pkt : Pkt4) (code : Z)
  (v1 v2 : any) : Pkt4 :=
  let r1 := update_option unique_v4 example_handle pkt code v1 in
  snd (update_option unique_v4 (fst r1) (snd r1) code v2).

(** A response that already carries vendor-encapsulated options, as the
    server's own configuration can put them there, and the one that the hook
    builds for the example machine. *)
Definition configured_vendor_option : KeaOption :=
  MkOption DHO_VENDOR_ENCAPSULATED_OPTIONS (Generic [1; 4; 10; 0; 0; 9]) [].

Definition example_vendor_option : KeaOption :=
  MkOption DHO_VENDOR_ENCAPSULATED_OPTIONS (Generic [])
    [MkOption 6 (Uint32 8) []; MkOption 70 (Text "6f1c0c1e") []].

(** A Rust side on which every call succeeds but the one that sets the
    desired address. *)
Definition desired_address_refused (call : FFICall) : DiscoveryBuilderResult :=
  match call with
  | discovery_set_desired_address _ => BuilderFailure 1
  | _ => Success
  end.

Definition all_succeed (call : FFICall) : DiscoveryBuilderResult := Success.

(** The diagnostic of [pkt4_receive] for a requested address that is not of
    four bytes. *)
Definition desired_length_diagnostic : Event :=
  Log ERROR "LOG_CARBIDE_PKT4_RECEIVE: Desired addr buf len wrong: [%1]".

(** The events that [update_discovery_parameters] can produce: log lines
    and the setters of the fields it extracts. *)
Definition extraction_event (e : Event) : bool :=
  match e with
  | Log _ _ => true
  | Ffi (discovery_set_link_select _) => true
  | Ffi (discovery_set_circuit_id _) => true
  | Ffi (discovery_set_remote_id _) => true
  | Ffi (discovery_set_vendor_class _) => true
  | Ffi (discovery_set_client_system _) => true
  | _ => false
  end.

(** The calls whose result [pkt4_receive] keeps in [builder_result]: all of
    them but [discovery_set_desired_address]. *)
Definition checked_call (call : FFICall) : bool :=
  match call with
  | discovery_set_desired_address _ => false
  | _ => true
  end.

Definition is_ffi (e : Event) : bool :=
  match e with Ffi _ => true | _ => false end.

(** The first call of a trace that is checked and fails, with the events
    that follow it. *)
Fixpoint first_failure (ffi_result : FFICall -> DiscoveryBuilderResult)
  (t : list Event) : option (FFICall * list Event) :=
  match t with
  | [] => None
  | Ffi call :: t' =>
      if checked_call call && negb (is_Success (ffi_result call))
      then Some (call, t')
      else first_failure ffi_result t'
  | _ :: t' => first_failure ffi_result t'
  end.

(** A byte. *)
Definition octet (x : Z) : Prop := 0 <= x <= 255.

(** ** Notions for the properties of the send phase *)

(** The codes that [resetAndAddOption] has a case for. *)
Definition handled_codes : list Z :=
  [DHO_ROUTERS; DHO_NAME_SERVERS; DHO_DOMAIN_NAME_SERVERS; DHO_NTP_SERVERS;
   DHO_MQTT_SERVER; DHO_SUBNET_MASK; DHO_BROADCAST_ADDRESS; DHO_HOST_NAME;
   DHO_BOOT_FILE_NAME; DHO_VENDOR_CLASS_IDENTIFIER; DHO_INTERFACE_MTU].

(** Two packets with the same header fields. *)
Definition same_header (p p' : Pkt4) : Prop :=
  giaddr p' = giaddr p /\ hwaddr p' = hwaddr p
  /\ yiaddr p' = yiaddr p /\ siaddr p' = siaddr p.

(** The vendor-encapsulated option of a record, as [set_vendor_options]
    builds it. *)
Definition vendor_option_of (m : Machine) : KeaOption :=
  MkOption DHO_VENDOR_ENCAPSULATED_OPTIONS (Generic [])
    (new_OptionInt32 6 8
     :: (if (String.length (machine_get_uuid m) =? 0)%nat
         then []
         else [MkOption 70 (Text (machine_get_uuid m)) []])).

(** Whether one of the values that [set_options] takes from a record cannot
    be made into its option: name servers or NTP servers that do not parse,
    or an MQTT server, a host name or a boot file name of no characters. *)
Definition set_options_fails (m : Machine) : bool :=
  threw (getAddresses (machine_get_nameservers m))
  || threw (getAddresses (machine_get_ntpservers m))
  || match machine_get_mqtt_server m with
     | Some s => (String.length s =? 0)%nat
     | None => false
     end
  || (String.length (machine_get_interface_hostname m) =? 0)%nat
  || match machine_get_filename m with
     | Some f => (String.length f =? 0)%nat
     | None => false
     end.

(** A machine whose name servers do not parse. *)
Definition machine_bad_nameservers : Machine :=
  mkMachine 167772170 4294967040 167772415 167772161 167772162 "host1" None ""
    "10.0.0.1, 10.0.0.2" "10.0.0.3" None 1400 "6f1c0c1e".

(** Whether the value of a call of [update_option] cannot be made into its
    option, so that the call throws. *)
Definition value_throws (call : Z * any) : bool :=
  threw (handed_option (fst call) None (snd call)).

(** ** Notions for the properties of the address texts *)

(** The digits of one octet as [inet_pton4] reads them, from the state
    [tp], [saw_digit], up to the end of the text. *)
Fixpoint read_digits (s : string) (tp : Z) (saw_digit : bool) : option Z :=
  match s with
  | EmptyString => if saw_digit then Some tp else None
  | String ch s' =>
      if is_digit ch then
        let new := tp * 10 + digit_val ch in
        if saw_digit && (tp =? 0) then None
        else if 255 <? new then None
        else read_digits s' new true
      else None
  end.

(** Text without a comma and without a NUL. *)
Fixpoint plain_text (s : string) : bool :=
  match s with
  | EmptyString => true
  | String ch s' =>
      negb (Ascii.eqb ch ",") && negb (Ascii.eqb ch Ascii.zero) && plain_text s'
  end.

(** Texts joined by commas. *)
Fixpoint join_commas (l : list string) : string :=
  match l with
  | [] => EmptyString
  | [s] => s
  | s :: rest => (s ++ "," ++ join_commas rest)%string
  end.

(** The bytes 0 to 255. *)
Definition all_octets : list Z := map Z.of_nat (seq 0 256).

(** The bytes of a payload up to the first that is zero. *)
Fixpoint until_zero (l : list Z) : list Z :=
  match l with
  | [] => []
  | b :: l' => if b =? 0 then [] else b :: until_zero l'
  end.

(** ** Notions for the properties of the receive phase *)

(** The events that end a run of [pkt4_receive]: what it does to the handle
    and the count of the drop. *)
Definition outcome_event (e : Event) : bool :=
  match e with
  | handle_setStatus _ => true
  | handle_setContext_machine _ => true
  | carbide_increment_dropped_requests _ => true
  | _ => false
  end.

Definition is_total_requests (e : Event) : bool :=
  match e with carbide_increment_total_requests => true | _ => false end.

(** The events that the block of the requested address can produce. *)
Definition requested_address_event (e : Event) : bool :=
  match e with
  | Log _ _ => true
  | Ffi (discovery_set_desired_address _) => true
  | _ => false
  end.

(** A Rust side on which [discovery_set_relay] fails and every other call
    succeeds. *)
Definition relay_refused (call : FFICall) : DiscoveryBuilderResult :=
  match call with
  | discovery_set_relay _ => BuilderFailure 2
  | _ => Success
  end.

(** ** loader.cc: [shim_load]

    What [shim_load] does is, like [pkt4_receive], a sequence of calls out of
    the hook: log lines, the setters of the configuration of the Rust side
    and the registration of the two callouts. *)

(** A configuration element: a string, or an element of another type. *)
Inductive Element : Type :=
| Element_string (stringValue : string)
| Element_other.

(** [LibraryHandle::getParameter]: the element of a name, null when the
    configuration has none. *)
Definition LibraryHandle : Type := string -> option Element.

Inductive LoadEvent : Type :=
| load_LOG (sev : Severity) (message : string)
| carbide_set_config_next_server_ipv4 (addr : Z)
| carbide_set_config_api (value : string)
| carbide_set_config_ntp (value : string)
| carbide_set_config_name_servers (value : string)
| carbide_set_config_mqtt_server (value : string)
| carbide_set_config_metrics_endpoint (value : string)
| registerCallout (name : string).

(** What [IOAddress(const std::string&)] makes of a text. *)
Inductive ParsedAddress : Type :=
| AddressV4 (addr : Z)
| AddressV6.

Section Loader.

(** Whether a text is an IPv6 address for [IOAddress]; the syntax is the
    library's. *)
Variable inet_pton6 : string -> bool.

Definition IOAddress_parse (s : string) : Outcome ParsedAddress :=
  match inet_pton4 s [] 0 false with
  | Some octets => Ok (AddressV4 (be32 octets))
  | None => if inet_pton6 s then Ok AddressV6 else Throw IOError
  end.

(** The block that [shim_load] has for each parameter that is handed over
    as text: nothing when the parameter is absent, [return (1)] when it is
    not a string, the setter on its C string otherwise; [rest] is what
    follows the block. *)
Definition string_parameter (parameter : option Element)
  (setter : string -> LoadEvent) (rest : Z * list LoadEvent)
  : Z * list LoadEvent :=
  match parameter with
  | None => rest
  | Some Element_other => (1, [])
  | Some (Element_string value) => (fst rest, setter (c_str value) :: snd rest)
  end.

(** [shim_load]; [handle_ptr] is null or a library handle. *)
Definition shim_load (handle_ptr : option LibraryHandle) : Z * list LoadEvent :=
  match handle_ptr with
  | None => (1, [load_LOG INFO "LOG_CARBIDE_INVALID_HANDLE"])
  | Some handle =>
      let rest :=
        string_parameter (handle "carbide-api-url") carbide_set_config_api
          (string_parameter (handle "carbide-ntpserver") carbide_set_config_ntp
             (string_parameter (handle "carbide-nameservers")
                carbide_set_config_name_servers
                (string_parameter (handle "carbide-mqtt-server")
                   carbide_set_config_mqtt_server
                   (string_parameter (handle "carbide-metrics-endpoint")
                      carbide_set_config_metrics_endpoint
                      (0, [registerCallout "pkt4_receive";
                           registerCallout "pkt4_send"]))))) in
      let after_init :=
        match handle "carbide-provisioning-server-ipv4" with
        | None => rest
        | Some Element_other => (1, [])
        | Some (Element_string value) =>
            match IOAddress_parse value with
            | Ok (AddressV4 addr) =>
                (fst rest, carbide_set_config_next_server_ipv4 addr :: snd rest)
            | Ok AddressV6 =>
                (1, [load_LOG ERROR "LOG_CARBIDE_INVALID_NEXTSERVER_IPV4"])
            | Throw _ =>
                (1, [load_LOG ERROR "LOG_CARBIDE_INVALID_NEXTSERVER_IPV4"])
            end
        end in
      (fst after_init,
       load_LOG INFO "LOG_CARBIDE_INITIALIZATION" :: snd after_init)
  end.

End Loader.

(** The names of the parameters that [shim_load] reads, in the order in which
    it reads them. *)
Definition loader_parameters : list string :=
  ["carbide-provisioning-server-ipv4"; "carbide-api-url"; "carbide-ntpserver";
   "carbide-nameservers"; "carbide-mqtt-server"; "carbide-metrics-endpoint"].

Definition is_registerCallout (e : LoadEvent) : bool :=
  match e with registerCallout _ => true | _ => false end.

Definition is_setting (e : LoadEvent) : bool :=
  match e with
  | load_LOG _ _ => false
  | registerCallout _ => false
  | _ => true
  end.

(** The setting that a parameter handed over as text asks for. *)
Definition text_setting (parameter : option Element)
  (setter : string -> LoadEvent) : list LoadEvent :=
  match parameter with
  | Some (Element_string value) => [setter (c_str value)]
  | _ => []
  end.

(** The settings that a configuration asks for, in the order of the
    parameters. *)
Definition settings_of (handle : LibraryHandle) : list LoadEvent :=
  (match handle "carbide-provisioning-server-ipv4" with
   | Some (Element_string value) =>
       match inet_pton4 value [] 0 false with
       | Some octets => [carbide_set_config_next_server_ipv4 (be32 octets)]
       | None => []
       end
   | _ => []
   end
   ++ text_setting (handle "carbide-api-url") carbide_set_config_api
   ++ text_setting (handle "carbide-ntpserver") carbide_set_config_ntp
   ++ text_setting (handle "carbide-nameservers") carbide_set_config_name_servers
   ++ text_setting (handle "carbide-mqtt-server") carbide_set_config_mqtt_server
   ++ text_setting (handle "carbide-metrics-endpoint")
        carbide_set_config_metrics_endpoint)%list.

(** A configuration with a next server and an API URL, and the same with a
    number where the NTP server should be. *)
Definition example_config : LibraryHandle :=
  fun name =>
    if String.eqb name "carbide-provisioning-server-ipv4"
    then Some (Element_string "10.0.0.2")
    else if String.eqb name "carbide-api-url"
    then Some (Element_string "https://carbide-api:1079")
    else None.

Definition bad_ntp_config : LibraryHandle :=
  fun name =>
    if String.eqb name "carbide-ntpserver" then Some Element_other
    else example_config name.

Definition no_ipv6 (s : string) : bool := false.

(** What the blocks of [shim_load] keep: the result is 0 or 1, the callouts
    are the two of the hook when it is 0 and none when it is 1. *)
Definition load_registers (r : Z * list LoadEvent) : Prop :=
  (fst r = 0
   /\ filter is_registerCallout (snd r)
      = [registerCallout "pkt4_receive"; registerCallout "pkt4_send"])
  \/ (fst r = 1 /\ filter is_registerCallout (snd r) = []).

(** What a parameter asks of [shim_load]: nothing when it is absent, a
    setting, or the refusal of the configuration. *)
Inductive Request : Type :=
| nothing_asked
| setting_asked (e : LoadEvent)
| refused.

Definition text_request (parameter : option Element)
  (setter : string -> LoadEvent) : Request :=
  match parameter with
  | None => nothing_asked
  | Some (Element_string value) => setting_asked (setter (c_str value))
  | Some Element_other => refused
  end.

(** The requests of a configuration, in the order of the parameters.  The
    provisioning server is refused when it is not the text of an IPv4
    address. *)
Definition requests_of (handle : LibraryHandle) : list Request :=
  [match handle "carbide-provisioning-server-ipv4" with
   | None => nothing_asked
   | Some (Element_string value) =>
       match inet_pton4 value [] 0 false with
       | Some octets => setting_asked (carbide_set_config_next_server_ipv4 (be32 octets))
       | None => refused
       end
   | Some Element_other => refused
   end;
   text_request (handle "carbide-api-url") carbide_set_config_api;
   text_request (handle "carbide-ntpserver") carbide_set_config_ntp;
   text_request (handle "carbide-nameservers") carbide_set_config_name_servers;
   text_request (handle "carbide-mqtt-server") carbide_set_config_mqtt_server;
   text_request (handle "carbide-metrics-endpoint")
     carbide_set_config_metrics_endpoint].

(** The settings asked for before the first refusal. *)
Fixpoint settings_before_refusal (l : list Request) : list LoadEvent :=
  match l with
  | [] => []
  | nothing_asked :: rest => settings_before_refusal rest
  | setting_asked e :: rest => e :: settings_before_refusal rest
  | refused :: _ => []
  end.

(** ** Notions for the two phases together *)

(** What an event of [pkt4_receive] does to the callout handle. *)
Definition handle_event (h : CalloutHandle) (e : Event) : CalloutHandle :=
  match e with
  | handle_setStatus s => setStatus h s
  | handle_setContext_machine m => mkHandle (status h) (item (Some m))
  | _ => h
  end.

(** The handle after the events of a trace. *)
Definition handle_after (h : CalloutHandle) (t : list Event) : CalloutHandle :=
  fold_left handle_event t h.

(** The options that a call of [update_option] writes into a response that
    has none of its code. *)
Definition written_by (call : Z * any) : list KeaOption :=
  match handed_option (fst call) None (snd call) with
  | Ok (Some o) => [o]
  | _ => []
  end.

(** * Properties *)

(** ** The multimap *)

Lemma has_type_true (c : Z) (o : KeaOption) :
  has_type c o = true <-> getType o = c.
Proof. unfold has_type. apply Z.eqb_eq. Qed.

Lemma has_type_other (c c' : Z) (o : KeaOption) :
  c' <> c -> has_type c o = true -> has_type c' o = false.
Proof.
  unfold has_type. intros Hne H. apply Z.eqb_eq in H. apply Z.eqb_neq. congruence.
Qed.

Lemma options_with_del_same (c : Z) (l : list KeaOption) :
  options_with c (coll_del l c) = tl (options_with c l).
Proof.
  induction l as [|o l IH]; simpl; [reflexivity|].
  destruct (has_type c o) eqn:E; simpl; [reflexivity|].
  rewrite E. exact IH.
Qed.

Lemma options_with_del_other (c c' : Z) (l : list KeaOption) :
  c' <> c -> options_with c' (coll_del l c) = options_with c' l.
Proof.
  intros Hne. induction l as [|o l IH]; simpl; [reflexivity|].
  destruct (has_type c o) eqn:E; simpl.
  - now rewrite (has_type_other c c' o Hne E).
  - now rewrite IH.
Qed.

Lemma filter_filter_all {A : Type} (f g : A -> bool) (l : list A) :
  (forall x, f x = true -> g x = true) ->
  filter f (filter g l) = filter f l.
Proof.
  intros H. induction l as [|x l IH]; simpl; [reflexivity|].
  destruct (g x) eqn:Eg; simpl; destruct (f x) eqn:Ef; rewrite ?IH; try reflexivity.
  rewrite (H x Ef) in Eg. discriminate Eg.
Qed.

Lemma filter_filter_none {A : Type} (f g : A -> bool) (l : list A) :
  (forall x, f x = true -> g x = false) ->
  filter f (filter g l) = [].
Proof.
  intros H. induction l as [|x l IH]; simpl; [reflexivity|].
  destruct (g x) eqn:Eg; simpl; [|exact IH].
  destruct (f x) eqn:Ef; [|exact IH].
  rewrite (H x Ef) in Eg. discriminate Eg.
Qed.

Lemma options_with_insert (c : Z) (l : list KeaOption) (o : KeaOption) :
  options_with c (coll_insert l o)
  = (options_with c l ++ (if has_type c o then [o] else []))%list.
Proof.
  unfold options_with, coll_insert. rewrite filter_app. cbn [filter].
  destruct (has_type c o) eqn:Eo; unfold has_type in Eo.
  - apply Z.eqb_eq in Eo.
    rewrite filter_filter_all, filter_filter_none; try reflexivity;
      unfold has_type; intros x Hx; apply Z.eqb_eq in Hx.
    + apply Z.ltb_ge. lia.
    + apply Z.leb_le. lia.
  - apply Z.eqb_neq in Eo. rewrite app_nil_r.
    destruct (Z.lt_total (getType o) c) as [Hlt|[Heq|Hgt]]; [|contradiction|].
    + rewrite filter_filter_none, filter_filter_all; try reflexivity;
        unfold has_type; intros x Hx; apply Z.eqb_eq in Hx.
      * apply Z.ltb_lt. lia.
      * apply Z.leb_gt. lia.
    + rewrite filter_filter_all, filter_filter_none, app_nil_r; try reflexivity;
        unfold has_type; intros x Hx; apply Z.eqb_eq in Hx.
      * apply Z.ltb_ge. lia.
      * apply Z.leb_le. lia.
Qed.

Lemma filter_all_true {A : Type} (f : A -> bool) (l : list A) :
  (forall x, In x l -> f x = true) -> filter f l = l.
Proof.
  induction l as [|x l IH]; intros H; simpl; [reflexivity|].
  rewrite (H x (or_introl eq_refl)), IH; [reflexivity|].
  intros y Hy. apply H. now right.
Qed.

Lemma filter_all_false {A : Type} (f : A -> bool) (l : list A) :
  (forall x, In x l -> f x = false) -> filter f l = [].
Proof.
  induction l as [|x l IH]; intros H; simpl; [reflexivity|].
  rewrite (H x (or_introl eq_refl)). apply IH.
  intros y Hy. apply H. now right.
Qed.

Lemma coll_insert_In (l : list KeaOption) (o y : KeaOption) :
  In y (coll_insert l o) -> y = o \/ In y l.
Proof.
  unfold coll_insert. intros H. apply in_app_or in H as [H|[H|H]].
  - right. now apply filter_In in H.
  - left. now symmetry.
  - right. now apply filter_In in H.
Qed.

Lemma coll_del_In (l : list KeaOption) (c : Z) (y : KeaOption) :
  In y (coll_del l c) -> In y l.
Proof.
  induction l as [|x l IH]; simpl; [tauto|].
  destruct (has_type c x); simpl; [now right|].
  intros [H|H]; [now left | right; now apply IH].
Qed.

(** On a collection in the order of the codes, [insert] puts the option
    between the options whose code is not greater and those whose code is
    greater. *)
Lemma coll_insert_upper_bound (before after : list KeaOption) (o : KeaOption) :
  (forall x, In x before -> getType x <= getType o) ->
  (forall x, In x after -> getType o < getType x) ->
  coll_insert (before ++ after) o = (before ++ o :: after)%list.
Proof.
  intros Hb Ha. unfold coll_insert. rewrite !filter_app.
  rewrite (filter_all_true _ before), (filter_all_false _ after),
    (filter_all_false _ before), (filter_all_true _ after).
  - now rewrite app_nil_r.
  - intros x Hx. apply Z.ltb_lt. now apply Ha.
  - intros x Hx. apply Z.ltb_ge. now apply Hb.
  - intros x Hx. apply Z.leb_gt. now apply Ha.
  - intros x Hx. apply Z.leb_le. now apply Hb.
Qed.

(** [insert] keeps the order: on a collection in the order of the codes the
    new option stands after the last option whose code is not greater. *)
Lemma coll_insert_sorted (l : list KeaOption) (o : KeaOption) :
  code_sorted l -> code_sorted (coll_insert l o).
Proof.
  unfold code_sorted. induction 1 as [|x l Hl IH Hx].
  - unfold coll_insert. simpl. repeat constructor.
  - pose proof (proj1 (Forall_forall _ _) Hx) as Hx'.
    unfold coll_insert. cbn [filter].
    destruct (Z.leb_spec (getType x) (getType o)) as [Hle|Hgt].
    + replace (getType o <? getType x) with false
        by (symmetry; apply Z.ltb_ge; exact Hle).
      cbn [app]. fold (coll_insert l o). constructor; [exact IH|].
      apply Forall_forall. intros y Hy.
      apply coll_insert_In in Hy as [->|Hy]; [exact Hle | now apply Hx'].
    + replace (getType o <? getType x) with true
        by (symmetry; apply Z.ltb_lt; exact Hgt).
      rewrite filter_all_false, filter_all_true.
      * cbn [app]. constructor; [constructor; assumption|].
        constructor; [lia|].
        apply Forall_forall. intros y Hy. specialize (Hx' y Hy). simpl in Hx'. lia.
      * intros y Hy. specialize (Hx' y Hy). simpl in Hx'. apply Z.ltb_lt. lia.
      * intros y Hy. specialize (Hx' y Hy). simpl in Hx'. apply Z.leb_gt. lia.
Qed.

Lemma coll_del_sorted (l : list KeaOption) (c : Z) :
  code_sorted l -> code_sorted (coll_del l c).
Proof.
  unfold code_sorted. induction 1 as [|x l Hl IH Hx]; simpl; [constructor|].
  destruct (has_type c x); [exact Hl|].
  constructor; [exact IH|].
  apply Forall_forall. intros y Hy. apply coll_del_In in Hy.
  now apply (proj1 (Forall_forall _ _) Hx).
Qed.

Lemma coll_get_hd (c : Z) (l : list KeaOption) :
  coll_get l c = hd_error (options_with c l).
Proof.
  induction l as [|o l IH]; simpl; [reflexivity|].
  now destruct (has_type c o).
Qed.

Lemma coll_get_type (c : Z) (l : list KeaOption) (o : KeaOption) :
  coll_get l c = Some o -> getType o = c.
Proof.
  unfold coll_get. intros H. apply find_some in H. now apply has_type_true.
Qed.

Lemma coll_del_absent (c : Z) (l : list KeaOption) :
  coll_get l c = None -> coll_del l c = l.
Proof.
  induction l as [|o l IH]; simpl; [reflexivity|].
  destruct (has_type c o); [discriminate|]. intros H. now rewrite IH.
Qed.

Lemma with_options_same (pkt : Pkt4) : with_options pkt (options pkt) = pkt.
Proof. now destruct pkt. Qed.

Lemma pkt_del_absent (pkt : Pkt4) (c : Z) :
  coll_get (options pkt) c = None -> pkt_del pkt c = pkt.
Proof.
  intros H. unfold pkt_del. rewrite (coll_del_absent _ _ H).
  apply with_options_same.
Qed.

Lemma options_with_pkt_del_same (pkt : Pkt4) (c : Z) :
  options_with c (options (pkt_del pkt c)) = tl (options_with c (options pkt)).
Proof. unfold pkt_del. simpl. apply options_with_del_same. Qed.

Lemma options_with_pkt_del_other (pkt : Pkt4) (c c' : Z) :
  c' <> c ->
  options_with c' (options (pkt_del pkt c)) = options_with c' (options pkt).
Proof. intros H. unfold pkt_del. simpl. now apply options_with_del_other. Qed.

(** ** One call of [update_option] *)

Ltac by_code c :=
  unfold DHO_SUBNET_MASK, DHO_ROUTERS, DHO_NAME_SERVERS, DHO_DOMAIN_NAME_SERVERS,
    DHO_HOST_NAME, DHO_INTERFACE_MTU, DHO_BROADCAST_ADDRESS, DHO_NTP_SERVERS,
    DHO_VENDOR_ENCAPSULATED_OPTIONS, DHO_VENDOR_CLASS_IDENTIFIER,
    DHO_BOOT_FILE_NAME, DHO_MQTT_SERVER in *;
  repeat match goal with
         | |- context [c =? ?k] => destruct (Z.eqb_spec c k); [subst c; simpl|]
         end; simpl.

Ltac by_cases :=
  repeat (simpl; try reflexivity;
          match goal with
          | |- context [match ?x with _ => _ end] => destruct x eqn:?
          end).

Section UpdateOption.

Variable unique_v4 : bool.

Lemma resetAndAddOption_eq (c : Z) (old : OptionPtr) (param : any) (pkt : Pkt4) :
  resetAndAddOption unique_v4 c old param pkt =
  let pkt0 := if c =? DHO_INTERFACE_MTU then pkt_del pkt c else pkt in
  match handed_option c old param with
  | Throw e => (Throw e, pkt0)
  | Ok None => (Ok tt, pkt0)
  | Ok (Some o) => Pkt4_addOption unique_v4 o pkt0
  end.
Proof.
  unfold resetAndAddOption, handed_option, bind, lift, ret, Pkt4_delOption, pkt_del.
  by_code c; by_cases.
Qed.

Lemma update_option_try_eq (c : Z) (param : any) (pkt : Pkt4) :
  update_option_try unique_v4 c param pkt
  = resetAndAddOption unique_v4 c (coll_get (options pkt) c) param (pkt_del pkt c).
Proof.
  unfold update_option_try, CDHCPOptionsManager, get_and_delete_option, bind,
    Pkt4_getOption, Pkt4_delOption, ret.
  destruct (coll_get (options pkt) c) eqn:E; [reflexivity|].
  now rewrite (pkt_del_absent _ _ E).
Qed.

Lemma new_OptionString_type (t : Z) (s : string) (o : KeaOption) :
  new_OptionString t s = Ok o -> getType o = t.
Proof.
  unfold new_OptionString. destruct (String.length s =? 0)%nat; [discriminate|].
  now intros [= <-].
Qed.

Lemma handed_option_type (c : Z) (old : OptionPtr) (param : any) (o : KeaOption) :
  (forall o', old = Some o' -> getType o' = c) ->
  handed_option c old param = Ok (Some o) -> getType o = c.
Proof.
  intros Hold. unfold handed_option, resetOption.
  by_code c; intros H;
    repeat match type of H with
           | context [match ?x with _ => _ end] => destruct x eqn:?
           end;
    try discriminate; try (injection H as <-; reflexivity);
    try (injection H as ->; now apply Hold);
    injection H as <-; eauto using new_OptionString_type.
Qed.

Lemma Pkt4_addOption_options (o : KeaOption) (pkt : Pkt4) :
  options (snd (Pkt4_addOption unique_v4 o pkt))
  = match addOption_to unique_v4 (options pkt) o with
    | Ok l => l
    | Throw _ => options pkt
    end.
Proof.
  unfold Pkt4_addOption. now destruct (addOption_to unique_v4 (options pkt) o).
Qed.

Lemma addOption_to_frame (l : list KeaOption) (o : KeaOption) (c' : Z) :
  c' <> getType o ->
  options_with c' (match addOption_to unique_v4 l o with
                   | Ok l' => l'
                   | Throw _ => l
                   end) = options_with c' l.
Proof.
  intros Hne. unfold addOption_to.
  assert (Hins : options_with c' (coll_insert l o) = options_with c' l).
  { rewrite options_with_insert.
    replace (has_type c' o) with false; [apply app_nil_r|].
    symmetry. apply Z.eqb_neq. congruence. }
  destruct (coll_get l (getType o)); [destruct unique_v4|]; auto.
Qed.

Lemma addOption_to_absent (l : list KeaOption) (o : KeaOption) :
  options_with (getType o) l = [] ->
  addOption_to unique_v4 l o = Ok (coll_insert l o).
Proof.
  intros H. unfold addOption_to. rewrite coll_get_hd, H. reflexivity.
Qed.

(** A call touches the options of its own code only. *)
Lemma update_option_try_frame (c c' : Z) (param : any) (pkt : Pkt4) :
  c' <> c ->
  options_with c' (options (snd (update_option_try unique_v4 c param pkt)))
  = options_with c' (options pkt).
Proof.
  intros Hne. rewrite update_option_try_eq, resetAndAddOption_eq.
  assert (Hdel : forall p, options_with c' (options (pkt_del p c))
                           = options_with c' (options p)).
  { intros p. now apply options_with_pkt_del_other. }
  assert (H0 : options_with c'
                 (options (if c =? DHO_INTERFACE_MTU
                           then pkt_del (pkt_del pkt c) c else pkt_del pkt c))
               = options_with c' (options pkt)).
  { destruct (c =? DHO_INTERFACE_MTU); now rewrite ?Hdel. }
  cbv zeta.
  destruct (handed_option c (coll_get (options pkt) c) param) as [[o|]|e] eqn:Eh;
    simpl; try exact H0.
  rewrite Pkt4_addOption_options, addOption_to_frame; [exact H0|].
  rewrite (handed_option_type _ _ _ _ (coll_get_type c (options pkt)) Eh).
  exact Hne.
Qed.

(** On a response with at most one option of the code, a call leaves the
    option it handed to [addOption] and no other, and it throws exactly when
    building that option throws. *)
Lemma update_option_try_same (c : Z) (param : any) (pkt : Pkt4) :
  (List.length (options_with c (options pkt)) <= 1)%nat ->
  options_with c (options (snd (update_option_try unique_v4 c param pkt)))
  = match handed_option c (coll_get (options pkt) c) param with
    | Ok (Some o) => [o]
    | _ => []
    end
  /\ threw (fst (update_option_try unique_v4 c param pkt))
     = threw (handed_option c (coll_get (options pkt) c) param).
Proof.
  intros Hwf. rewrite update_option_try_eq, resetAndAddOption_eq.
  assert (H1 : options_with c (options (pkt_del pkt c)) = []).
  { rewrite options_with_pkt_del_same.
    destruct (options_with c (options pkt)) as [|x [|y l]]; simpl in *;
      [reflexivity | reflexivity | lia]. }
  assert (H0 : options_with c
                 (options (if c =? DHO_INTERFACE_MTU
                           then pkt_del (pkt_del pkt c) c else pkt_del pkt c))
               = []).
  { destruct (c =? DHO_INTERFACE_MTU); [|exact H1].
    now rewrite options_with_pkt_del_same, H1. }
  cbv zeta.
  destruct (handed_option c (coll_get (options pkt) c) param) as [[o|]|e] eqn:Eh;
    simpl; try (split; [exact H0 | reflexivity]).
  pose proof (handed_option_type _ _ _ _ (coll_get_type c (options pkt)) Eh) as Ht.
  unfold Pkt4_addOption. rewrite addOption_to_absent by (now rewrite Ht).
  simpl. split; [|reflexivity].
  rewrite options_with_insert, H0. simpl.
  replace (has_type c o) with true; [reflexivity|].
  symmetry. now apply has_type_true.
Qed.

Lemma update_option_snd (h : CalloutHandle) (pkt : Pkt4) (c : Z) (param : any) :
  snd (update_option unique_v4 h pkt c param)
  = snd (update_option_try unique_v4 c param pkt).
Proof.
  unfold update_option.
  now destruct (update_option_try unique_v4 c param pkt) as [[u|e] p].
Qed.

Lemma update_option_status (h : CalloutHandle) (pkt : Pkt4) (c : Z) (param : any) :
  fst (update_option unique_v4 h pkt c param)
  = if threw (fst (update_option_try unique_v4 c param pkt))
    then setStatus h NEXT_STEP_DROP else h.
Proof.
  unfold update_option.
  now destruct (update_option_try unique_v4 c param pkt) as [[u|e] p].
Qed.

Lemma update_option_frame (h h' : CalloutHandle) (pkt pkt' : Pkt4) (c c' : Z)
  (param : any) :
  update_option unique_v4 h pkt c param = (h', pkt') ->
  c' <> c ->
  options_with c' (options pkt') = options_with c' (options pkt).
Proof.
  intros E Hne. replace pkt' with (snd (update_option unique_v4 h pkt c param))
    by now rewrite E.
  rewrite update_option_snd. now apply update_option_try_frame.
Qed.

Lemma update_option_same (h h' : CalloutHandle) (pkt pkt' : Pkt4) (c : Z)
  (param : any) :
  update_option unique_v4 h pkt c param = (h', pkt') ->
  (List.length (options_with c (options pkt)) <= 1)%nat ->
  options_with c (options pkt')
  = match handed_option c (hd_error (options_with c (options pkt))) param with
    | Ok (Some o) => [o]
    | _ => []
    end.
Proof.
  intros E Hwf. replace pkt' with (snd (update_option unique_v4 h pkt c param))
    by now rewrite E.
  rewrite update_option_snd, <- coll_get_hd.
  now apply update_option_try_same.
Qed.

End UpdateOption.

(** ** The calls of [set_options] *)

Section SetOptions.

Variable unique_v4 : bool.

Lemma set_options_run (h : CalloutHandle) (pkt : Pkt4) (m : Machine) :
  set_options unique_v4 h pkt m = run_calls unique_v4 (set_options_calls m) (h, pkt).
Proof.
  unfold set_options, set_options_calls, run_calls.
  destruct (machine_get_mqtt_server m);
    destruct (0 <? String.length (machine_get_client_type m))%nat;
    cbn [app fold_left fst snd];
    repeat match goal with
           | |- context [update_option ?u ?a ?b ?c ?d] =>
               destruct (update_option u a b c d) as [? ?]; cbn [fst snd]
           end; reflexivity.
Qed.

Lemma set_options_calls_NoDup (m : Machine) :
  NoDup (map fst (set_options_calls m)).
Proof.
  unfold set_options_calls.
  destruct (machine_get_mqtt_server m);
    destruct (0 <? String.length (machine_get_client_type m))%nat; cbn;
    repeat (constructor; [cbn; intuition discriminate|]); constructor.
Qed.

Lemma run_calls_frame (calls : list (Z * any)) (st : CalloutHandle * Pkt4) (c : Z) :
  ~ In c (map fst calls) ->
  options_with c (options (snd (run_calls unique_v4 calls st)))
  = options_with c (options (snd st)).
Proof.
  revert st. induction calls as [|[k a] calls IH]; intros st Hnin; [reflexivity|].
  cbn [map fst In] in Hnin. unfold run_calls in *. cbn [fold_left fst snd].
  rewrite IH by tauto.
  rewrite update_option_snd. apply update_option_try_frame. intuition congruence.
Qed.

(** With one call per code, the options of a code after all the calls are
    what the call for that code left. *)
Lemma run_calls_same (calls : list (Z * any)) (st : CalloutHandle * Pkt4)
  (c : Z) (a : any) :
  NoDup (map fst calls) ->
  In (c, a) calls ->
  (List.length (options_with c (options (snd st))) <= 1)%nat ->
  options_with c (options (snd (run_calls unique_v4 calls st)))
  = match handed_option c (hd_error (options_with c (options (snd st)))) a with
    | Ok (Some o) => [o]
    | _ => []
    end.
Proof.
  revert st. induction calls as [|[k b] calls IH]; intros st Hnd Hin Hwf;
    [contradiction|].
  cbn [map fst] in Hnd. inversion Hnd as [|x l Hnotin Hnd']; subst.
  destruct Hin as [Heq|Hin].
  - injection Heq as -> ->. unfold run_calls. cbn [fold_left fst snd].
    fold (run_calls unique_v4 calls
            (update_option unique_v4 (fst st) (snd st) c a)).
    rewrite run_calls_frame by exact Hnotin.
    rewrite update_option_snd, <- coll_get_hd.
    now apply update_option_try_same.
  - assert (Hne : c <> k).
    { intros ->. apply Hnotin. now apply (in_map fst) in Hin. }
    unfold run_calls. cbn [fold_left fst snd].
    fold (run_calls unique_v4 calls
            (update_option unique_v4 (fst st) (snd st) k b)).
    assert (Hfr : options_with c
                    (options (snd (update_option unique_v4 (fst st) (snd st) k b)))
                  = options_with c (options (snd st))).
    { rewrite update_option_snd. now apply update_option_try_frame. }
    rewrite (IH _ Hnd' Hin); rewrite Hfr; [reflexivity | exact Hwf].
Qed.

(** The options after a call depend on the options before it only. *)
Lemma update_option_try_options_ext (c : Z) (a : any) (p p' : Pkt4) :
  options p = options p' ->
  options (snd (update_option_try unique_v4 c a p))
  = options (snd (update_option_try unique_v4 c a p')).
Proof.
  intros E. rewrite !update_option_try_eq, !resetAndAddOption_eq. cbv zeta.
  rewrite E.
  assert (E1 : options (pkt_del p c) = options (pkt_del p' c))
    by (unfold pkt_del; simpl; now rewrite E).
  assert (E2 : options (pkt_del (pkt_del p c) c)
               = options (pkt_del (pkt_del p' c) c))
    by (unfold pkt_del; simpl; now rewrite E).
  destruct (c =? DHO_INTERFACE_MTU);
    destruct (handed_option c (coll_get (options p') c) a) as [[o|]|e];
    simpl; trivial; rewrite !Pkt4_addOption_options; now rewrite ?E1, ?E2.
Qed.

Lemma run_calls_options_ext (calls : list (Z * any)) :
  forall st st' : CalloutHandle * Pkt4,
    options (snd st) = options (snd st') ->
    options (snd (run_calls unique_v4 calls st))
    = options (snd (run_calls unique_v4 calls st')).
Proof.
  induction calls as [|[k b] calls IH]; intros st st' E; [exact E|].
  unfold run_calls. cbn [fold_left fst snd]. apply IH.
  rewrite !update_option_snd. now apply update_option_try_options_ext.
Qed.

End SetOptions.

(** ** Values and the options they become *)

Lemma uint16_idem (v : Z) : uint16 (uint16 v) = uint16 v.
Proof. unfold uint16. apply Z.mod_mod. discriminate. Qed.

Lemma handed_of_value (c : Z) (v : any) (o : KeaOption) (old : OptionPtr) :
  option_of_value c v = Some o -> handed_option c old v = Ok (Some o).
Proof.
  unfold option_of_value, handed_option, resetOption, new_OptionString,
    text_option, new_Option4AddrLst, new_OptionInt16, new_OptionInt32.
  destruct v; by_code c; intros H;
    repeat match type of H with
           | context [match ?x with _ => _ end] => destruct x eqn:?
           end;
    try discriminate; try (injection H as <-; reflexivity).
Qed.

Section SendFacts.

Variable unique_v4 : bool.

Lemma set_options_same (h : CalloutHandle) (pkt : Pkt4) (m : Machine)
  (c : Z) (a : any) :
  In (c, a) (set_options_calls m) ->
  (List.length (options_with c (options pkt)) <= 1)%nat ->
  options_with c (options (snd (set_options unique_v4 h pkt m)))
  = match handed_option c (hd_error (options_with c (options pkt))) a with
    | Ok (Some o) => [o]
    | _ => []
    end.
Proof.
  intros Hin Hwf. rewrite set_options_run.
  now apply run_calls_same; [apply set_options_calls_NoDup | |].
Qed.

Lemma set_options_frame (h : CalloutHandle) (pkt : Pkt4) (m : Machine) (c : Z) :
  ~ In c (map fst (set_options_calls m)) ->
  options_with c (options (snd (set_options unique_v4 h pkt m)))
  = options_with c (options pkt).
Proof. intros H. rewrite set_options_run. now apply run_calls_frame. Qed.

Lemma set_options_calls_fixed (m : Machine) :
  In (DHO_ROUTERS, any_Machine m) (set_options_calls m)
  /\ In (DHO_NAME_SERVERS, any_string (machine_get_nameservers m))
        (set_options_calls m)
  /\ In (DHO_DOMAIN_NAME_SERVERS, any_string (machine_get_nameservers m))
        (set_options_calls m)
  /\ In (DHO_NTP_SERVERS, any_string (machine_get_ntpservers m))
        (set_options_calls m)
  /\ In (DHO_INTERFACE_MTU, any_uint16 (uint16 (machine_get_interface_mtu m)))
        (set_options_calls m).
Proof.
  unfold set_options_calls.
  repeat split;
    try (apply in_or_app; left; cbn; tauto);
    apply in_or_app; right; apply in_or_app; right;
    apply in_or_app; left; cbn; tauto.
Qed.

Lemma set_options_calls_no_vendor (m : Machine) :
  ~ In DHO_VENDOR_ENCAPSULATED_OPTIONS (map fst (set_options_calls m)).
Proof.
  unfold set_options_calls.
  destruct (machine_get_mqtt_server m);
    destruct (0 <? String.length (machine_get_client_type m))%nat; cbn;
    intuition discriminate.
Qed.

End SendFacts.

(** ** Overwriting an option *)

(** C2, amended.  On a response that has at most one option of a code, two
    calls of [update_option] for that code leave at most one option of the
    code, and exactly the option of the second value when that value has one
    (the same holds after the first call for the first value).
    For the interface MTU, [set_options] on such a response leaves exactly one
    MTU option, valued the MTU of the record: a response with an MTU option of
    1500 and a record with an MTU of 1400 end with one MTU option of 1400. *)
Theorem overwrite_twice_keeps_second (unique_v4 : bool) (h : CalloutHandle)
  (pkt : Pkt4) (code : Z) (v1 v2 : any) :
  (List.length (options_with code (options pkt)) <= 1)%nat ->
  let r1 := update_option unique_v4 h pkt code v1 in
  let r2 := update_option unique_v4 (fst r1) (snd r1) code v2 in
  (List.length (options_with code (options (snd r2))) <= 1)%nat
  /\ (forall o, option_of_value code v2 = Some o ->
                options_with code (options (snd r2)) = [o])
  /\ (forall o, option_of_value code v1 = Some o ->
                options_with code (options (snd r1)) = [o])
  /\ (code = DHO_INTERFACE_MTU ->
      forall (m : Machine) (h0 : CalloutHandle),
        options_with code (options (snd (set_options unique_v4 h0 pkt m)))
        = [new_OptionInt16 code (machine_get_interface_mtu m)]).
Proof.
  intros Hwf r1 r2.
  assert (H1 : options_with code (options (snd r1))
               = match handed_option code (coll_get (options pkt) code) v1 with
                 | Ok (Some o) => [o]
                 | _ => []
                 end).
  { unfold r1. rewrite update_option_snd.
    now apply update_option_try_same. }
  assert (Hwf1 : (List.length (options_with code (options (snd r1))) <= 1)%nat).
  { rewrite H1.
    destruct (handed_option code (coll_get (options pkt) code) v1) as [[o|]|e];
      simpl; lia. }
  assert (H2 : options_with code (options (snd r2))
               = match handed_option code (coll_get (options (snd r1)) code) v2 with
                 | Ok (Some o) => [o]
                 | _ => []
                 end).
  { unfold r2. rewrite update_option_snd.
    now apply update_option_try_same. }
  repeat split.
  - rewrite H2.
    destruct (handed_option code (coll_get (options (snd r1)) code) v2) as [[o|]|e];
      simpl; lia.
  - intros o Ho. rewrite H2. now rewrite (handed_of_value _ _ _ _ Ho).
  - intros o Ho. rewrite H1. now rewrite (handed_of_value _ _ _ _ Ho).
  - intros -> m h0.
    destruct (set_options_calls_fixed m) as (_ & _ & _ & _ & Hmtu).
    rewrite (set_options_same unique_v4 h0 pkt m _ _ Hmtu Hwf).
    unfold handed_option, any_cast_uint16, new_OptionInt16. simpl.
    now rewrite uint16_idem.
Qed.

(** The response of the specification's example: an MTU option of 1500 is
    overwritten with 1400, by [update_option] and by [set_options]. *)
Lemma overwrite_twice_keeps_second_witness :
  (List.length (options_with DHO_INTERFACE_MTU
                  (options (response_of [new_OptionInt16 DHO_INTERFACE_MTU 1500])))
   <= 1)%nat
  /\ (let r1 := update_option true example_handle
                  (response_of [new_OptionInt16 DHO_INTERFACE_MTU 1500])
                  DHO_INTERFACE_MTU (any_uint16 1450) in
      options_with DHO_INTERFACE_MTU
        (options (snd (update_option true (fst r1) (snd r1)
                         DHO_INTERFACE_MTU (any_uint16 1400))))
      = [MkOption 26 (Uint16 1400) []])
  /\ options_with DHO_INTERFACE_MTU
       (options (snd (set_options true example_handle
          (response_of [new_OptionInt16 DHO_INTERFACE_MTU 1500]) example_machine)))
     = [MkOption 26 (Uint16 1400) []].
Proof.
  assert (Hwf : (List.length (options_with DHO_INTERFACE_MTU
                   (options (response_of [new_OptionInt16 DHO_INTERFACE_MTU 1500])))
                 <= 1)%nat) by (vm_compute; lia).
  destruct (overwrite_twice_keeps_second true example_handle
              (response_of [new_OptionInt16 DHO_INTERFACE_MTU 1500])
              DHO_INTERFACE_MTU (any_uint16 1450) (any_uint16 1400) Hwf)
    as (_ & H2 & _ & Hm).
  split; [exact Hwf|]. split.
  - apply H2. reflexivity.
  - apply (Hm eq_refl example_machine example_handle).
Defined.

(** C2, as stated, fails.  After the name servers "10.0.0.1" and then "bogus"
    the response has no name-server option at all; after a record with the
    boot file name "a.efi" and then a record with none, the response has one
    boot-file-name option and it holds the first value. *)
Lemma overwrite_twice_counterexample :
  options_with DHO_NAME_SERVERS
    (options (overwrite_twice true (response_of []) DHO_NAME_SERVERS
                (any_string "10.0.0.1") (any_string "bogus")))
  = []
  /\ options_with DHO_NAME_SERVERS
       (options (overwrite_twice false (response_of []) DHO_NAME_SERVERS
                   (any_string "10.0.0.1") (any_string "bogus")))
     = []
  /\ options_with DHO_BOOT_FILE_NAME
       (options (overwrite_twice true (response_of []) DHO_BOOT_FILE_NAME
                   (any_Machine (with_filename example_machine (Some "a.efi")))
                   (any_Machine (with_filename example_machine None))))
     = [MkOption DHO_BOOT_FILE_NAME (Text "a.efi") []]
  /\ options_with DHO_BOOT_FILE_NAME
       (options (overwrite_twice false (response_of []) DHO_BOOT_FILE_NAME
                   (any_Machine (with_filename example_machine (Some "a.efi")))
                   (any_Machine (with_filename example_machine None))))
     = [MkOption DHO_BOOT_FILE_NAME (Text "a.efi") []].
Proof. repeat split; vm_compute; reflexivity. Qed.

(** ** A call that fails *)

(** C4, amended.  When a call of [update_option] fails, that is, when an
    exception reaches its [catch], on a response with at most one option of
    the code: no option of the code is left (the one that was there has been
    removed, and nothing was written in its place), the options of every other
    code are what they were, and the handle asks for the drop. *)
Theorem failed_overwrite_removes_old (unique_v4 : bool) (h : CalloutHandle)
  (pkt : Pkt4) (code : Z) (param : any) :
  (List.length (options_with code (options pkt)) <= 1)%nat ->
  threw (fst (update_option_try unique_v4 code param pkt)) = true ->
  let r := update_option unique_v4 h pkt code param in
  options_with code (options (snd r)) = []
  /\ (forall c', c' <> code ->
                 options_with c' (options (snd r)) = options_with c' (options pkt))
  /\ status (fst r) = NEXT_STEP_DROP.
Proof.
  intros Hwf Hthrew r. unfold r.
  destruct (update_option_try_same unique_v4 code param pkt Hwf) as [Hopt Hth].
  rewrite Hthrew in Hth.
  repeat split.
  - rewrite update_option_snd, Hopt.
    now destruct (handed_option code (coll_get (options pkt) code) param)
      as [[o|]|e].
  - intros c' Hne. rewrite update_option_snd.
    now apply update_option_try_frame.
  - rewrite update_option_status, Hthrew. reflexivity.
Qed.

Lemma failed_overwrite_removes_old_witness :
  let pkt := response_of [new_Option4AddrLst DHO_NAME_SERVERS [16843009];
                          new_OptionInt16 DHO_INTERFACE_MTU 1500] in
  let r := update_option true example_handle pkt DHO_NAME_SERVERS
             (any_string "10.0.0.1,bogus") in
  threw (fst (update_option_try true DHO_NAME_SERVERS
                (any_string "10.0.0.1,bogus") pkt)) = true
  /\ options_with DHO_NAME_SERVERS (options (snd r)) = []
  /\ options_with DHO_INTERFACE_MTU (options (snd r))
     = [new_OptionInt16 DHO_INTERFACE_MTU 1500]
  /\ status (fst r) = NEXT_STEP_DROP.
Proof.
  intros pkt r.
  assert (Hwf : (List.length (options_with DHO_NAME_SERVERS (options pkt)) <= 1)%nat)
    by (vm_compute; lia).
  assert (Hth : threw (fst (update_option_try true DHO_NAME_SERVERS
                              (any_string "10.0.0.1,bogus") pkt)) = true)
    by (vm_compute; reflexivity).
  destruct (failed_overwrite_removes_old true example_handle pkt DHO_NAME_SERVERS
              (any_string "10.0.0.1,bogus") Hwf Hth) as (H1 & H2 & H3).
  split; [exact Hth|]. split; [exact H1|]. split; [|exact H3].
  unfold r. rewrite H2 by discriminate. reflexivity.
Defined.

(** C4, as stated, fails.  The response has the name-server option 1.1.1.1;
    the call for the name servers "10.0.0.1,bogus" fails on the second
    element, and the response is left without the option it had. *)
Lemma failed_overwrite_counterexample :
  let pkt := response_of [new_Option4AddrLst DHO_NAME_SERVERS [16843009]] in
  let param := any_string "10.0.0.1,bogus" in
  options_with DHO_NAME_SERVERS (options pkt)
  = [new_Option4AddrLst DHO_NAME_SERVERS [16843009]]
  /\ threw (fst (update_option_try true DHO_NAME_SERVERS param pkt)) = true
  /\ options_with DHO_NAME_SERVERS
       (options (snd (update_option true example_handle pkt DHO_NAME_SERVERS param)))
     = []
  /\ threw (fst (update_option_try false DHO_NAME_SERVERS param pkt)) = true
  /\ options_with DHO_NAME_SERVERS
       (options (snd (update_option false example_handle pkt DHO_NAME_SERVERS param)))
     = [].
Proof. vm_compute; repeat split. Qed.

(** ** Address lists *)

Lemma is_digit_val (ch : ascii) : is_digit ch = true -> 0 <= digit_val ch <= 9.
Proof.
  unfold is_digit, digit_val. intros H.
  apply andb_true_iff in H as [H1 H2].
  apply Z.leb_le in H1. apply Z.leb_le in H2. lia.
Qed.

(** What [inet_pton4] accepts is four bytes. *)
Lemma inet_pton4_octets (src : string) :
  forall (done : list Z) (tp : Z) (saw_digit : bool) (out : list Z),
    Forall octet done -> octet tp ->
    inet_pton4 src done tp saw_digit = Some out ->
    List.length out = 4%nat /\ Forall octet out.
Proof.
  induction src as [|ch src IH]; intros done tp saw out Hdone Htp; simpl.
  - destruct saw; simpl; [|discriminate].
    destruct (Nat.eqb_spec (List.length done) 3) as [Hlen|]; [|discriminate].
    intros [= <-]. split.
    + rewrite length_app, Hlen. reflexivity.
    + apply Forall_app. split; [exact Hdone | now constructor].
  - intros H.
    repeat match type of H with
           | context [if ?b then _ else _] => destruct b eqn:?
           end; try discriminate; apply IH in H; trivial.
    + match goal with Hb : (255 <? _) = false |- _ => apply Z.ltb_ge in Hb end.
      match goal with Hd : is_digit _ = true |- _ => apply is_digit_val in Hd end.
      unfold octet in *. lia.
    + apply Forall_app. split; [exact Hdone | now constructor].
    + unfold octet. lia.
Qed.

Lemma be32_range (out : list Z) :
  List.length out = 4%nat -> Forall octet out -> 0 <= be32 out < 2 ^ 32.
Proof.
  destruct out as [|a [|b [|c [|d [|e out]]]]]; try discriminate.
  intros _ H.
  inversion_clear H as [|? ? Ha H']. inversion_clear H' as [|? ? Hb H].
  inversion_clear H as [|? ? Hc H']. inversion_clear H' as [|? ? Hd _].
  unfold be32, octet in *. simpl. lia.
Qed.

Lemma IOAddress_of_string_range (s : string) (a : Z) :
  IOAddress_of_string s = Ok a -> 0 <= a < 2 ^ 32.
Proof.
  unfold IOAddress_of_string.
  destruct (inet_pton4 s [] 0 false) as [out|] eqn:E; [|discriminate].
  intros [= <-].
  destruct (inet_pton4_octets s [] 0 false out) as [Hlen Hall];
    [constructor | unfold octet; lia | exact E |].
  now apply be32_range.
Qed.

(** One address for each piece of the text, each of four bytes. *)
Lemma IOAddress_each_spec (pieces : list string) :
  forall addrs, IOAddress_each pieces = Ok addrs ->
    List.length addrs = List.length pieces
    /\ Forall (fun a => 0 <= a < 2 ^ 32) addrs
    /\ Forall2 (fun s a => IOAddress_of_string s = Ok a) pieces addrs.
Proof.
  induction pieces as [|s rest IH]; simpl; intros addrs.
  - intros [= <-]. repeat split; constructor.
  - destruct (IOAddress_of_string s) as [a|e] eqn:Ea; [|discriminate].
    destruct (IOAddress_each rest) as [out|e] eqn:Er; [|discriminate].
    intros [= <-]. destruct (IH out eq_refl) as (Hlen & Hrange & Hall).
    repeat split.
    + simpl. now rewrite Hlen.
    + constructor; [now apply (IOAddress_of_string_range s)|exact Hrange].
    + now constructor.
Qed.

Section AddressLists.

Variable unique_v4 : bool.

Lemma set_options_routers (h : CalloutHandle) (pkt : Pkt4) (m : Machine) :
  (List.length (options_with DHO_ROUTERS (options pkt)) <= 1)%nat ->
  options_with DHO_ROUTERS (options (snd (set_options unique_v4 h pkt m)))
  = [MkOption DHO_ROUTERS (AddrLst [uint32 (machine_get_interface_router m)]) []].
Proof.
  intros Hr. destruct (set_options_calls_fixed m) as (Cr & _).
  now rewrite (set_options_same unique_v4 h pkt m _ _ Cr Hr).
Qed.

(** C5, amended.  On a response with at most one option of each of the
    codes, [set_options] leaves: a router option that is an address list of
    exactly one address, the router address of the record (the record has one
    router address, not a comma-separated list); a name-server option, a
    domain-name-server option and an NTP-server option that are the address
    lists parsed from the comma-separated text of the record, when every
    piece of the text parses, and no such option otherwise.  The list parsed from a text has one address
    of four bytes for each piece between commas, in the order of the text. *)
Theorem address_list_options (h : CalloutHandle) (pkt : Pkt4) (m : Machine) :
  (List.length (options_with DHO_ROUTERS (options pkt)) <= 1)%nat ->
  (List.length (options_with DHO_NAME_SERVERS (options pkt)) <= 1)%nat ->
  (List.length (options_with DHO_DOMAIN_NAME_SERVERS (options pkt)) <= 1)%nat ->
  (List.length (options_with DHO_NTP_SERVERS (options pkt)) <= 1)%nat ->
  let pkt' := snd (set_options unique_v4 h pkt m) in
  options_with DHO_ROUTERS (options pkt')
  = [MkOption DHO_ROUTERS (AddrLst [uint32 (machine_get_interface_router m)]) []]
  /\ options_with DHO_NAME_SERVERS (options pkt')
     = match getAddresses (machine_get_nameservers m) with
       | Ok addrs => [MkOption DHO_NAME_SERVERS (AddrLst addrs) []]
       | Throw _ => []
       end
  /\ options_with DHO_DOMAIN_NAME_SERVERS (options pkt')
     = match getAddresses (machine_get_nameservers m) with
       | Ok addrs => [MkOption DHO_DOMAIN_NAME_SERVERS (AddrLst addrs) []]
       | Throw _ => []
       end
  /\ options_with DHO_NTP_SERVERS (options pkt')
     = match getAddresses (machine_get_ntpservers m) with
       | Ok addrs => [MkOption DHO_NTP_SERVERS (AddrLst addrs) []]
       | Throw _ => []
       end
  /\ (forall ips addrs,
         getAddresses ips = Ok addrs ->
         List.length addrs = List.length (getline_pieces ips [])
         /\ Forall (fun a => 0 <= a < 2 ^ 32) addrs
         /\ Forall2 (fun s a => IOAddress_of_string s = Ok a)
              (getline_pieces ips []) addrs).
Proof.
  intros Hr Hns Hdns Hntp pkt'. unfold pkt'.
  destruct (set_options_calls_fixed m) as (_ & Cns & Cdns & Cntp & _).
  rewrite (set_options_routers h pkt m Hr).
  rewrite (set_options_same unique_v4 h pkt m _ _ Cns Hns).
  rewrite (set_options_same unique_v4 h pkt m _ _ Cdns Hdns).
  rewrite (set_options_same unique_v4 h pkt m _ _ Cntp Hntp).
  split; [reflexivity|]. split; [|split; [|split]].
  - unfold handed_option. simpl.
    now destruct (getAddresses (machine_get_nameservers m)).
  - unfold handed_option. simpl.
    now destruct (getAddresses (machine_get_nameservers m)).
  - unfold handed_option. simpl.
    now destruct (getAddresses (machine_get_ntpservers m)).
  - intros ips addrs H. now apply IOAddress_each_spec.
Qed.

End AddressLists.

Lemma address_list_options_witness :
  let pkt' := snd (set_options true example_handle
                     (response_of [new_Option4AddrLst DHO_ROUTERS [1; 2]])
                     example_machine) in
  options_with DHO_ROUTERS (options pkt')
  = [MkOption DHO_ROUTERS (AddrLst [167772161]) []]
  /\ options_with DHO_NAME_SERVERS (options pkt')
     = [MkOption DHO_NAME_SERVERS (AddrLst [167772161; 167772162]) []]
  /\ options_with DHO_NTP_SERVERS (options pkt')
     = [MkOption DHO_NTP_SERVERS (AddrLst [167772163]) []].
Proof.
  intros pkt'.
  pose proof (address_list_options true example_handle
                (response_of [new_Option4AddrLst DHO_ROUTERS [1; 2]])
                example_machine) as H.
  destruct H as (H1 & H2 & _ & H3 & _); [vm_compute; lia .. |].
  split; [exact H1|]. split; [exact H2 | exact H3].
Defined.

(** C5, as stated, fails for the router option.  No machine record makes
    [set_options] write, into an empty response, the router list
    10.0.0.1, 10.0.0.2: the router option never has two addresses. *)
Lemma router_list_counterexample :
  ~ exists (unique_v4 : bool) (h : CalloutHandle) (m : Machine),
      options_with DHO_ROUTERS
        (options (snd (set_options unique_v4 h (response_of []) m)))
      = [MkOption DHO_ROUTERS (AddrLst [167772161; 167772162]) []].
Proof.
  intros (unique_v4 & h & m & H).
  rewrite set_options_routers in H by (simpl; lia).
  discriminate H.
Qed.

(** ** The vendor-encapsulated option and the whole send phase *)

Section SendCallout.

Variable unique_v4 : bool.

(** The option [set_vendor_options] builds for a record. *)
Lemma option_vendor_eq (m : Machine) :
  option_vendor unique_v4 m
  = Ok (MkOption DHO_VENDOR_ENCAPSULATED_OPTIONS (Generic [])
          (new_OptionInt32 6 8
           :: (if (String.length (machine_get_uuid m) =? 0)%nat
               then []
               else [MkOption 70 (Text (machine_get_uuid m)) []]))).
Proof.
  unfold option_vendor, Option_getOption, Option_addOption, addOption_to,
    new_OptionString. simpl.
  destruct (String.length (machine_get_uuid m)); reflexivity.
Qed.

Lemma set_vendor_options_eq (m : Machine) (pkt : Pkt4) :
  set_vendor_options unique_v4 m pkt
  = Pkt4_addOption unique_v4
      (MkOption DHO_VENDOR_ENCAPSULATED_OPTIONS (Generic [])
         (new_OptionInt32 6 8
          :: (if (String.length (machine_get_uuid m) =? 0)%nat
              then []
              else [MkOption 70 (Text (machine_get_uuid m)) []])))
      pkt.
Proof.
  unfold set_vendor_options, bind, lift. now rewrite option_vendor_eq.
Qed.

(** C9.  The option that [set_vendor_options] builds and hands to
    [addOption] of the response has the code of the vendor-encapsulated
    options and carries: the sub-option 6, a 32-bit integer of value 8, for
    every record; then the sub-option 70, the UUID of the record as text,
    exactly when the UUID has at least one character; and nothing else. *)
Theorem vendor_option_contents (m : Machine) :
  option_vendor unique_v4 m
  = Ok (MkOption DHO_VENDOR_ENCAPSULATED_OPTIONS (Generic [])
          (MkOption 6 (Uint32 8) []
           :: (if (String.length (machine_get_uuid m) =? 0)%nat
               then []
               else [MkOption 70 (Text (machine_get_uuid m)) []])))
  /\ forall pkt,
       set_vendor_options unique_v4 m pkt
       = Pkt4_addOption unique_v4
           (MkOption DHO_VENDOR_ENCAPSULATED_OPTIONS (Generic [])
              (MkOption 6 (Uint32 8) []
               :: (if (String.length (machine_get_uuid m) =? 0)%nat
                   then []
                   else [MkOption 70 (Text (machine_get_uuid m)) []])))
           pkt.
Proof.
  split; [apply option_vendor_eq|]. intros pkt. apply set_vendor_options_eq.
Qed.

Lemma set_options_setYiaddr (h : CalloutHandle) (pkt : Pkt4) (m : Machine) (a : Z) :
  options (snd (set_options unique_v4 h (setYiaddr pkt a) m))
  = options (snd (set_options unique_v4 h pkt m)).
Proof. rewrite !set_options_run. now apply run_calls_options_ext. Qed.

(** The options of the response after [pkt4_send], from those after
    [set_options]: the vendor option is added, unless [addOption] refuses
    it. *)
Lemma pkt4_send_options (h : CalloutHandle) (pkt : Pkt4) (m : Machine) :
  context_machine h = item (Some m) ->
  options (snd (pkt4_send unique_v4 h pkt))
  = match addOption_to unique_v4
            (options (snd (set_options unique_v4 h pkt m)))
            (MkOption DHO_VENDOR_ENCAPSULATED_OPTIONS (Generic [])
               (new_OptionInt32 6 8
                :: (if (String.length (machine_get_uuid m) =? 0)%nat
                    then []
                    else [MkOption 70 (Text (machine_get_uuid m)) []])))
    with
    | Ok l => l
    | Throw _ => options (snd (set_options unique_v4 h pkt m))
    end.
Proof.
  intros Hctx. unfold pkt4_send, getContext. rewrite Hctx.
  rewrite <- (set_options_setYiaddr h pkt m (uint32 (machine_get_interface_address m))).
  destruct (set_options unique_v4 h
              (setYiaddr pkt (uint32 (machine_get_interface_address m))) m)
    as [h1 p1].
  rewrite set_vendor_options_eq. unfold Pkt4_addOption. simpl.
  now destruct (addOption_to unique_v4 (options p1) _).
Qed.

Lemma pkt4_send_frame (h : CalloutHandle) (pkt : Pkt4) (m : Machine) (c : Z) :
  context_machine h = item (Some m) ->
  c <> DHO_VENDOR_ENCAPSULATED_OPTIONS ->
  options_with c (options (snd (pkt4_send unique_v4 h pkt)))
  = options_with c (options (snd (set_options unique_v4 h pkt m))).
Proof.
  intros Hctx Hne. rewrite (pkt4_send_options h pkt m Hctx).
  now apply addOption_to_frame.
Qed.

(** C10, amended.  For every record in the context of the handle, and a response
    with at most one option of each of the two codes, [pkt4_send] leaves under
    the code 5 (name servers) and under the code 6 (domain name servers) the
    address list parsed from the one name-server text of the record: one
    option each, with the same addresses, when the text parses, and no option
    under either code when it does not. *)
Theorem nameservers_written_twice (h : CalloutHandle) (pkt : Pkt4) (m : Machine) :
  context_machine h = item (Some m) ->
  (List.length (options_with DHO_NAME_SERVERS (options pkt)) <= 1)%nat ->
  (List.length (options_with DHO_DOMAIN_NAME_SERVERS (options pkt)) <= 1)%nat ->
  let pkt' := snd (pkt4_send unique_v4 h pkt) in
  DHO_NAME_SERVERS = 5 /\ DHO_DOMAIN_NAME_SERVERS = 6
  /\ options_with DHO_NAME_SERVERS (options pkt')
     = match getAddresses (machine_get_nameservers m) with
       | Ok addrs => [MkOption DHO_NAME_SERVERS (AddrLst addrs) []]
       | Throw _ => []
       end
  /\ options_with DHO_DOMAIN_NAME_SERVERS (options pkt')
     = match getAddresses (machine_get_nameservers m) with
       | Ok addrs => [MkOption DHO_DOMAIN_NAME_SERVERS (AddrLst addrs) []]
       | Throw _ => []
       end.
Proof.
  intros Hctx H5 H6 pkt'. unfold pkt'.
  destruct (set_options_calls_fixed m) as (_ & Cns & Cdns & _).
  split; [reflexivity|]. split; [reflexivity|].
  rewrite !(pkt4_send_frame h pkt m _ Hctx) by discriminate.
  rewrite (set_options_same unique_v4 h pkt m _ _ Cns H5).
  rewrite (set_options_same unique_v4 h pkt m _ _ Cdns H6).
  unfold handed_option. simpl.
  now destruct (getAddresses (machine_get_nameservers m)).
Qed.

(** When the response has at most one option of every code and no
    vendor-encapsulated options yet, [pkt4_send] returns 0 and leaves at most
    one option of every code. *)
Theorem pkt4_send_unique_codes (h : CalloutHandle) (pkt : Pkt4) (m : Machine) :
  context_machine h = item (Some m) ->
  (forall c, (List.length (options_with c (options pkt)) <= 1)%nat) ->
  options_with DHO_VENDOR_ENCAPSULATED_OPTIONS (options pkt) = [] ->
  fst (fst (pkt4_send unique_v4 h pkt)) = Ok 0
  /\ forall c,
       (List.length (options_with c (options (snd (pkt4_send unique_v4 h pkt))))
        <= 1)%nat.
Proof.
  intros Hctx Hwf Hnone.
  assert (Hset : forall c,
             (List.length (options_with c
                (options (snd (set_options unique_v4 h pkt m)))) <= 1)%nat).
  { intros c.
    destruct (in_dec Z.eq_dec c (map fst (set_options_calls m))) as [Hin|Hnin].
    - apply in_map_iff in Hin as [[k v] [Hk Hin]]. simpl in Hk. subst k.
      rewrite (set_options_same unique_v4 h pkt m c v Hin (Hwf c)).
      destruct (handed_option c (hd_error (options_with c (options pkt))) v)
        as [[o|]|e]; simpl; lia.
    - rewrite set_options_frame by exact Hnin. apply Hwf. }
  assert (Hv : options_with DHO_VENDOR_ENCAPSULATED_OPTIONS
                 (options (snd (set_options unique_v4 h pkt m))) = []).
  { rewrite set_options_frame by apply set_options_calls_no_vendor.
    exact Hnone. }
  split.
  - unfold pkt4_send, getContext. rewrite Hctx.
    pose proof (set_options_setYiaddr h pkt m
                  (uint32 (machine_get_interface_address m))) as Hy.
    destruct (set_options unique_v4 h
                (setYiaddr pkt (uint32 (machine_get_interface_address m))) m)
      as [h1 p1].
    rewrite set_vendor_options_eq. unfold Pkt4_addOption.
    rewrite addOption_to_absent; [reflexivity|].
    simpl in *. now rewrite Hy.
  - intros c. rewrite (pkt4_send_options h pkt m Hctx).
    rewrite addOption_to_absent by exact Hv.
    rewrite options_with_insert.
    destruct (has_type c _) eqn:Ec.
    + apply has_type_true in Ec. simpl in Ec. subst c.
      rewrite Hv. simpl. lia.
    + rewrite app_nil_r. apply Hset.
Qed.

End SendCallout.

Lemma nameservers_written_twice_witness :
  let pkt' := snd (pkt4_send true example_handle
                     (response_of [new_Option4AddrLst DHO_NAME_SERVERS [16843009]])) in
  options_with 5 (options pkt') = [MkOption 5 (AddrLst [167772161; 167772162]) []]
  /\ options_with 6 (options pkt') = [MkOption 6 (AddrLst [167772161; 167772162]) []].
Proof.
  intros pkt'.
  pose proof (nameservers_written_twice true example_handle
                (response_of [new_Option4AddrLst DHO_NAME_SERVERS [16843009]])
                example_machine eq_refl) as H.
  destruct H as (_ & _ & H5 & H6); [vm_compute; lia .. |].
  split; [exact H5 | exact H6].
Defined.

(** C10, as stated, fails for a record whose name-server text does not
    parse (here, a blank after the comma).  The send phase leaves no option
    under the code 5 and none under the code 6: the name-server option that
    the response had is gone, and the status asks for the drop.  This holds
    whether [addOption] refuses a second option of a code or not. *)
Lemma nameservers_unparsable_counterexample :
  let h := mkHandle NEXT_STEP_CONTINUE (item (Some machine_bad_nameservers)) in
  let pkt := response_of [new_Option4AddrLst DHO_NAME_SERVERS [16843009]] in
  getAddresses (machine_get_nameservers machine_bad_nameservers) = Throw IOError
  /\ (options_with DHO_NAME_SERVERS (options (snd (pkt4_send true h pkt))) = []
      /\ options_with DHO_DOMAIN_NAME_SERVERS (options (snd (pkt4_send true h pkt)))
         = []
      /\ status (snd (fst (pkt4_send true h pkt))) = NEXT_STEP_DROP)
  /\ (options_with DHO_NAME_SERVERS (options (snd (pkt4_send false h pkt))) = []
      /\ options_with DHO_DOMAIN_NAME_SERVERS (options (snd (pkt4_send false h pkt)))
         = []
      /\ status (snd (fst (pkt4_send false h pkt))) = NEXT_STEP_DROP).
Proof. vm_compute. repeat split. Qed.

(** C1, the input on which the code departs from it.  The response already
    carries vendor-encapsulated options when the send phase starts.  Where
    [addOption] takes a second option of a code, [pkt4_send] returns 0 and the
    response has two options of the code 43, the old one first; where it
    refuses, as [Pkt4::addOption] does, the exception leaves [pkt4_send] and
    the response keeps the old option.  The option that was there is replaced
    in neither case. *)
Theorem vendor_option_not_replaced :
  let pkt := response_of [configured_vendor_option] in
  fst (fst (pkt4_send false example_handle pkt)) = Ok 0
  /\ options_with DHO_VENDOR_ENCAPSULATED_OPTIONS
       (options (snd (pkt4_send false example_handle pkt)))
     = [configured_vendor_option; example_vendor_option]
  /\ fst (fst (pkt4_send true example_handle pkt)) = Throw BadValue
  /\ options_with DHO_VENDOR_ENCAPSULATED_OPTIONS
       (options (snd (pkt4_send true example_handle pkt)))
     = [configured_vendor_option].
Proof. vm_compute. repeat split. Qed.

(** ** The receive phase *)

(** Case analysis on the innermost scrutinee of the goal, until none is
    left. *)
Ltac rx_step :=
  match goal with
  | |- context [match ?x with _ => _ end] =>
      lazymatch x with
      | context [match _ with _ => _ end] => fail
      | _ => destruct x eqn:?
      end
  end.

Ltac rx_cases := repeat (rx_step; simpl).

Section ReceiveFacts.

Variable ffi_result : FFICall -> DiscoveryBuilderResult.
Variable fetched_machine : option Machine.

(** C8.  For a query whose relay address is zero, [pkt4_receive] logs,
    counts the request, asks for the drop, counts the drop under the reason
    "NonRelayedPacket" and returns 0: it makes no call on the discovery
    builder, neither a setter nor [discovery_fetch_machine]. *)
Theorem non_relayed_dropped (query4 : Pkt4) :
  giaddr query4 = 0 ->
  pkt4_receive ffi_result fetched_machine query4
  = (0, [Log INFO "LOG_CARBIDE_PKT4_RECEIVE";
         carbide_increment_total_requests;
         Log ERROR "LOG_CARBIDE_PKT4_RECEIVE";
         handle_setStatus NEXT_STEP_DROP;
         carbide_increment_dropped_requests (reason_text "NonRelayedPacket")])
  /\ forall call,
       ~ In (Ffi call) (snd (pkt4_receive ffi_result fetched_machine query4)).
Proof.
  intros Hgi.
  assert (E : pkt4_receive ffi_result fetched_machine query4
              = (0, [Log INFO "LOG_CARBIDE_PKT4_RECEIVE";
                     carbide_increment_total_requests;
                     Log ERROR "LOG_CARBIDE_PKT4_RECEIVE";
                     handle_setStatus NEXT_STEP_DROP;
                     carbide_increment_dropped_requests
                       (reason_text "NonRelayedPacket")])).
  { unfold pkt4_receive, isRelayed. rewrite Hgi. reflexivity. }
  split; [exact E|].
  intros call. rewrite E. simpl. intuition discriminate.
Qed.

Local Arguments update_discovery_parameters : simpl never.
Local Arguments desired_address_block : simpl never.

Lemma update_discovery_parameters_events (T : OptionClass) (query4 : Pkt4)
  (option : Z) :
  Forall (fun e => extraction_event e = true)
    (snd (update_discovery_parameters ffi_result T query4 option)).
Proof.
  unfold update_discovery_parameters, update_discovery_parameters_OptionCustom,
    update_discovery_parameters_OptionString,
    update_discovery_parameters_OptionUint16,
    update_discovery_parameters_option82, rx_bind, rx_ret, ffi, LOG_INFO,
    LOG_ERROR, emit.
  destruct T; rx_cases; repeat constructor.
Qed.

Lemma update_discovery_parameters_succeeds (T : OptionClass) (query4 : Pkt4)
  (option : Z) :
  (forall call, call <> discovery_fetch_machine -> ffi_result call = Success) ->
  fst (update_discovery_parameters ffi_result T query4 option) = Success.
Proof.
  intros Hall.
  unfold update_discovery_parameters, update_discovery_parameters_OptionCustom,
    update_discovery_parameters_OptionString,
    update_discovery_parameters_OptionUint16,
    update_discovery_parameters_option82, rx_bind, rx_ret, ffi, LOG_INFO,
    LOG_ERROR, emit.
  destruct T; rx_cases; try reflexivity;
    repeat match goal with
           | H : context [ffi_result ?c] |- _ =>
               rewrite (Hall c) in H by discriminate
           end;
    try discriminate; rewrite ?Hall by discriminate; reflexivity.
Qed.

Lemma client_system_extraction (query4 : Pkt4) (o : KeaOption) (v : Z) :
  coll_get (options query4) DHO_SYSTEM = Some o ->
  getPayload o = Uint16 v ->
  snd (update_discovery_parameters ffi_result T_OptionUint16 query4 DHO_SYSTEM)
  = [Log INFO "LOG_CARBIDE_GENERIC"; Ffi (discovery_set_client_system v)].
Proof.
  intros Hget Hpay.
  unfold update_discovery_parameters, dynamic_pointer_cast,
    update_discovery_parameters_OptionUint16.
  rewrite Hget, Hpay. simpl. rewrite Hpay. reflexivity.
Qed.

Lemma desired_address_block_wrong_length (query4 : Pkt4) (opt : KeaOption) :
  coll_get (options query4) DHO_DHCP_REQUESTED_ADDRESS = Some opt ->
  List.length (getData opt) <> 4%nat ->
  desired_address_block ffi_result query4 = (tt, [desired_length_diagnostic]).
Proof.
  intros Hget Hlen. unfold desired_address_block. rewrite Hget.
  replace (Z.of_nat (List.length (getData opt)) =? IPV4_ADDR_SIZEB) with false;
    [reflexivity|].
  symmetry. apply Z.eqb_neq. unfold IPV4_ADDR_SIZEB. lia.
Qed.

Ltac rx_stage :=
  match goal with
  | |- context [update_discovery_parameters ?f ?T ?q ?c] =>
      let r := fresh "r" in
      let t := fresh "t" in
      let E := fresh "E" in
      let F := fresh "F" in
      pose proof (update_discovery_parameters_events T q c) as F;
      destruct (update_discovery_parameters f T q c) as [r t] eqn:E;
      simpl in F; destruct r; simpl
  end.

Ltac rx_in :=
  repeat match goal with
         | H : False |- _ => contradiction H
         | H : _ \/ _ |- _ => destruct H as [H|H]
         | H : @eq Event _ _ |- _ => discriminate H
         | H : In _ (_ ++ _) |- _ => apply in_app_or in H; destruct H as [H|H]
         | H : In _ (_ :: _) |- _ => destruct H as [H|H]; [try discriminate H|]
         | H : In _ [] |- _ => contradiction H
         | F : Forall _ ?t, H : In _ ?t |- _ =>
             apply (proj1 (Forall_forall _ _) F) in H; discriminate H
         end.

(** C7.  For a relayed query whose requested-address option (code 50) has a
    payload that is not of four bytes: [pkt4_receive] never calls
    [discovery_set_desired_address]; and, when the setters of the other
    fields succeed, it logs the diagnostic of the wrong length and goes on
    after it to the client system type (option 93), the relay address, the
    hardware address and [discovery_fetch_machine]; when that call succeeds
    and gives a machine, the machine is put in the context, the value
    returned is 0 and no drop is asked for. *)
Theorem wrong_length_desired_address (query4 : Pkt4) (opt : KeaOption) :
  isRelayed query4 = true ->
  coll_get (options query4) DHO_DHCP_REQUESTED_ADDRESS = Some opt ->
  List.length (getData opt) <> 4%nat ->
  let run := pkt4_receive ffi_result fetched_machine query4 in
  (forall text, ~ In (Ffi (discovery_set_desired_address text)) (snd run))
  /\ ((forall call, call <> discovery_fetch_machine -> ffi_result call = Success) ->
      exists before after,
        snd run = (before ++ desired_length_diagnostic :: after)%list
        /\ (forall o v, coll_get (options query4) DHO_SYSTEM = Some o ->
                        getPayload o = Uint16 v ->
                        In (Ffi (discovery_set_client_system v)) after)
        /\ In (Ffi (discovery_set_relay (giaddr query4))) after
        /\ In (Ffi (discovery_set_mac_address (hwaddr query4))) after
        /\ In (Ffi discovery_fetch_machine) after
        /\ (forall m, ffi_result discovery_fetch_machine = Success ->
                      fetched_machine = Some m ->
                      fst run = 0
                      /\ In (handle_setContext_machine m) after
                      /\ ~ In (handle_setStatus NEXT_STEP_DROP) (snd run))).
Proof.
  intros Hrel Hget Hlen run.
  pose proof (desired_address_block_wrong_length query4 opt Hget Hlen) as Hblock.
  split.
  - intros text Hin. unfold run, pkt4_receive in Hin. rewrite Hrel in Hin.
    unfold rx_bind, rx_ret, ffi, LOG_INFO, LOG_ERROR, emit in Hin.
    rewrite Hblock in Hin. simpl in Hin. revert Hin.
    repeat rx_stage; rx_cases; intros Hin; simpl in Hin;
      unfold desired_length_diagnostic in *; rx_in.
  - intros Hall.
    pose proof (update_discovery_parameters_succeeds T_OptionCustom query4
                  DHO_DHCP_AGENT_OPTIONS Hall) as S1.
    pose proof (update_discovery_parameters_succeeds T_OptionString query4
                  DHO_VENDOR_CLASS_IDENTIFIER Hall) as S2.
    pose proof (update_discovery_parameters_succeeds T_OptionUint16 query4
                  DHO_SYSTEM Hall) as S3.
    pose proof (client_system_extraction query4) as Hsys.
    pose proof (update_discovery_parameters_events T_OptionCustom query4
                  DHO_DHCP_AGENT_OPTIONS) as F1.
    pose proof (update_discovery_parameters_events T_OptionString query4
                  DHO_VENDOR_CLASS_IDENTIFIER) as F2.
    pose proof (update_discovery_parameters_events T_OptionUint16 query4
                  DHO_SYSTEM) as F3.
    unfold run, pkt4_receive. rewrite Hrel.
    unfold rx_bind, rx_ret, ffi, LOG_INFO, LOG_ERROR, emit.
    rewrite Hblock.
    destruct (update_discovery_parameters ffi_result T_OptionCustom query4
                DHO_DHCP_AGENT_OPTIONS) as [r1 t1].
    destruct (update_discovery_parameters ffi_result T_OptionString query4
                DHO_VENDOR_CLASS_IDENTIFIER) as [r2 t2].
    destruct (update_discovery_parameters ffi_result T_OptionUint16 query4
                DHO_SYSTEM) as [r3 t3].
    simpl in S1, S2, S3, Hsys, F1, F2, F3. subst r1 r2 r3. simpl.
    rewrite !(Hall (discovery_set_relay _)) by discriminate.
    rewrite !(Hall (discovery_set_mac_address _)) by discriminate. simpl.
    destruct (ffi_result discovery_fetch_machine) eqn:Ef;
      destruct fetched_machine as [machine|] eqn:Em; simpl;
      (exists ([Log INFO "LOG_CARBIDE_PKT4_RECEIVE";
                carbide_increment_total_requests;
                Log INFO "LOG_CARBIDE_PKT4_RECEIVE: Packet type name: %1"]
               ++ t1 ++ t2)%list);
      eexists;
      (split; [simpl; rewrite <- !app_assoc; simpl; reflexivity|]);
      (split; [intros o v Ho Hv; rewrite (Hsys o v Ho Hv); simpl; tauto|]);
      (split; [apply in_or_app; right; simpl; tauto|]);
      (split; [apply in_or_app; right; simpl; tauto|]);
      (split; [apply in_or_app; right; simpl; tauto|]);
      intros m Hs Hm; try discriminate.
    injection Hm as <-. split; [reflexivity|]. split.
    + apply in_or_app. right. simpl. tauto.
    + intros Hin. unfold desired_length_diagnostic in *. rx_in.
Qed.

(** *** The link selection of the Relay Agent Information option *)

Lemma link_select_step (option_val link_select : KeaOption) :
  coll_get (getOptions option_val) RAI_OPTION_LINK_SELECTION = Some link_select ->
  update_discovery_parameters_option82 ffi_result RAI_OPTION_LINK_SELECTION option_val
  = if Z.of_nat (List.length (getData link_select)) =? 4
    then ffi ffi_result (discovery_set_link_select (be32 (getData link_select)))
    else rx_ret Success.
Proof.
  intros Hsub. unfold update_discovery_parameters_option82. simpl.
  now rewrite Hsub.
Qed.

Lemma relay_ids_no_link_select (option_val : KeaOption) (c : Z) :
  c <> RAI_OPTION_LINK_SELECTION ->
  forall a,
    ~ In (Ffi (discovery_set_link_select a))
         (snd (update_discovery_parameters_option82 ffi_result c option_val)).
Proof.
  intros Hne a.
  unfold update_discovery_parameters_option82, rx_bind, rx_ret, ffi, LOG_INFO, emit.
  destruct (Z.eqb_spec c RAI_OPTION_LINK_SELECTION) as [->|_]; [contradiction|].
  rx_cases; simpl; intuition discriminate.
Qed.

Lemma other_options_no_link_select (T : OptionClass) (query4 : Pkt4) (c : Z) :
  T <> T_OptionCustom ->
  forall a,
    ~ In (Ffi (discovery_set_link_select a))
         (snd (update_discovery_parameters ffi_result T query4 c)).
Proof.
  intros HT a.
  unfold update_discovery_parameters, update_discovery_parameters_OptionString,
    update_discovery_parameters_OptionUint16, rx_bind, rx_ret, ffi, LOG_INFO,
    LOG_ERROR, emit.
  destruct T; [contradiction| |]; rx_cases; simpl; intuition discriminate.
Qed.

Lemma desired_address_block_no_link_select (query4 : Pkt4) :
  forall a,
    ~ In (Ffi (discovery_set_link_select a))
         (snd (desired_address_block ffi_result query4)).
Proof.
  intros a.
  unfold desired_address_block, rx_bind, rx_ret, ffi, LOG_INFO, LOG_ERROR, emit.
  rx_cases; simpl; intuition discriminate.
Qed.

Ltac rx_absent :=
  repeat match goal with
         | H : False |- _ => contradiction H
         | H : In _ [] |- _ => contradiction H
         | N : forall a, ~ In _ ?t, H : In _ ?t |- _ => exact (N _ H)
         | H : In _ (_ ++ _) |- _ => apply in_app_or in H; destruct H as [H|H]
         | H : In _ (_ :: _) |- _ => destruct H as [H|H]; [try discriminate H|]
         | H : _ \/ _ |- _ => destruct H as [H|H]
         | H : @eq Event _ _ |- _ => discriminate H
         end.

(** The handling of an option 82: the step of the link selection comes
    first, no later step sets the link selection, and a failure of the first
    step ends the handling with that result. *)
Lemma option82_handling (option_val : KeaOption) :
  let first :=
    update_discovery_parameters_option82 ffi_result RAI_OPTION_LINK_SELECTION
      option_val in
  let whole :=
    update_discovery_parameters_OptionCustom ffi_result DHO_DHCP_AGENT_OPTIONS
      option_val in
  (exists rest,
      snd whole = (snd first ++ rest)%list
      /\ forall a, ~ In (Ffi (discovery_set_link_select a)) rest)
  /\ (is_Success (fst first) = false ->
      whole
      = (fst first,
         (snd first
          ++ [Log ERROR
                "LOG_CARBIDE_PKT4_RECEIVE: Failed in handling link select address."])%list)).
Proof.
  intros first whole. unfold whole, first.
  unfold update_discovery_parameters_OptionCustom.
  change (DHO_DHCP_AGENT_OPTIONS =? DHO_DHCP_AGENT_OPTIONS) with true. cbv iota.
  unfold rx_bind, rx_ret, LOG_ERROR, emit.
  pose proof (relay_ids_no_link_select option_val RAI_OPTION_AGENT_CIRCUIT_ID
                ltac:(discriminate)) as N1.
  pose proof (relay_ids_no_link_select option_val RAI_OPTION_REMOTE_ID
                ltac:(discriminate)) as N2.
  destruct (update_discovery_parameters_option82 ffi_result
              RAI_OPTION_LINK_SELECTION option_val) as [r0 t0].
  destruct (update_discovery_parameters_option82 ffi_result
              RAI_OPTION_AGENT_CIRCUIT_ID option_val) as [r1 t1].
  destruct (update_discovery_parameters_option82 ffi_result
              RAI_OPTION_REMOTE_ID option_val) as [r2 t2].
  cbn [fst snd] in *.
  destruct r0; [destruct r1; [destruct r2|]|]; cbn [is_Success negb fst snd app];
    (split; [eexists; split; [reflexivity|]; intros a Hin; rx_absent
            | intros H; first [discriminate H | reflexivity]]).
Qed.

Lemma extraction_of_option82 (query4 : Pkt4) (option_val : KeaOption)
  (data : list Z) :
  coll_get (options query4) DHO_DHCP_AGENT_OPTIONS = Some option_val ->
  getPayload option_val = Custom data ->
  update_discovery_parameters ffi_result T_OptionCustom query4 DHO_DHCP_AGENT_OPTIONS
  = (fst (update_discovery_parameters_OptionCustom ffi_result
            DHO_DHCP_AGENT_OPTIONS option_val),
     Log INFO "LOG_CARBIDE_GENERIC"
     :: snd (update_discovery_parameters_OptionCustom ffi_result
               DHO_DHCP_AGENT_OPTIONS option_val)).
Proof.
  intros Hget Hpay.
  unfold update_discovery_parameters, dynamic_pointer_cast.
  rewrite Hget, Hpay. unfold rx_bind, LOG_INFO, emit.
  now destruct (update_discovery_parameters_OptionCustom ffi_result
                  DHO_DHCP_AGENT_OPTIONS option_val).
Qed.

(** The trace of [pkt4_receive] on a relayed query begins with the
    extraction of the option 82, before any other call on the builder, and
    nothing after that extraction sets the link selection. *)
Lemma pkt4_receive_starts (query4 : Pkt4) :
  isRelayed query4 = true ->
  exists tail,
    snd (pkt4_receive ffi_result fetched_machine query4)
    = ([Log INFO "LOG_CARBIDE_PKT4_RECEIVE";
        carbide_increment_total_requests;
        Log INFO "LOG_CARBIDE_PKT4_RECEIVE: Packet type name: %1"]
       ++ snd (update_discovery_parameters ffi_result T_OptionCustom query4
                 DHO_DHCP_AGENT_OPTIONS)
       ++ tail)%list
    /\ forall a, ~ In (Ffi (discovery_set_link_select a)) tail.
Proof.
  intros Hrel. unfold pkt4_receive. rewrite Hrel.
  unfold rx_bind, rx_ret, ffi, LOG_INFO, LOG_ERROR, emit.
  pose proof (other_options_no_link_select T_OptionString query4
                DHO_VENDOR_CLASS_IDENTIFIER ltac:(discriminate)) as N2.
  pose proof (other_options_no_link_select T_OptionUint16 query4
                DHO_SYSTEM ltac:(discriminate)) as N3.
  pose proof (desired_address_block_no_link_select query4) as N50.
  destruct (update_discovery_parameters ffi_result T_OptionCustom query4
              DHO_DHCP_AGENT_OPTIONS) as [r1 t1].
  destruct (update_discovery_parameters ffi_result T_OptionString query4
              DHO_VENDOR_CLASS_IDENTIFIER) as [r2 t2].
  destruct (update_discovery_parameters ffi_result T_OptionUint16 query4
              DHO_SYSTEM) as [r3 t3].
  destruct (desired_address_block ffi_result query4) as [u t50].
  cbn [fst snd] in N2, N3, N50.
  destruct r1; [destruct r2; [destruct r3;
    [destruct (ffi_result (discovery_set_relay (giaddr query4)));
       [destruct (ffi_result (discovery_set_mac_address (hwaddr query4)));
          [destruct (ffi_result discovery_fetch_machine);
             destruct fetched_machine as [m|]|]|]|]|]|];
    simpl; (eexists; split; [reflexivity|]); intros a Hin; rx_absent.
Qed.

(** C6.  For a query that carries a Relay Agent Information option with a
    link-selection sub-option.  If the payload of the sub-option has four
    bytes, the extraction of the option 82 calls [discovery_set_link_select]
    with those bytes as an address in network order, once and before any
    other call, and a failure of that call is what the extraction returns;
    on a relayed query this is the first call that [pkt4_receive] makes on
    the discovery builder.  If the payload has another length, the step of
    the link selection makes no call, logs nothing and returns [Success], and
    neither the handling of the option 82 nor the rest of [pkt4_receive] ever
    calls [discovery_set_link_select]. *)
Theorem link_selection_extraction (query4 : Pkt4)
  (option_val link_select : KeaOption) (data : list Z) :
  coll_get (options query4) DHO_DHCP_AGENT_OPTIONS = Some option_val ->
  getPayload option_val = Custom data ->
  coll_get (getOptions option_val) RAI_OPTION_LINK_SELECTION = Some link_select ->
  let addr := be32 (getData link_select) in
  let extraction :=
    update_discovery_parameters ffi_result T_OptionCustom query4
      DHO_DHCP_AGENT_OPTIONS in
  let run := pkt4_receive ffi_result fetched_machine query4 in
  (List.length (getData link_select) = 4%nat ->
   update_discovery_parameters_option82 ffi_result RAI_OPTION_LINK_SELECTION option_val
   = (ffi_result (discovery_set_link_select addr),
      [Ffi (discovery_set_link_select addr)])
   /\ (exists rest,
          snd extraction
          = Log INFO "LOG_CARBIDE_GENERIC"
            :: Ffi (discovery_set_link_select addr) :: rest
          /\ forall a, ~ In (Ffi (discovery_set_link_select a)) rest)
   /\ (ffi_result (discovery_set_link_select addr) <> Success ->
       extraction
       = (ffi_result (discovery_set_link_select addr),
          [Log INFO "LOG_CARBIDE_GENERIC";
           Ffi (discovery_set_link_select addr);
           Log ERROR
             "LOG_CARBIDE_PKT4_RECEIVE: Failed in handling link select address."]))
   /\ (isRelayed query4 = true ->
       exists before after,
         snd run = (before ++ Ffi (discovery_set_link_select addr) :: after)%list
         /\ (forall call, ~ In (Ffi call) before)
         /\ forall a, ~ In (Ffi (discovery_set_link_select a)) after))
  /\ (List.length (getData link_select) <> 4%nat ->
      update_discovery_parameters_option82 ffi_result RAI_OPTION_LINK_SELECTION
        option_val
      = (Success, [])
      /\ (forall a,
             ~ In (Ffi (discovery_set_link_select a))
                  (snd (update_discovery_parameters_OptionCustom ffi_result
                          DHO_DHCP_AGENT_OPTIONS option_val)))
      /\ (forall a, ~ In (Ffi (discovery_set_link_select a)) (snd extraction))
      /\ (forall a, ~ In (Ffi (discovery_set_link_select a)) (snd run))).
Proof.
  intros Hget Hpay Hsub addr extraction run.
  pose proof (link_select_step option_val link_select Hsub) as Hlink.
  pose proof (extraction_of_option82 query4 option_val data Hget Hpay) as Hext.
  destruct (option82_handling option_val) as [(rest & Hwhole & Hrest) Hfail].
  fold extraction in Hext. fold addr in Hlink.
  split; intros Hlen.
  - rewrite Hlen in Hlink. change (Z.of_nat 4 =? 4) with true in Hlink.
    cbv iota in Hlink. unfold ffi in Hlink.
    rewrite Hlink in Hwhole, Hfail. cbn [fst snd app] in Hwhole, Hfail.
    assert (Htrace : snd extraction
                     = Log INFO "LOG_CARBIDE_GENERIC"
                       :: Ffi (discovery_set_link_select addr) :: rest).
    { rewrite Hext. cbn [snd]. now rewrite Hwhole. }
    split; [exact Hlink|].
    split; [exists rest; split; [exact Htrace | exact Hrest]|].
    split.
    + intros Hres. rewrite Hext, Hfail; [reflexivity|].
      destruct (ffi_result (discovery_set_link_select addr));
        [contradiction | reflexivity].
    + intros Hrel.
      destruct (pkt4_receive_starts query4 Hrel) as (tail & Hrun & Htail).
      fold extraction in Hrun. fold run in Hrun. rewrite Htrace in Hrun.
      exists [Log INFO "LOG_CARBIDE_PKT4_RECEIVE";
              carbide_increment_total_requests;
              Log INFO "LOG_CARBIDE_PKT4_RECEIVE: Packet type name: %1";
              Log INFO "LOG_CARBIDE_GENERIC"], (rest ++ tail)%list.
      split; [exact Hrun|]. split.
      * intros call Hin. simpl in Hin. intuition discriminate.
      * intros a Hin. apply in_app_or in Hin as [Hin|Hin];
          [exact (Hrest a Hin) | exact (Htail a Hin)].
  - assert (Hneq : (Z.of_nat (List.length (getData link_select)) =? 4) = false)
      by (apply Z.eqb_neq; lia).
    rewrite Hneq in Hlink. unfold rx_ret in Hlink.
    rewrite Hlink in Hwhole. cbn [snd app] in Hwhole.
    assert (Hno : forall a,
               ~ In (Ffi (discovery_set_link_select a)) (snd extraction)).
    { intros a. rewrite Hext. cbn [snd]. rewrite Hwhole.
      intros [Hin|Hin]; [discriminate Hin | exact (Hrest a Hin)]. }
    split; [exact Hlink|].
    split; [intros a; rewrite Hwhole; apply Hrest|].
    split; [exact Hno|].
    intros a. unfold run.
    destruct (isRelayed query4) eqn:Hrel.
    + destruct (pkt4_receive_starts query4 Hrel) as (tail & Hrun & Htail).
      rewrite Hrun. intros Hin.
      apply in_app_or in Hin as [Hin|Hin];
        [simpl in Hin; intuition discriminate|].
      apply in_app_or in Hin as [Hin|Hin];
        [exact (Hno a Hin) | exact (Htail a Hin)].
    + unfold pkt4_receive. rewrite Hrel. simpl. intuition discriminate.
Qed.

End ReceiveFacts.

Section ShortCircuit.

Variable ffi_result : FFICall -> DiscoveryBuilderResult.
Variable fetched_machine : option Machine.

Local Arguments update_discovery_parameters : simpl never.
Local Arguments desired_address_block : simpl never.

Lemma first_failure_app (a b : list Event) :
  first_failure ffi_result (a ++ b)
  = match first_failure ffi_result a with
    | Some (call, rest) => Some (call, (rest ++ b)%list)
    | None => first_failure ffi_result b
    end.
Proof.
  induction a as [|e a IH]; simpl; [reflexivity|].
  destruct e as [sev msg|call| |reason|st|m]; try exact IH.
  now destruct (checked_call call && negb (is_Success (ffi_result call))).
Qed.

Lemma first_failure_failed (t rest : list Event) (call : FFICall) :
  first_failure ffi_result t = Some (call, rest) ->
  checked_call call = true /\ is_Success (ffi_result call) = false.
Proof.
  induction t as [|e t IH]; simpl; [discriminate|].
  destruct e as [sev msg|c| |reason|st|m]; try exact IH.
  destruct (checked_call c && negb (is_Success (ffi_result c))) eqn:E;
    [|exact IH].
  intros [= <- <-]. apply andb_true_iff in E as [E1 E2].
  split; [exact E1|]. now apply negb_true_iff in E2.
Qed.

(** A failed checked call that has no call after the first failure of the
    trace is that first failure. *)
Lemma first_failure_split (before after rest : list Event) (call c0 : FFICall) :
  checked_call call = true ->
  is_Success (ffi_result call) = false ->
  first_failure ffi_result (before ++ Ffi call :: after) = Some (c0, rest) ->
  forallb (fun e => negb (is_ffi e)) rest = true ->
  c0 = call /\ rest = after.
Proof.
  intros Hc Hf. induction before as [|e before IH]; simpl.
  - rewrite Hc, Hf. simpl. now intros [= <- <-].
  - destruct e as [sev msg|c| |reason|st|m]; try exact IH.
    destruct (checked_call c && negb (is_Success (ffi_result c))); [|exact IH].
    intros [= <- <-] Hno. rewrite forallb_app in Hno.
    apply andb_true_iff in Hno as [_ Hno]. simpl in Hno. discriminate Hno.
Qed.

Lemma first_failure_some (before after : list Event) (call : FFICall) :
  checked_call call = true ->
  is_Success (ffi_result call) = false ->
  first_failure ffi_result (before ++ Ffi call :: after) <> None.
Proof.
  intros Hc Hf. rewrite first_failure_app.
  destruct (first_failure ffi_result before) as [[c r]|]; [discriminate|].
  simpl. rewrite Hc, Hf. discriminate.
Qed.

(** Each extraction step returns [Success] when none of its calls fails, and
    otherwise the result of the call that fails, after which it makes no
    call. *)
Lemma update_discovery_parameters_stops (T : OptionClass) (query4 : Pkt4)
  (option : Z) :
  match first_failure ffi_result
          (snd (update_discovery_parameters ffi_result T query4 option)) with
  | None => fst (update_discovery_parameters ffi_result T query4 option) = Success
  | Some (call, rest) =>
      fst (update_discovery_parameters ffi_result T query4 option) = ffi_result call
      /\ forallb (fun e => negb (is_ffi e)) rest = true
  end.
Proof.
  unfold update_discovery_parameters, update_discovery_parameters_OptionCustom,
    update_discovery_parameters_OptionString,
    update_discovery_parameters_OptionUint16,
    update_discovery_parameters_option82, rx_bind, rx_ret, ffi, LOG_INFO,
    LOG_ERROR, emit.
  destruct T; rx_cases;
    repeat match goal with
           | H : is_Success ?r = _ |- _ => rewrite ?H; clear H
           | H : ?r = Success |- _ => rewrite ?H in *; clear H
           | H : ?r = BuilderFailure _ |- _ => rewrite ?H in *; clear H
           end;
    simpl; auto; try discriminate;
    match goal with
    | H : negb (is_Success ?r) = false |- ?r = Success =>
        destruct r; [reflexivity | discriminate H]
    end.
Qed.

Lemma desired_address_block_no_failure (query4 : Pkt4) :
  first_failure ffi_result (snd (desired_address_block ffi_result query4)) = None.
Proof.
  unfold desired_address_block, rx_bind, rx_ret, ffi, LOG_INFO, LOG_ERROR, emit.
  rx_cases; reflexivity.
Qed.

Ltac sc_trace :=
  repeat progress
    (simpl;
     repeat match goal with
            | H : first_failure _ ?t = _ |- context [first_failure _ (?t ++ _)] =>
                rewrite (first_failure_app t), H
            | H : ?r = _ |- context [is_Success ?r] => rewrite H
            end).

Ltac sc_done :=
  sc_trace;
  try exact I;
  repeat match goal with
         | S : _ = ffi_result ?f |- context [ffi_result ?f] => rewrite <- S
         | S : ffi_result ?f = _ |- context [ffi_result ?f] => rewrite S
         end;
  repeat split;
    try (rewrite forallb_app; apply andb_true_iff; split; [assumption|reflexivity]);
    try reflexivity;
    try (apply in_or_app; right; simpl; now auto);
    try (simpl; now auto).

Ltac sc_stage T q c :=
  let S := fresh "S" in
  let F := fresh "F" in
  let r := fresh "r" in
  let t := fresh "t" in
  pose proof (update_discovery_parameters_stops T q c) as S;
  destruct (update_discovery_parameters ffi_result T q c) as [r t];
  simpl in S;
  destruct (first_failure ffi_result t) as [[? ?]|] eqn:F;
  [ let Hf := fresh "Hf" in
    let Hr := fresh "Hr" in
    destruct S as [S ?];
    pose proof (first_failure_failed _ _ _ F) as [_ Hf];
    rewrite <- S in Hf;
    destruct r as [|?]; [discriminate Hf|]; sc_done
  | subst r ].

(** What is left of C3 once the requested address is set apart: when a call
    on the discovery builder other than [discovery_set_desired_address] fails,
    [pkt4_receive] makes no call on the builder after it, neither a setter
    nor [discovery_fetch_machine]; it asks for the drop, counts the drop under
    the name of that failure and returns 1. *)
Theorem checked_failure_stops_discovery (query4 : Pkt4) (call : FFICall)
  (before after : list Event) :
  snd (pkt4_receive ffi_result fetched_machine query4)
  = (before ++ Ffi call :: after)%list ->
  checked_call call = true ->
  is_Success (ffi_result call) = false ->
  (forall call', ~ In (Ffi call') after)
  /\ fst (pkt4_receive ffi_result fetched_machine query4) = 1
  /\ In (handle_setStatus NEXT_STEP_DROP) after
  /\ In (carbide_increment_dropped_requests
           (discovery_builder_result_as_str (ffi_result call))) after.
Proof.
  intros Htrace Hchecked Hfailed.
  assert (Hrun :
    match first_failure ffi_result
            (snd (pkt4_receive ffi_result fetched_machine query4)) with
    | None => True
    | Some (c, rest) =>
        forallb (fun e => negb (is_ffi e)) rest = true
        /\ fst (pkt4_receive ffi_result fetched_machine query4) = 1
        /\ In (handle_setStatus NEXT_STEP_DROP) rest
        /\ In (carbide_increment_dropped_requests
                 (discovery_builder_result_as_str (ffi_result c))) rest
    end).
  { unfold pkt4_receive, rx_bind, rx_ret, ffi, LOG_INFO, LOG_ERROR, emit.
    destruct (isRelayed query4); [|exact I]. cbn [negb].
    sc_stage T_OptionCustom query4 DHO_DHCP_AGENT_OPTIONS.
    sc_stage T_OptionString query4 DHO_VENDOR_CLASS_IDENTIFIER.
    pose proof (desired_address_block_no_failure query4) as F50.
    destruct (desired_address_block ffi_result query4) as [u t50]. simpl in F50.
    sc_stage T_OptionUint16 query4 DHO_SYSTEM.
    destruct (ffi_result (discovery_set_relay (giaddr query4))) eqn:Er;
      [|sc_done].
    destruct (ffi_result (discovery_set_mac_address (hwaddr query4))) eqn:Em;
      [|sc_done].
    destruct (ffi_result discovery_fetch_machine) eqn:Ef;
      destruct fetched_machine; sc_done. }
  rewrite Htrace in Hrun.
  destruct (first_failure ffi_result (before ++ Ffi call :: after))
    as [[c0 rest]|] eqn:F;
    [|now apply first_failure_some in F].
  destruct Hrun as (Hno & Hret & Hdrop & Hcount).
  destruct (first_failure_split _ _ _ _ _ Hchecked Hfailed F Hno) as [-> ->].
  repeat split; trivial.
  intros call' Hin.
  apply (proj1 (forallb_forall _ _) Hno) in Hin. discriminate Hin.
Qed.

End ShortCircuit.

Lemma non_relayed_dropped_witness :
  giaddr direct_query = 0
  /\ fst (pkt4_receive all_succeed (Some example_machine) direct_query) = 0
  /\ ~ In (Ffi discovery_fetch_machine)
          (snd (pkt4_receive all_succeed (Some example_machine) direct_query)).
Proof.
  destruct (non_relayed_dropped all_succeed (Some example_machine)
              direct_query eq_refl) as [E N].
  split; [reflexivity|]. split; [now rewrite E | apply N].
Defined.

(** The example of the specification: a link-selection sub-option of
    10.0.0.5, and the same sub-option cut to three bytes. *)
Lemma link_selection_extraction_witness :
  let agent_options bytes :=
    MkOption DHO_DHCP_AGENT_OPTIONS (Custom [])
      [MkOption RAI_OPTION_LINK_SELECTION (Generic bytes) []] in
  snd (update_discovery_parameters all_succeed T_OptionCustom
         (query_of [agent_options [10; 0; 0; 5]]) DHO_DHCP_AGENT_OPTIONS)
  = [Log INFO "LOG_CARBIDE_GENERIC"; Ffi (discovery_set_link_select 167772165)]
  /\ IOAddress_toText 167772165 = "10.0.0.5"
  /\ In (Ffi (discovery_set_link_select 167772165))
        (snd (pkt4_receive all_succeed (Some example_machine)
                (query_of [agent_options [10; 0; 0; 5]])))
  /\ update_discovery_parameters_option82 all_succeed RAI_OPTION_LINK_SELECTION
       (agent_options [10; 0; 0])
     = (Success, [])
  /\ ~ In (Ffi (discovery_set_link_select 167772160))
          (snd (pkt4_receive all_succeed (Some example_machine)
                  (query_of [agent_options [10; 0; 0]]))).
Proof.
  intros agent_options.
  pose proof (link_selection_extraction all_succeed (Some example_machine)
                (query_of [agent_options [10; 0; 0; 5]])
                (agent_options [10; 0; 0; 5])
                (MkOption RAI_OPTION_LINK_SELECTION (Generic [10; 0; 0; 5]) [])
                [] eq_refl eq_refl eq_refl) as [Hfour _].
  pose proof (link_selection_extraction all_succeed (Some example_machine)
                (query_of [agent_options [10; 0; 0]])
                (agent_options [10; 0; 0])
                (MkOption RAI_OPTION_LINK_SELECTION (Generic [10; 0; 0]) [])
                [] eq_refl eq_refl eq_refl) as [_ Hthree].
  destruct (Hfour eq_refl) as (_ & (rest & Htrace & _) & _ & Hrun).
  destruct (Hrun eq_refl) as (before & after & Erun & _).
  destruct Hthree as (Hstep & _ & _ & Hnever); [simpl; lia|].
  split; [reflexivity|]. split; [reflexivity|].
  split; [rewrite Erun; apply in_or_app; right; left; reflexivity|].
  split; [exact Hstep | apply Hnever].
Defined.

(** The example of the specification: a requested address of three bytes. *)
Lemma wrong_length_desired_address_witness :
  let query4 := query_of [MkOption DHO_DHCP_REQUESTED_ADDRESS (Generic [10; 0; 0]) [];
                          MkOption DHO_VENDOR_CLASS_IDENTIFIER (Text "PXEClient") []] in
  let run := pkt4_receive all_succeed (Some example_machine) query4 in
  (forall text, ~ In (Ffi (discovery_set_desired_address text)) (snd run))
  /\ In desired_length_diagnostic (snd run)
  /\ In (Ffi discovery_fetch_machine) (snd run)
  /\ fst run = 0.
Proof.
  intros query4 run.
  destruct (wrong_length_desired_address all_succeed (Some example_machine) query4
              (MkOption DHO_DHCP_REQUESTED_ADDRESS (Generic [10; 0; 0]) []))
    as [Hno Hgo]; [reflexivity | reflexivity | simpl; lia |].
  destruct (Hgo (fun call _ => eq_refl))
    as (before & after & E & _ & _ & _ & Hfetch & Hend).
  destruct (Hend example_machine eq_refl eq_refl) as (Hret & _ & _).
  split; [exact Hno|]. fold run in E. rewrite E.
  split; [apply in_or_app; right; left; reflexivity|].
  split; [apply in_or_app; right; right; exact Hfetch | exact Hret].
Defined.

(** C3, the input on which the code departs from it.  The query is relayed
    and has a requested address of four bytes, 10.0.0.7; the Rust side refuses
    [discovery_set_desired_address].  [pkt4_receive] does not look at what
    that call returns: it goes on to the client system type (absent here, so it
    logs that), to [discovery_set_relay], [discovery_set_mac_address] and
    [discovery_fetch_machine], stores the machine and returns 0; no drop is
    asked for and no failure is reported. *)
Theorem desired_address_failure_not_propagated :
  desired_address_refused (discovery_set_desired_address "10.0.0.7") = BuilderFailure 1
  /\ pkt4_receive desired_address_refused (Some example_machine)
       (query_of [MkOption DHO_DHCP_REQUESTED_ADDRESS (Generic [10; 0; 0; 7]) [];
                  MkOption DHO_VENDOR_CLASS_IDENTIFIER (Text "PXEClient") []])
     = (0, [Log INFO "LOG_CARBIDE_PKT4_RECEIVE";
            carbide_increment_total_requests;
            Log INFO "LOG_CARBIDE_PKT4_RECEIVE: Packet type name: %1";
            Log INFO "LOG_CARBIDE_GENERIC";
            Ffi (discovery_set_vendor_class "PXEClient");
            Ffi (discovery_set_desired_address "10.0.0.7");
            Log INFO "LOG_CARBIDE_PKT4_RECEIVE: Desired Address [%1] set";
            Log ERROR "LOG_CARBIDE_PKT4_RECEIVE: Missing option [%1] in packet";
            Ffi (discovery_set_relay 3221225985);
            Ffi (discovery_set_mac_address [170; 187; 204; 221; 238; 255]);
            Ffi discovery_fetch_machine;
            handle_setContext_machine example_machine]).
Proof. split; vm_compute; reflexivity. Qed.

(** * Further properties of the send phase *)

Section SendExtras.

Variable unique_v4 : bool.

Lemma pkt_del_header (pkt : Pkt4) (c : Z) : same_header pkt (pkt_del pkt c).
Proof. unfold same_header, pkt_del. simpl. tauto. Qed.

Lemma Pkt4_addOption_header (o : KeaOption) (pkt : Pkt4) :
  same_header pkt (snd (Pkt4_addOption unique_v4 o pkt)).
Proof.
  unfold same_header, Pkt4_addOption.
  destruct (addOption_to unique_v4 (options pkt) o); simpl; tauto.
Qed.

Lemma same_header_trans (p q r : Pkt4) :
  same_header p q -> same_header q r -> same_header p r.
Proof. unfold same_header. intuition congruence. Qed.

Lemma update_option_try_header (c : Z) (param : any) (pkt : Pkt4) :
  same_header pkt (snd (update_option_try unique_v4 c param pkt)).
Proof.
  rewrite update_option_try_eq, resetAndAddOption_eq. cbv zeta.
  assert (H0 : same_header pkt
                 (if c =? DHO_INTERFACE_MTU
                  then pkt_del (pkt_del pkt c) c else pkt_del pkt c)).
  { destruct (c =? DHO_INTERFACE_MTU).
    - eapply same_header_trans; apply pkt_del_header.
    - apply pkt_del_header. }
  destruct (handed_option c (coll_get (options pkt) c) param) as [[o|]|e];
    simpl; try exact H0.
  eapply same_header_trans; [exact H0 | apply Pkt4_addOption_header].
Qed.

(** A call of [update_option] changes, of the response, the options of its
    own code and nothing else: the header fields and the options of every
    other code stay; of the handle it can change the status only. *)
Theorem update_option_own_code_only (h : CalloutHandle) (pkt : Pkt4) (c : Z)
  (param : any) :
  let r := update_option unique_v4 h pkt c param in
  same_header pkt (snd r)
  /\ (forall c', c' <> c ->
        options_with c' (options (snd r)) = options_with c' (options pkt))
  /\ context_machine (fst r) = context_machine h.
Proof.
  intros r. unfold r. split; [|split].
  - rewrite update_option_snd. apply update_option_try_header.
  - intros c' Hne. rewrite update_option_snd.
    now apply update_option_try_frame.
  - rewrite update_option_status.
    now destruct (threw (fst (update_option_try unique_v4 c param pkt))).
Qed.

Lemma handed_option_unhandled (c : Z) (old : OptionPtr) (param : any) :
  ~ In c handled_codes -> handed_option c old param = Ok None.
Proof.
  intros Hnin. unfold handed_option.
  unfold handled_codes in Hnin. simpl in Hnin.
  repeat match goal with
         | |- context [c =? ?k] =>
             destruct (Z.eqb_spec c k); [exfalso; apply Hnin; intuition congruence|]
         end.
  reflexivity.
Qed.

(** For a code that [resetAndAddOption] has no case for, [update_option]
    still removes the first option of that code from the response (the
    constructor of the handler has done it) and adds nothing; it does not ask
    for the drop. *)
Theorem update_option_unhandled_code (h : CalloutHandle) (pkt : Pkt4) (c : Z)
  (param : any) :
  ~ In c handled_codes ->
  update_option unique_v4 h pkt c param = (h, pkt_del pkt c).
Proof.
  intros Hnin. unfold update_option.
  rewrite update_option_try_eq, resetAndAddOption_eq. cbv zeta.
  rewrite (handed_option_unhandled c _ param Hnin).
  destruct (Z.eqb_spec c DHO_INTERFACE_MTU) as [->|_]; [|reflexivity].
  exfalso. apply Hnin. unfold handled_codes. simpl. tauto.
Qed.

(** When the record has no boot file name, [update_option] for the boot
    file name leaves a response with at most one such option as it found it,
    as far as that code goes: the option that was there is taken out and put
    back.  The handle is unchanged. *)
Theorem boot_file_name_kept (h : CalloutHandle) (pkt : Pkt4) (m : Machine) :
  machine_get_filename m = None ->
  (List.length (options_with DHO_BOOT_FILE_NAME (options pkt)) <= 1)%nat ->
  let r := update_option unique_v4 h pkt DHO_BOOT_FILE_NAME (any_Machine m) in
  options_with DHO_BOOT_FILE_NAME (options (snd r))
  = options_with DHO_BOOT_FILE_NAME (options pkt)
  /\ fst r = h.
Proof.
  intros Hnone Hwf r. unfold r.
  destruct (update_option_try_same unique_v4 DHO_BOOT_FILE_NAME (any_Machine m)
              pkt Hwf) as [Hopt Hth].
  assert (Hh : handed_option DHO_BOOT_FILE_NAME
                 (coll_get (options pkt) DHO_BOOT_FILE_NAME) (any_Machine m)
               = Ok (coll_get (options pkt) DHO_BOOT_FILE_NAME)).
  { unfold handed_option, resetOption. simpl. now rewrite Hnone. }
  rewrite Hh in Hopt, Hth. split.
  - rewrite update_option_snd, Hopt, coll_get_hd.
    destruct (options_with DHO_BOOT_FILE_NAME (options pkt)) as [|x [|y l]];
      simpl in *; [reflexivity | reflexivity | lia].
  - rewrite update_option_status, Hth. reflexivity.
Qed.

End SendExtras.

Lemma update_option_unhandled_code_witness :
  update_option true example_handle (response_of [configured_vendor_option])
    DHO_VENDOR_ENCAPSULATED_OPTIONS (any_Machine example_machine)
  = (example_handle, response_of []).
Proof.
  rewrite (update_option_unhandled_code true example_handle
             (response_of [configured_vendor_option])
             DHO_VENDOR_ENCAPSULATED_OPTIONS (any_Machine example_machine)).
  - reflexivity.
  - unfold handled_codes. simpl. intuition discriminate.
Defined.

Lemma boot_file_name_kept_witness :
  let pkt := response_of [MkOption DHO_BOOT_FILE_NAME (Text "pxelinux.0") []] in
  options_with DHO_BOOT_FILE_NAME
    (options (snd (update_option true example_handle pkt DHO_BOOT_FILE_NAME
                     (any_Machine example_machine))))
  = [MkOption DHO_BOOT_FILE_NAME (Text "pxelinux.0") []].
Proof.
  intros pkt.
  destruct (boot_file_name_kept true example_handle pkt example_machine eq_refl)
    as [H _]; [vm_compute; lia | exact H].
Defined.

Section SendExtras2.

Variable unique_v4 : bool.

(** What a call hands to [addOption] either does not depend on the option
    that was there, or is that option. *)
Lemma handed_option_old (c : Z) (a : any) :
  (forall old old', handed_option c old a = handed_option c old' a)
  \/ (forall old, handed_option c old a = Ok old).
Proof.
  unfold handed_option, resetOption.
  by_code c; destruct a; simpl; try (left; reflexivity);
    try (destruct (machine_get_filename m); [left; reflexivity | right; reflexivity]).
Qed.

Lemma threw_handed_option (c : Z) (old : OptionPtr) (a : any) :
  threw (handed_option c old a) = value_throws (c, a).
Proof.
  unfold value_throws. simpl.
  destruct (handed_option_old c a) as [H|H].
  - now rewrite (H old None).
  - now rewrite !H.
Qed.

Lemma update_option_wf (h : CalloutHandle) (pkt : Pkt4) (c : Z) (a : any) :
  (forall c', (List.length (options_with c' (options pkt)) <= 1)%nat) ->
  forall c',
    (List.length (options_with c'
       (options (snd (update_option unique_v4 h pkt c a)))) <= 1)%nat.
Proof.
  intros Hwf c'. rewrite update_option_snd.
  destruct (Z.eq_dec c' c) as [->|Hne].
  - destruct (update_option_try_same unique_v4 c a pkt (Hwf c)) as [-> _].
    destruct (handed_option c (coll_get (options pkt) c) a) as [[o|]|e];
      simpl; lia.
  - rewrite update_option_try_frame by exact Hne. apply Hwf.
Qed.

Lemma run_calls_status (calls : list (Z * any)) :
  forall st : CalloutHandle * Pkt4,
    (forall c, (List.length (options_with c (options (snd st))) <= 1)%nat) ->
    fst (run_calls unique_v4 calls st)
    = if existsb value_throws calls
      then setStatus (fst st) NEXT_STEP_DROP else fst st.
Proof.
  induction calls as [|[c a] calls IH]; intros st Hwf; [reflexivity|].
  unfold run_calls. cbn [fold_left fst snd existsb].
  fold (run_calls unique_v4 calls (update_option unique_v4 (fst st) (snd st) c a)).
  rewrite IH by (now apply update_option_wf).
  rewrite update_option_status.
  destruct (update_option_try_same unique_v4 c a (snd st) (Hwf c)) as [_ ->].
  rewrite threw_handed_option.
  destruct (value_throws (c, a)); destruct (existsb value_throws calls);
    reflexivity.
Qed.

Lemma set_options_calls_throw (m : Machine) :
  existsb value_throws (set_options_calls m) = set_options_fails m.
Proof.
  unfold set_options_calls, set_options_fails, value_throws, handed_option,
    resetOption, new_OptionString.
  destruct (machine_get_mqtt_server m) as [mqtt|];
    destruct (String.length (machine_get_client_type m)) eqn:Ect; simpl;
    rewrite ?Ect; simpl;
    destruct (machine_get_filename m) as [f|];
    destruct (getAddresses (machine_get_nameservers m));
    destruct (getAddresses (machine_get_ntpservers m)); simpl;
    repeat match goal with
           | |- context [(String.length ?s =? 0)%nat] =>
               destruct (String.length s =? 0)%nat
           end; reflexivity.
Qed.

(** On a response with at most one option of every code, [set_options] asks
    for the drop exactly when a value of the record cannot be made into its
    option: name servers or NTP servers that do not parse, or an MQTT server,
    a host name or a boot file name of no characters.  It never takes a
    request for the drop back, and it keeps the context. *)
Theorem set_options_drop_exactly (h : CalloutHandle) (pkt : Pkt4) (m : Machine) :
  (forall c, (List.length (options_with c (options pkt)) <= 1)%nat) ->
  fst (set_options unique_v4 h pkt m)
  = if set_options_fails m then setStatus h NEXT_STEP_DROP else h.
Proof.
  intros Hwf. rewrite set_options_run, run_calls_status by exact Hwf.
  now rewrite set_options_calls_throw.
Qed.

(** [set_options] applied twice with one record leaves, under every code of
    which the response had at most one option, the options that it leaves
    when applied once. *)
Theorem set_options_twice (h h' : CalloutHandle) (pkt : Pkt4) (m : Machine)
  (c : Z) :
  (List.length (options_with c (options pkt)) <= 1)%nat ->
  options_with c
    (options (snd (set_options unique_v4 h'
                     (snd (set_options unique_v4 h pkt m)) m)))
  = options_with c (options (snd (set_options unique_v4 h pkt m))).
Proof.
  intros Hwf.
  destruct (in_dec Z.eq_dec c (map fst (set_options_calls m))) as [Hin|Hnin].
  - apply in_map_iff in Hin as [[k a] [Hk Hin]]. simpl in Hk. subst k.
    pose proof (set_options_same unique_v4 h pkt m c a Hin Hwf) as H1.
    assert (Hwf1 : (List.length (options_with c
               (options (snd (set_options unique_v4 h pkt m)))) <= 1)%nat).
    { rewrite H1.
      destruct (handed_option c (hd_error (options_with c (options pkt))) a)
        as [[o|]|e]; simpl; lia. }
    rewrite (set_options_same unique_v4 h' _ m c a Hin Hwf1), H1.
    destruct (handed_option_old c a) as [H|H].
    + now rewrite (H (hd_error _) (hd_error (options_with c (options pkt)))).
    + rewrite !H.
      now destruct (hd_error (options_with c (options pkt))).
  - now rewrite !set_options_frame.
Qed.

Lemma run_calls_header (calls : list (Z * any)) :
  forall st : CalloutHandle * Pkt4,
    same_header (snd st) (snd (run_calls unique_v4 calls st)).
Proof.
  induction calls as [|[c a] calls IH]; intros st.
  - unfold same_header. simpl. tauto.
  - unfold run_calls. cbn [fold_left fst snd].
    eapply same_header_trans; [|apply IH].
    rewrite update_option_snd. apply update_option_try_header.
Qed.

Lemma pkt4_send_result (h : CalloutHandle) (pkt : Pkt4) (m : Machine) :
  context_machine h = item (Some m) ->
  fst (fst (pkt4_send unique_v4 h pkt))
  = match addOption_to unique_v4
            (options (snd (set_options unique_v4 h pkt m))) (vendor_option_of m)
    with
    | Ok _ => Ok 0
    | Throw e => Throw e
    end.
Proof.
  intros Hctx. unfold pkt4_send, getContext. rewrite Hctx.
  rewrite <- (set_options_setYiaddr unique_v4 h pkt m
                (uint32 (machine_get_interface_address m))).
  destruct (set_options unique_v4 h
              (setYiaddr pkt (uint32 (machine_get_interface_address m))) m)
    as [h1 p1].
  rewrite set_vendor_options_eq. unfold Pkt4_addOption, vendor_option_of. simpl.
  now destruct (addOption_to unique_v4 (options p1) _).
Qed.

(** [pkt4_send] on a context that has no item "machine": the exception of
    [getContext] leaves it, with the handle and the response as they are.  On
    a context whose item is a null pointer it leaves the response as it is,
    asks for the drop and returns 1.  With a machine it sets the address of
    the client and the next-server address of the response to those of the
    record, whatever happens to the options, and keeps the relay address and
    the hardware address. *)
Theorem pkt4_send_header (h : CalloutHandle) (pkt : Pkt4) :
  match context_machine h with
  | no_item => pkt4_send unique_v4 h pkt = (Throw NoSuchCalloutContext, h, pkt)
  | item None => pkt4_send unique_v4 h pkt = (Ok 1, setStatus h NEXT_STEP_DROP, pkt)
  | item (Some m) =>
      let pkt' := snd (pkt4_send unique_v4 h pkt) in
      yiaddr pkt' = uint32 (machine_get_interface_address m)
      /\ siaddr pkt' = uint32 (machine_get_next_server m)
      /\ giaddr pkt' = giaddr pkt
      /\ hwaddr pkt' = hwaddr pkt
  end.
Proof.
  unfold pkt4_send, getContext.
  destruct (context_machine h) as [|[m|]]; [reflexivity| |reflexivity].
  pose proof (run_calls_header (set_options_calls m)
                (h, setYiaddr pkt (uint32 (machine_get_interface_address m))))
    as Hh.
  rewrite <- set_options_run in Hh.
  destruct (set_options unique_v4 h
              (setYiaddr pkt (uint32 (machine_get_interface_address m))) m)
    as [h1 p1].
  pose proof (Pkt4_addOption_header unique_v4 (vendor_option_of m)
                (setSiaddr p1 (uint32 (machine_get_next_server m)))) as Hv.
  rewrite set_vendor_options_eq. fold (vendor_option_of m).
  destruct (Pkt4_addOption unique_v4 (vendor_option_of m)
              (setSiaddr p1 (uint32 (machine_get_next_server m))))
    as [[u|e] p2]; unfold same_header in *; simpl in *; intuition congruence.
Qed.

Lemma set_options_calls_handled (m : Machine) (c : Z) :
  In c (map fst (set_options_calls m)) -> In c handled_codes.
Proof.
  unfold set_options_calls, handled_codes.
  destruct (machine_get_mqtt_server m);
    destruct (0 <? String.length (machine_get_client_type m))%nat; cbn;
    intuition.
Qed.

(** [pkt4_send] leaves alone every option of the response whose code is
    neither one that [resetAndAddOption] has a case for nor the code of the
    vendor-encapsulated options. *)
Theorem pkt4_send_other_codes (h : CalloutHandle) (pkt : Pkt4) (c : Z) :
  ~ In c handled_codes ->
  c <> DHO_VENDOR_ENCAPSULATED_OPTIONS ->
  options_with c (options (snd (pkt4_send unique_v4 h pkt)))
  = options_with c (options pkt).
Proof.
  intros Hnin Hne.
  destruct (context_machine h) as [|[m|]] eqn:Hctx.
  - unfold pkt4_send, getContext. now rewrite Hctx.
  - rewrite (pkt4_send_frame unique_v4 h pkt m c Hctx Hne).
    apply set_options_frame. intros Hin. apply Hnin.
    now apply (set_options_calls_handled m).
  - unfold pkt4_send, getContext. now rewrite Hctx.
Qed.

(** [pkt4_send] with a machine in the context, and the vendor-encapsulated
    options.  A response that has none gets the one of the record, and
    [pkt4_send] returns 0.  A response that has some already keeps them:
    where [addOption] refuses a second option of a code, the exception leaves
    [pkt4_send] and the options are those that [set_options] left; where it
    takes it, the option of the record comes after the ones that were there
    and [pkt4_send] returns 0. *)
Theorem pkt4_send_vendor_option (h : CalloutHandle) (pkt : Pkt4) (m : Machine) :
  context_machine h = item (Some m) ->
  let r := pkt4_send unique_v4 h pkt in
  match options_with DHO_VENDOR_ENCAPSULATED_OPTIONS (options pkt) with
  | [] =>
      fst (fst r) = Ok 0
      /\ options_with DHO_VENDOR_ENCAPSULATED_OPTIONS (options (snd r))
         = [vendor_option_of m]
  | old :: others =>
      if unique_v4 then
        fst (fst r) = Throw BadValue
        /\ options (snd r) = options (snd (set_options unique_v4 h pkt m))
      else
        fst (fst r) = Ok 0
        /\ options_with DHO_VENDOR_ENCAPSULATED_OPTIONS (options (snd r))
           = (old :: others ++ [vendor_option_of m])%list
  end.
Proof.
  intros Hctx r. unfold r.
  rewrite (pkt4_send_result h pkt m Hctx), (pkt4_send_options unique_v4 h pkt m Hctx).
  fold (vendor_option_of m).
  pose proof (set_options_frame unique_v4 h pkt m DHO_VENDOR_ENCAPSULATED_OPTIONS
                (set_options_calls_no_vendor m)) as Hfr.
  unfold addOption_to. rewrite coll_get_hd.
  change (getType (vendor_option_of m)) with DHO_VENDOR_ENCAPSULATED_OPTIONS.
  rewrite Hfr.
  destruct (options_with DHO_VENDOR_ENCAPSULATED_OPTIONS (options pkt))
    as [|old others] eqn:E; simpl.
  - split; [reflexivity|]. rewrite options_with_insert, Hfr. reflexivity.
  - destruct unique_v4; split; try reflexivity.
    rewrite options_with_insert, Hfr. reflexivity.
Qed.

End SendExtras2.

Lemma set_options_drop_exactly_witness :
  status (fst (set_options true example_handle (response_of [])
                 machine_bad_nameservers)) = NEXT_STEP_DROP
  /\ status (fst (set_options true example_handle (response_of [])
                    example_machine)) = NEXT_STEP_CONTINUE.
Proof.
  split.
  - rewrite (set_options_drop_exactly true example_handle (response_of [])
               machine_bad_nameservers); [reflexivity|].
    intros c. simpl. lia.
  - rewrite (set_options_drop_exactly true example_handle (response_of [])
               example_machine); [reflexivity|].
    intros c. simpl. lia.
Defined.

Lemma set_options_twice_witness :
  let once := snd (set_options true example_handle
                     (response_of [new_OptionInt16 DHO_INTERFACE_MTU 1500])
                     example_machine) in
  options_with DHO_INTERFACE_MTU
    (options (snd (set_options true example_handle once example_machine)))
  = [MkOption DHO_INTERFACE_MTU (Uint16 1400) []].
Proof.
  intros once. unfold once.
  rewrite (set_options_twice true example_handle example_handle
             (response_of [new_OptionInt16 DHO_INTERFACE_MTU 1500])
             example_machine DHO_INTERFACE_MTU).
  - vm_compute. reflexivity.
  - vm_compute. lia.
Defined.

Lemma pkt4_send_other_codes_witness :
  options_with 51
    (options (snd (pkt4_send true example_handle
                     (response_of [new_OptionInt32 51 3600]))))
  = [new_OptionInt32 51 3600].
Proof.
  rewrite (pkt4_send_other_codes true example_handle
             (response_of [new_OptionInt32 51 3600]) 51).
  - reflexivity.
  - unfold handled_codes. simpl. intuition discriminate.
  - discriminate.
Defined.

Lemma pkt4_send_vendor_option_witness :
  fst (fst (pkt4_send true example_handle (response_of []))) = Ok 0
  /\ options_with DHO_VENDOR_ENCAPSULATED_OPTIONS
       (options (snd (pkt4_send true example_handle (response_of []))))
     = [example_vendor_option].
Proof.
  exact (pkt4_send_vendor_option true example_handle (response_of [])
           example_machine eq_refl).
Defined.

Lemma pkt4_send_unique_codes_witness :
  let pkt := response_of [new_OptionInt16 DHO_INTERFACE_MTU 1500] in
  fst (fst (pkt4_send true example_handle pkt)) = Ok 0
  /\ (List.length (options_with DHO_INTERFACE_MTU
                     (options (snd (pkt4_send true example_handle pkt)))) <= 1)%nat.
Proof.
  intros pkt.
  destruct (pkt4_send_unique_codes true example_handle pkt example_machine eq_refl)
    as [H0 H1].
  - intros c. simpl. destruct (has_type c _); simpl; lia.
  - reflexivity.
  - split; [exact H0 | apply H1].
Defined.

(** * Further properties of the address texts *)

Lemma all_octets_spec (P : Z -> bool) :
  forallb P all_octets = true -> forall a, octet a -> P a = true.
Proof.
  intros H a [Ha1 Ha2].
  apply (proj1 (forallb_forall P all_octets) H).
  unfold all_octets. rewrite <- (Z2Nat.id a Ha1).
  apply in_map. apply in_seq. lia.
Qed.

Lemma inet_pton4_digits (s : string) :
  forall (rest : string) (done : list Z) (tp : Z) (saw : bool) (v : Z),
    read_digits s tp saw = Some v ->
    (List.length done <= 3)%nat ->
    inet_pton4 (s ++ rest) done tp saw = inet_pton4 rest done v true.
Proof.
  induction s as [|ch s IH]; intros rest done tp saw v; simpl.
  - destruct saw; [|discriminate]. now intros [= <-].
  - intros H Hlen. destruct (is_digit ch); [|discriminate].
    assert (Hleb : Nat.leb 4 (List.length done) = false)
      by (apply Nat.leb_gt; lia).
    destruct saw; simpl in *; rewrite ?Hleb;
      repeat match type of H with
             | context [if ?b then _ else _] => destruct b; try discriminate H
             end; now apply IH.
Qed.

Lemma dec_read (a : Z) : octet a -> read_digits (dec a) 0 false = Some a.
Proof.
  intros Ha.
  pose proof (all_octets_spec
                (fun a => match read_digits (dec a) 0 false with
                          | Some v => v =? a
                          | None => false
                          end)) as H.
  specialize (H ltac:(vm_compute; reflexivity) a Ha). simpl in H.
  destruct (read_digits (dec a) 0 false) as [v|]; [|discriminate].
  apply Z.eqb_eq in H. now subst.
Qed.

Lemma dec_plain (a : Z) :
  octet a -> plain_text (dec a) = true /\ dec a <> EmptyString.
Proof.
  intros Ha.
  pose proof (all_octets_spec
                (fun a => plain_text (dec a)
                          && negb (String.eqb (dec a) EmptyString))) as H.
  specialize (H ltac:(vm_compute; reflexivity) a Ha). simpl in H.
  apply andb_true_iff in H as [H1 H2]. split; [exact H1|].
  intros E. rewrite E in H2. discriminate H2.
Qed.

Lemma inet_pton4_dot (rest : string) (done : list Z) (tp : Z) :
  (List.length done <= 2)%nat ->
  inet_pton4 (String "." rest) done tp true
  = inet_pton4 rest (done ++ [tp])%list 0 false.
Proof.
  intros Hlen. cbn [inet_pton4].
  assert (Hleb : Nat.leb 3 (List.length done) = false)
    by (apply Nat.leb_gt; lia).
  rewrite Hleb. reflexivity.
Qed.

Lemma octets_of_address (a : Z) :
  0 <= a < 2 ^ 32 ->
  octet (a / 2 ^ 24 mod 256) /\ octet (a / 2 ^ 16 mod 256)
  /\ octet (a / 2 ^ 8 mod 256) /\ octet (a mod 256)
  /\ be32 [a / 2 ^ 24 mod 256; a / 2 ^ 16 mod 256; a / 2 ^ 8 mod 256; a mod 256]
     = a.
Proof.
  intros Ha. unfold octet, be32. cbn [fold_left].
  change (2 ^ 24) with 16777216. change (2 ^ 16) with 65536.
  change (2 ^ 8) with 256. change (2 ^ 32) with 4294967296 in Ha.
  Z.div_mod_to_equations. lia.
Qed.

Lemma IOAddress_text_parses (a : Z) :
  0 <= a < 2 ^ 32 -> IOAddress_of_string (IOAddress_toText a) = Ok a.
Proof.
  intros Ha.
  destruct (octets_of_address a Ha) as (H1 & H2 & H3 & H4 & Hbe).
  unfold IOAddress_of_string, IOAddress_toText.
  rewrite (inet_pton4_digits _ _ _ _ _ _ (dec_read _ H1)) by (simpl; lia).
  simpl append. rewrite inet_pton4_dot by (simpl; lia).
  rewrite (inet_pton4_digits _ _ _ _ _ _ (dec_read _ H2)) by (simpl; lia).
  simpl append. rewrite inet_pton4_dot by (simpl; lia).
  rewrite (inet_pton4_digits _ _ _ _ _ _ (dec_read _ H3)) by (simpl; lia).
  simpl append. rewrite inet_pton4_dot by (simpl; lia).
  replace (dec (a mod 256)) with (dec (a mod 256) ++ "")%string
    by (clear; induction (dec (a mod 256)); simpl; congruence).
  rewrite (inet_pton4_digits _ _ _ _ _ _ (dec_read _ H4)) by (simpl; lia).
  cbn [inet_pton4 app List.length Nat.eqb andb]. now rewrite Hbe.
Qed.

Lemma plain_text_app (s t : string) :
  plain_text (s ++ t) = plain_text s && plain_text t.
Proof.
  induction s as [|ch s IH]; simpl; [reflexivity|].
  rewrite IH. now rewrite andb_assoc.
Qed.

Lemma IOAddress_toText_plain (a : Z) :
  0 <= a < 2 ^ 32 ->
  plain_text (IOAddress_toText a) = true /\ IOAddress_toText a <> EmptyString.
Proof.
  intros Ha.
  destruct (octets_of_address a Ha) as (H1 & H2 & H3 & H4 & _).
  unfold IOAddress_toText. split.
  - rewrite !plain_text_app.
    rewrite (proj1 (dec_plain _ H1)), (proj1 (dec_plain _ H2)),
      (proj1 (dec_plain _ H3)), (proj1 (dec_plain _ H4)).
    reflexivity.
  - destruct (dec (a / 2 ^ 24 mod 256)) eqn:E; [|discriminate].
    now apply (proj2 (dec_plain _ H1)) in E.
Qed.

Lemma getline_pieces_plain (s : string) :
  forall (t : string) (cur : list ascii),
    plain_text s = true ->
    getline_pieces (s ++ t) cur
    = getline_pieces t (rev (list_ascii_of_string s) ++ cur)%list.
Proof.
  induction s as [|ch s IH]; intros t cur; simpl; [reflexivity|].
  intros H. apply andb_true_iff in H as [H Hs].
  apply andb_true_iff in H as [Hc _].
  apply negb_true_iff in Hc. rewrite Hc.
  rewrite IH by exact Hs. now rewrite <- app_assoc.
Qed.

Lemma string_of_rev_rev (s : string) :
  string_of_list_ascii (rev (rev (list_ascii_of_string s) ++ [])) = s.
Proof.
  rewrite app_nil_r, rev_involutive. apply string_of_list_ascii_of_string.
Qed.

Lemma getline_pieces_join (l : list string) :
  Forall (fun s => plain_text s = true /\ s <> EmptyString) l ->
  getline_pieces (join_commas l) [] = l.
Proof.
  induction l as [|s rest IH]; intros H; [reflexivity|].
  inversion_clear H as [|? ? [Hp Hne] Hrest].
  destruct rest as [|s' rest].
  - simpl. replace s with (s ++ "")%string at 1
      by (clear; induction s; simpl; congruence).
    rewrite getline_pieces_plain by exact Hp. simpl.
    destruct (rev (list_ascii_of_string s) ++ [])%list eqn:E.
    + exfalso. apply Hne. rewrite <- (string_of_rev_rev s), E. reflexivity.
    + rewrite <- E. now rewrite string_of_rev_rev.
  - change (join_commas (s :: s' :: rest))
      with (s ++ String "," (join_commas (s' :: rest)))%string.
    rewrite getline_pieces_plain by exact Hp. simpl.
    rewrite string_of_rev_rev. f_equal. now apply IH.
Qed.

(** The addresses that [getAddresses] reads from the dotted-quad texts of
    32-bit addresses joined by commas are those addresses, in their order. *)
Theorem getAddresses_of_texts (l : list Z) :
  Forall (fun a => 0 <= a < 2 ^ 32) l ->
  getAddresses (join_commas (map IOAddress_toText l)) = Ok l.
Proof.
  intros H. unfold getAddresses.
  rewrite getline_pieces_join.
  - induction H as [|a l Ha Hl IH]; [reflexivity|].
    simpl. rewrite (IOAddress_text_parses a Ha), IH. reflexivity.
  - apply Forall_map. eapply Forall_impl; [|exact H].
    intros a Ha. now apply IOAddress_toText_plain.
Qed.

Lemma getAddresses_of_texts_witness :
  join_commas (map IOAddress_toText [167772161; 3232235777; 0])
  = "10.0.0.1,192.168.1.1,0.0.0.0"
  /\ getAddresses "10.0.0.1,192.168.1.1,0.0.0.0" = Ok [167772161; 3232235777; 0].
Proof.
  split; [reflexivity|].
  apply (getAddresses_of_texts [167772161; 3232235777; 0]).
  repeat constructor; lia.
Defined.

Lemma getline_pieces_trailing_comma (s : string) :
  forall (cur : list ascii) (ch : ascii),
    Ascii.eqb ch "," = false ->
    getline_pieces (s ++ String ch ",") cur
    = getline_pieces (s ++ String ch EmptyString) cur.
Proof.
  induction s as [|c s IH]; intros cur ch Hch; simpl.
  - rewrite Hch. simpl. reflexivity.
  - destruct (Ascii.eqb c ","); now rewrite IH.
Qed.

(** One comma at the end of the text, after a last character that is not a
    comma, changes nothing to what [getAddresses] reads or to how it fails. *)
Theorem getAddresses_trailing_comma (s : string) (ch : ascii) :
  ch <> ","%char ->
  getAddresses (s ++ String ch ",") = getAddresses (s ++ String ch EmptyString).
Proof.
  intros Hch. unfold getAddresses.
  rewrite getline_pieces_trailing_comma; [reflexivity|].
  now apply Ascii.eqb_neq.
Qed.

Lemma getAddresses_trailing_comma_witness :
  getAddresses "10.0.0.1,10.0.0.2," = Ok [167772161; 167772162].
Proof.
  change "10.0.0.1,10.0.0.2,"
    with ("10.0.0.1,10.0.0." ++ String "2"%char ",")%string.
  rewrite (getAddresses_trailing_comma "10.0.0.1,10.0.0." "2"%char).
  - reflexivity.
  - discriminate.
Defined.

Lemma IOAddress_each_empty_piece (pieces : list string) :
  In EmptyString pieces -> IOAddress_each pieces = Throw IOError.
Proof.
  induction pieces as [|s rest IH]; intros Hin; [contradiction|].
  simpl. unfold IOAddress_of_string at 1.
  destruct (inet_pton4 s [] 0 false) as [o|] eqn:E; [|reflexivity].
  destruct Hin as [->|Hin]; [discriminate E|].
  now rewrite (IH Hin).
Qed.

Lemma getline_pieces_empty_piece (s : string) :
  forall (rest : string) (cur : list ascii),
    In EmptyString (getline_pieces (s ++ String "," (String "," rest)) cur).
Proof.
  induction s as [|c s IH]; intros rest cur; simpl.
  - right. left. reflexivity.
  - destruct (Ascii.eqb c ","); [right|]; apply IH.
Qed.

(** An element of no characters makes [getAddresses] fail on the whole text,
    whatever the other elements are: two commas in a row anywhere, or a comma
    at the very start. *)
Theorem getAddresses_empty_element (s rest : string) :
  getAddresses (s ++ String "," (String "," rest)) = Throw IOError
  /\ getAddresses (String "," rest) = Throw IOError.
Proof.
  unfold getAddresses. split.
  - apply IOAddress_each_empty_piece, getline_pieces_empty_piece.
  - apply IOAddress_each_empty_piece. simpl. left. reflexivity.
Qed.

(** * Further properties of the receive phase *)

Lemma lor_disjoint (hi lo k : Z) :
  0 <= k -> 0 <= lo < 2 ^ k -> Z.lor (hi * 2 ^ k) lo = hi * 2 ^ k + lo.
Proof.
  intros Hk Hlo.
  assert (Hland : Z.land (hi * 2 ^ k) lo = 0).
  { apply Z.bits_inj'. intros n Hn. rewrite Z.land_spec, Z.bits_0.
    destruct (Z.lt_ge_cases n k) as [Hlt|Hge].
    - now rewrite Z.mul_pow2_bits_low.
    - destruct (Z.eq_dec lo 0) as [->|Hne].
      + rewrite Z.bits_0. apply andb_false_r.
      + rewrite (Z.bits_above_log2 lo n); [apply andb_false_r | lia |].
        apply Z.lt_le_trans with k; [|exact Hge].
        apply Z.log2_lt_pow2; lia. }
  rewrite <- (Z.lxor_lor _ _ Hland). symmetry.
  now apply Z.add_nocarry_lxor.
Qed.

(** The four bytes of a buffer, copied into a 32-bit integer of a
    little-endian host and passed through [htonl], are the address that the
    bytes spell in network order. *)
Lemma htonl_memcpy (a b c d : Z) :
  octet a -> octet b -> octet c -> octet d ->
  htonl (memcpy_uint32 [a; b; c; d]) = be32 [a; b; c; d].
Proof.
  unfold octet. intros Ha Hb Hc Hd.
  unfold memcpy_uint32, htonl, be32. cbn [firstn fold_right fold_left].
  change 255 with (Z.ones 8).
  rewrite !Z.land_ones, !Z.shiftr_div_pow2, !Z.shiftl_mul_pow2 by lia.
  set (x := a + 256 * (b + 256 * (c + 256 * (d + 256 * 0)))).
  assert (E0 : x mod 2 ^ 8 = a) by (unfold x; Z.div_mod_to_equations; lia).
  assert (E1 : (x / 2 ^ 8) mod 2 ^ 8 = b)
    by (unfold x; Z.div_mod_to_equations; lia).
  assert (E2 : (x / 2 ^ 16) mod 2 ^ 8 = c)
    by (unfold x; Z.div_mod_to_equations; lia).
  assert (E3 : (x / 2 ^ 24) mod 2 ^ 8 = d)
    by (unfold x; Z.div_mod_to_equations; lia).
  rewrite E0, E1, E2, E3.
  rewrite (lor_disjoint c d 8) by (change (2 ^ 8) with 256; lia).
  rewrite (lor_disjoint a (b * 2 ^ 16) 24)
    by (change (2 ^ 16) with 65536; change (2 ^ 24) with 16777216; lia).
  replace (a * 2 ^ 24 + b * 2 ^ 16) with ((a * 2 ^ 8 + b) * 2 ^ 16)
    by (change (2 ^ 8) with 256; change (2 ^ 16) with 65536;
        change (2 ^ 24) with 16777216; lia).
  rewrite lor_disjoint
    by (change (2 ^ 8) with 256; change (2 ^ 16) with 65536; lia).
  change (2 ^ 8) with 256. change (2 ^ 16) with 65536. lia.
Qed.

Lemma c_str_plain (s : string) : plain_text s = true -> c_str s = s.
Proof.
  induction s as [|ch s IH]; simpl; [reflexivity|].
  intros H. apply andb_true_iff in H as [H Hs].
  apply andb_true_iff in H as [_ Hz]. apply negb_true_iff in Hz.
  rewrite Hz. now rewrite IH.
Qed.

Lemma c_str_bytes (l : list Z) :
  Forall octet l -> c_str (string_of_bytes l) = string_of_bytes (until_zero l).
Proof.
  unfold string_of_bytes.
  induction 1 as [|b l Hb Hl IH]; simpl; [reflexivity|].
  pose proof (all_octets_spec
                (fun b => Bool.eqb (Ascii.eqb (ascii_of_N (Z.to_N b)) Ascii.zero)
                            (b =? 0))) as H.
  specialize (H ltac:(vm_compute; reflexivity) b Hb). simpl in H.
  apply Bool.eqb_prop in H. rewrite H.
  destruct (b =? 0); simpl; [reflexivity|]. now rewrite IH.
Qed.

(** Closes a goal that has an event in a trace where it cannot be. *)
Ltac not_in_trace :=
  repeat match goal with
         | H : False |- _ => contradiction H
         | H : _ \/ _ |- _ => destruct H as [H|H]
         | H : @eq Event _ _ |- _ => discriminate H
         | H : In _ (_ ++ _) |- _ => apply in_app_or in H; destruct H as [H|H]
         | H : In _ (_ :: _) |- _ => destruct H as [H|H]; [try discriminate H|]
         | H : In _ [] |- _ => contradiction H
         | F : Forall _ ?t, H : In _ ?t |- _ =>
             apply (proj1 (Forall_forall _ _) F) in H; discriminate H
         end.

Section ReceiveExtras.

Variable ffi_result : FFICall -> DiscoveryBuilderResult.
Variable fetched_machine : option Machine.

Local Arguments update_discovery_parameters : simpl never.
Local Arguments desired_address_block : simpl never.

(** For a requested-address option of four bytes, [pkt4_receive] gives
    [discovery_set_desired_address] the dotted-quad text of those bytes in
    their order, and that text parses back to the address the bytes spell. *)
Theorem desired_address_text (query4 : Pkt4) (opt : KeaOption) (a b c d : Z) :
  coll_get (options query4) DHO_DHCP_REQUESTED_ADDRESS = Some opt ->
  getData opt = [a; b; c; d] ->
  octet a -> octet b -> octet c -> octet d ->
  desired_address_block ffi_result query4
  = (tt, [Ffi (discovery_set_desired_address
                 (dec a ++ "." ++ dec b ++ "." ++ dec c ++ "." ++ dec d)%string);
          Log INFO "LOG_CARBIDE_PKT4_RECEIVE: Desired Address [%1] set"])
  /\ IOAddress_of_string (dec a ++ "." ++ dec b ++ "." ++ dec c ++ "." ++ dec d)%string
     = Ok (be32 [a; b; c; d]).
Proof.
  intros Hget Hdata Ha Hb Hc Hd.
  assert (Hrange : 0 <= be32 [a; b; c; d] < 2 ^ 32).
  { apply be32_range; [reflexivity | repeat (constructor; [assumption|]); constructor]. }
  assert (Htext : IOAddress_toText (be32 [a; b; c; d])
                  = (dec a ++ "." ++ dec b ++ "." ++ dec c ++ "." ++ dec d)%string).
  { unfold IOAddress_toText.
    replace (be32 [a; b; c; d] / 2 ^ 24 mod 256) with a.
    replace (be32 [a; b; c; d] / 2 ^ 16 mod 256) with b.
    replace (be32 [a; b; c; d] / 2 ^ 8 mod 256) with c.
    replace (be32 [a; b; c; d] mod 256) with d.
    reflexivity.
    all: unfold be32, octet in *; cbn [fold_left];
      change (2 ^ 24) with 16777216; change (2 ^ 16) with 65536;
      change (2 ^ 8) with 256; Z.div_mod_to_equations; lia. }
  split.
  - unfold desired_address_block. rewrite Hget, Hdata. simpl.
    rewrite htonl_memcpy by assumption.
    rewrite c_str_plain by (now apply IOAddress_toText_plain).
    now rewrite Htext.
  - rewrite <- Htext. now apply IOAddress_text_parses.
Qed.

(** The circuit id and the remote id reach the builder as C strings: of the
    bytes of the sub-option, those before the first zero byte. *)
Theorem relay_ids_until_zero (option_val sub : KeaOption) :
  Forall octet (getData sub) ->
  (coll_get (getOptions option_val) RAI_OPTION_AGENT_CIRCUIT_ID = Some sub ->
   snd (update_discovery_parameters_option82 ffi_result
          RAI_OPTION_AGENT_CIRCUIT_ID option_val)
   = [Log INFO "LOG_CARBIDE_PKT4_RECEIVE: CIRCUIT ID [%1] in packet";
      Ffi (discovery_set_circuit_id (string_of_bytes (until_zero (getData sub))))])
  /\ (coll_get (getOptions option_val) RAI_OPTION_REMOTE_ID = Some sub ->
      snd (update_discovery_parameters_option82 ffi_result
             RAI_OPTION_REMOTE_ID option_val)
      = [Log INFO "LOG_CARBIDE_PKT4_RECEIVE: REMOTE ID [%1] in packet";
         Ffi (discovery_set_remote_id (string_of_bytes (until_zero (getData sub))))]).
Proof.
  intros Hoct. split; intros Hget;
    unfold update_discovery_parameters_option82; simpl; rewrite Hget; simpl;
    now rewrite (c_str_bytes _ Hoct).
Qed.

Lemma extraction_no_outcome (t : list Event) :
  Forall (fun e => extraction_event e = true) t ->
  filter outcome_event t = [] /\ filter is_total_requests t = [].
Proof.
  induction 1 as [|e t He Ht [IH1 IH2]]; [split; reflexivity|].
  destruct e as [sev msg|call| |reason|st|m]; simpl in *;
    try discriminate He; now split.
Qed.

Lemma desired_address_block_events (query4 : Pkt4) :
  Forall (fun e => requested_address_event e = true)
    (snd (desired_address_block ffi_result query4)).
Proof.
  unfold desired_address_block, rx_bind, rx_ret, ffi, LOG_INFO, LOG_ERROR, emit.
  rx_cases; repeat constructor.
Qed.

Lemma requested_address_no_outcome (t : list Event) :
  Forall (fun e => requested_address_event e = true) t ->
  filter outcome_event t = [] /\ filter is_total_requests t = [].
Proof.
  induction 1 as [|e t He Ht [IH1 IH2]]; [split; reflexivity|].
  destruct e as [sev msg|call| |reason|st|m]; simpl in *;
    try discriminate He; now split.
Qed.

Ltac rx_open query4 :=
  unfold pkt4_receive, rx_bind, rx_ret, ffi, LOG_INFO, LOG_ERROR, emit;
  pose proof (update_discovery_parameters_events ffi_result T_OptionCustom
                query4 DHO_DHCP_AGENT_OPTIONS) as F1;
  pose proof (update_discovery_parameters_events ffi_result T_OptionString
                query4 DHO_VENDOR_CLASS_IDENTIFIER) as F2;
  pose proof (update_discovery_parameters_events ffi_result T_OptionUint16
                query4 DHO_SYSTEM) as F3;
  pose proof (desired_address_block_events query4) as F50;
  destruct (update_discovery_parameters ffi_result T_OptionCustom query4
              DHO_DHCP_AGENT_OPTIONS) as [r1 t1];
  destruct (update_discovery_parameters ffi_result T_OptionString query4
              DHO_VENDOR_CLASS_IDENTIFIER) as [r2 t2];
  destruct (update_discovery_parameters ffi_result T_OptionUint16 query4
              DHO_SYSTEM) as [r3 t3];
  destruct (desired_address_block ffi_result query4) as [u t50];
  simpl in F1, F2, F3, F50.

(** Every run of [pkt4_receive] counts the request once and ends in one of
    two ways.  Either it puts the machine that [discovery_fetch_machine] gave
    in the context and returns 0, and then it neither asks for the drop nor
    counts one; or it asks for the drop and counts it, once each and in that
    order, puts nothing in the context, and returns 1 for a relayed query and
    0 for one that is not relayed. *)
Theorem pkt4_receive_outcome (query4 : Pkt4) :
  let run := pkt4_receive ffi_result fetched_machine query4 in
  filter is_total_requests (snd run) = [carbide_increment_total_requests]
  /\ ((exists m,
          fetched_machine = Some m
          /\ fst run = 0
          /\ filter outcome_event (snd run) = [handle_setContext_machine m])
      \/ (exists reason,
             fst run = (if isRelayed query4 then 1 else 0)
             /\ filter outcome_event (snd run)
                = [handle_setStatus NEXT_STEP_DROP;
                   carbide_increment_dropped_requests reason])).
Proof.
  intros run. unfold run. rx_open query4.
  destruct (extraction_no_outcome _ F1) as [O1 C1].
  destruct (extraction_no_outcome _ F2) as [O2 C2].
  destruct (extraction_no_outcome _ F3) as [O3 C3].
  destruct (requested_address_no_outcome _ F50) as [O50 C50].
  destruct (isRelayed query4); cbn [negb];
    [|split; [reflexivity | right; eexists; split; reflexivity]].
  destruct r1; [destruct r2; [destruct r3;
    [destruct (ffi_result (discovery_set_relay (giaddr query4)));
       [destruct (ffi_result (discovery_set_mac_address (hwaddr query4)));
          [destruct (ffi_result discovery_fetch_machine);
             destruct fetched_machine as [m|]|]|]|]|]|];
    simpl;
    rewrite ?filter_app, ?O1, ?O2, ?O3, ?O50, ?C1, ?C2, ?C3, ?C50; simpl;
    rewrite ?filter_app, ?O1, ?O2, ?O3, ?O50, ?C1, ?C2, ?C3, ?C50; simpl;
    (split; [reflexivity|]);
    first [ left; eexists; repeat split; reflexivity
          | right; eexists; split; reflexivity ].
Qed.

(** [discovery_fetch_machine] is called only for a relayed query, only after
    [discovery_set_relay] and [discovery_set_mac_address] have been called
    with the relay address and the hardware address of the query and have
    succeeded, right after them, and it is the last call on the builder. *)
Theorem fetch_after_relay_and_mac (query4 : Pkt4) :
  In (Ffi discovery_fetch_machine)
     (snd (pkt4_receive ffi_result fetched_machine query4)) ->
  isRelayed query4 = true
  /\ ffi_result (discovery_set_relay (giaddr query4)) = Success
  /\ ffi_result (discovery_set_mac_address (hwaddr query4)) = Success
  /\ exists before after,
       snd (pkt4_receive ffi_result fetched_machine query4)
       = (before ++ Ffi (discovery_set_relay (giaddr query4))
                 :: Ffi (discovery_set_mac_address (hwaddr query4))
                 :: Ffi discovery_fetch_machine :: after)%list
       /\ forallb (fun e => negb (is_ffi e)) after = true.
Proof.
  rx_open query4.
  destruct (isRelayed query4); cbn [negb];
    [|intros Hin; simpl in Hin; not_in_trace].
  destruct r1; [|intros Hin; simpl in Hin; not_in_trace].
  destruct r2; [|intros Hin; simpl in Hin; not_in_trace].
  destruct r3; [|intros Hin; simpl in Hin; not_in_trace].
  destruct (ffi_result (discovery_set_relay (giaddr query4))) eqn:Er;
    [|intros Hin; simpl in Hin; not_in_trace].
  destruct (ffi_result (discovery_set_mac_address (hwaddr query4))) eqn:Em;
    [|intros Hin; simpl in Hin; not_in_trace].
  intros _. split; [reflexivity|]. split; [reflexivity|]. split; [reflexivity|].
  exists ([Log INFO "LOG_CARBIDE_PKT4_RECEIVE"; carbide_increment_total_requests;
           Log INFO "LOG_CARBIDE_PKT4_RECEIVE: Packet type name: %1"]
          ++ t1 ++ t2 ++ t50 ++ t3)%list.
  destruct (ffi_result discovery_fetch_machine);
    destruct fetched_machine as [m|]; simpl;
    eexists; (split; [rewrite <- !app_assoc; simpl; reflexivity | reflexivity]).
Qed.

End ReceiveExtras.

Lemma desired_address_text_witness :
  desired_address_block all_succeed
    (query_of [MkOption DHO_DHCP_REQUESTED_ADDRESS (Generic [192; 168; 1; 20]) []])
  = (tt, [Ffi (discovery_set_desired_address "192.168.1.20");
          Log INFO "LOG_CARBIDE_PKT4_RECEIVE: Desired Address [%1] set"])
  /\ IOAddress_of_string "192.168.1.20" = Ok 3232235796.
Proof.
  exact (desired_address_text all_succeed
           (query_of [MkOption DHO_DHCP_REQUESTED_ADDRESS (Generic [192; 168; 1; 20]) []])
           (MkOption DHO_DHCP_REQUESTED_ADDRESS (Generic [192; 168; 1; 20]) [])
           192 168 1 20 eq_refl eq_refl
           ltac:(unfold octet; lia) ltac:(unfold octet; lia)
           ltac:(unfold octet; lia) ltac:(unfold octet; lia)).
Defined.

(** A circuit id of the bytes "eth0", a zero byte and "/1". *)
Lemma relay_ids_until_zero_witness :
  snd (update_discovery_parameters_option82 all_succeed RAI_OPTION_AGENT_CIRCUIT_ID
         (MkOption DHO_DHCP_AGENT_OPTIONS (Custom [])
            [MkOption RAI_OPTION_AGENT_CIRCUIT_ID
               (Generic [101; 116; 104; 48; 0; 47; 49]) []]))
  = [Log INFO "LOG_CARBIDE_PKT4_RECEIVE: CIRCUIT ID [%1] in packet";
     Ffi (discovery_set_circuit_id "eth0")].
Proof.
  apply (proj1 (relay_ids_until_zero all_succeed
                  (MkOption DHO_DHCP_AGENT_OPTIONS (Custom [])
                     [MkOption RAI_OPTION_AGENT_CIRCUIT_ID
                        (Generic [101; 116; 104; 48; 0; 47; 49]) []])
                  (MkOption RAI_OPTION_AGENT_CIRCUIT_ID
                     (Generic [101; 116; 104; 48; 0; 47; 49]) [])
                  ltac:(repeat constructor; unfold octet; lia))).
  reflexivity.
Defined.

Lemma fetch_after_relay_and_mac_witness :
  isRelayed (query_of []) = true
  /\ all_succeed (discovery_set_relay (giaddr (query_of []))) = Success.
Proof.
  destruct (fetch_after_relay_and_mac all_succeed (Some example_machine)
              (query_of [])) as (H1 & H2 & _).
  - vm_compute. tauto.
  - split; [exact H1 | exact H2].
Defined.

(** The relay address is refused: no call follows, and the request is
    dropped under the name of that failure. *)
Lemma checked_failure_stops_discovery_witness :
  fst (pkt4_receive relay_refused (Some example_machine) (query_of [])) = 1
  /\ In (carbide_increment_dropped_requests
           (discovery_builder_result_as_str (BuilderFailure 2)))
        (snd (pkt4_receive relay_refused (Some example_machine) (query_of [])))
  /\ ~ In (Ffi discovery_fetch_machine)
          (snd (pkt4_receive relay_refused (Some example_machine) (query_of []))).
Proof.
  pose proof (checked_failure_stops_discovery relay_refused (Some example_machine)
                (query_of []) (discovery_set_relay 3221225985)
                [Log INFO "LOG_CARBIDE_PKT4_RECEIVE";
                 carbide_increment_total_requests;
                 Log INFO "LOG_CARBIDE_PKT4_RECEIVE: Packet type name: %1";
                 Log ERROR "LOG_CARBIDE_PKT4_RECEIVE: Missing option [%1] in packet";
                 Log ERROR "LOG_CARBIDE_PKT4_RECEIVE: Missing option [%1] in packet"]
                [Log ERROR "LOG_CARBIDE_PKT4_RECV: Error while executing machine discovery in discovery_fetch_machine: %1, machine_ptr=%2";
                 handle_setStatus NEXT_STEP_DROP;
                 carbide_increment_dropped_requests
                   (discovery_builder_result_as_str (BuilderFailure 2))]
                eq_refl eq_refl eq_refl) as (Hno & Hret & _ & Hcount).
  split; [exact Hret|]. split.
  - vm_compute. tauto.
  - vm_compute. intuition discriminate.
Defined.

(** * Properties of [shim_load] *)

Section LoaderFacts.

Variable inet_pton6 : string -> bool.

Lemma string_parameter_registers (p : option Element)
  (setter : string -> LoadEvent) (rest : Z * list LoadEvent) :
  (forall s, is_registerCallout (setter s) = false) ->
  load_registers rest -> load_registers (string_parameter p setter rest).
Proof.
  intros Hs Hrest. unfold string_parameter.
  destruct p as [[value|]|]; [|right; split; reflexivity|exact Hrest].
  unfold load_registers in *. simpl. now rewrite Hs.
Qed.

(** [shim_load] returns 0 or 1.  When it returns 0 it has registered the
    two callouts, [pkt4_receive] and then [pkt4_send], and no other; when it
    returns 1 it has registered none. *)
Theorem shim_load_registers (handle_ptr : option LibraryHandle) :
  let r := shim_load inet_pton6 handle_ptr in
  (fst r = 0
   /\ filter is_registerCallout (snd r)
      = [registerCallout "pkt4_receive"; registerCallout "pkt4_send"])
  \/ (fst r = 1 /\ filter is_registerCallout (snd r) = []).
Proof.
  intros r. unfold r, shim_load.
  destruct handle_ptr as [handle|]; [|right; split; reflexivity].
  match goal with
  | |- context [string_parameter (handle "carbide-api-url") ?f ?k] =>
      assert (Hrest : load_registers
                        (string_parameter (handle "carbide-api-url") f k))
  end.
  { repeat (apply string_parameter_registers; [reflexivity|]).
    left. split; reflexivity. }
  match type of Hrest with
  | load_registers ?rest => set (R := rest) in *; clearbody R
  end.
  cbv zeta. unfold load_registers in Hrest.
  destruct (handle "carbide-provisioning-server-ipv4") as [[value|]|];
    [destruct (IOAddress_parse inet_pton6 value) as [[addr|]|e]| |];
    simpl; try (right; split; reflexivity); exact Hrest.
Qed.

Lemma string_parameter_succeeds (p : option Element)
  (setter : string -> LoadEvent) (rest : Z * list LoadEvent) :
  fst rest = 0 \/ fst rest = 1 ->
  (fst (string_parameter p setter rest) = 0
   <-> p <> Some Element_other /\ fst rest = 0)
  /\ (fst (string_parameter p setter rest) = 0
      \/ fst (string_parameter p setter rest) = 1).
Proof.
  intros Hrest. unfold string_parameter.
  destruct p as [[value|]|]; simpl; intuition (try discriminate; try congruence).
Qed.

(** [shim_load] returns 0 exactly when the handle is not null, none of the
    six parameters is present with a type other than string, and the
    provisioning server, when present, is the text of an IPv4 address. *)
Theorem shim_load_succeeds (handle_ptr : option LibraryHandle) :
  fst (shim_load inet_pton6 handle_ptr) = 0
  <-> exists handle,
        handle_ptr = Some handle
        /\ (forall name, In name loader_parameters ->
                         handle name <> Some Element_other)
        /\ (forall value,
               handle "carbide-provisioning-server-ipv4"
               = Some (Element_string value) ->
               inet_pton4 value [] 0 false <> None).
Proof.
  unfold shim_load, loader_parameters.
  destruct handle_ptr as [handle|];
    [|split; [discriminate | intros (h & H & _); discriminate H]].
  cbv zeta. cbn [fst].
  pose proof (string_parameter_succeeds (handle "carbide-metrics-endpoint")
                carbide_set_config_metrics_endpoint
                (0, [registerCallout "pkt4_receive"; registerCallout "pkt4_send"])
                (or_introl eq_refl)) as [H5 B5].
  pose proof (string_parameter_succeeds (handle "carbide-mqtt-server")
                carbide_set_config_mqtt_server _ B5) as [H4 B4].
  pose proof (string_parameter_succeeds (handle "carbide-nameservers")
                carbide_set_config_name_servers _ B4) as [H3 B3].
  pose proof (string_parameter_succeeds (handle "carbide-ntpserver")
                carbide_set_config_ntp _ B3) as [H2 B2].
  pose proof (string_parameter_succeeds (handle "carbide-api-url")
                carbide_set_config_api _ B2) as [H1 _].
  cbn [fst] in H5.
  match type of H1 with
  | (fst ?rest = 0 <-> _) =>
      set (R := rest) in *;
      assert (HR : fst R = 0
                   <-> handle "carbide-api-url" <> Some Element_other
                       /\ handle "carbide-ntpserver" <> Some Element_other
                       /\ handle "carbide-nameservers" <> Some Element_other
                       /\ handle "carbide-mqtt-server" <> Some Element_other
                       /\ handle "carbide-metrics-endpoint" <> Some Element_other)
        by tauto
  end.
  clearbody R. clear H1 H2 H3 H4 H5 B2 B3 B4 B5.
  unfold IOAddress_parse.
  split.
  - intros H. exists handle. split; [reflexivity|].
    destruct (handle "carbide-provisioning-server-ipv4") as [[value|]|] eqn:E0;
      [destruct (inet_pton4 value [] 0 false) as [o|] eqn:Ep;
         [|destruct (inet_pton6 value); discriminate H]
      | discriminate H |];
      simpl in H; apply HR in H;
      (split; [intros name Hin; simpl in Hin;
               repeat (destruct Hin as [<-|Hin]; [try tauto; congruence|]);
               contradiction Hin
              | intros v Hv; congruence]).
  - intros (h & [= <-] & Hnames & Hv4).
    assert (H0 : fst R = 0).
    { apply HR. repeat split; apply Hnames; simpl; tauto. }
    destruct (handle "carbide-provisioning-server-ipv4") as [[value|]|] eqn:E0.
    + destruct (inet_pton4 value [] 0 false) as [o|] eqn:Ep; [exact H0|].
      exfalso. now apply (Hv4 value).
    + exfalso. apply (Hnames "carbide-provisioning-server-ipv4"); simpl; tauto.
    + exact H0.
Qed.

Lemma string_parameter_settings (p : option Element)
  (setter : string -> LoadEvent) (rest : Z * list LoadEvent)
  (asked : list LoadEvent) :
  (forall s, is_setting (setter s) = true) ->
  (exists left_out,
      asked = (filter is_setting (snd rest) ++ left_out)%list
      /\ (fst rest = 0 -> left_out = [])) ->
  exists left_out,
    (text_setting p setter ++ asked)%list
    = (filter is_setting (snd (string_parameter p setter rest)) ++ left_out)%list
    /\ (fst (string_parameter p setter rest) = 0 -> left_out = []).
Proof.
  intros Hs (lo & E & H0). unfold string_parameter, text_setting.
  destruct p as [[value|]|]; simpl.
  - rewrite Hs. exists lo. split; [now rewrite E | exact H0].
  - exists asked. split; [reflexivity | discriminate].
  - exists lo. split; assumption.
Qed.

Lemma shim_load_settings_prefix (handle : LibraryHandle) :
  let r := shim_load inet_pton6 (Some handle) in
  exists left_out,
    settings_of handle = (filter is_setting (snd r) ++ left_out)%list
    /\ (fst r = 0 -> left_out = []).
Proof.
  intros r. unfold r, shim_load, settings_of. cbv zeta. cbn [fst snd].
  match goal with
  | |- context [string_parameter (handle "carbide-api-url") ?f ?k] =>
      assert (Hrest :
        exists left_out,
          (text_setting (handle "carbide-api-url") carbide_set_config_api
           ++ text_setting (handle "carbide-ntpserver") carbide_set_config_ntp
           ++ text_setting (handle "carbide-nameservers")
                carbide_set_config_name_servers
           ++ text_setting (handle "carbide-mqtt-server")
                carbide_set_config_mqtt_server
           ++ text_setting (handle "carbide-metrics-endpoint")
                carbide_set_config_metrics_endpoint)%list
          = (filter is_setting
               (snd (string_parameter (handle "carbide-api-url") f k))
             ++ left_out)%list
          /\ (fst (string_parameter (handle "carbide-api-url") f k) = 0 ->
              left_out = []));
      [|set (R := string_parameter (handle "carbide-api-url") f k) in *;
        clearbody R]
  end.
  { do 4 (apply string_parameter_settings; [reflexivity|]).
    rewrite <- (app_nil_r (text_setting _ _)).
    apply string_parameter_settings; [reflexivity|].
    exists []. split; [reflexivity | reflexivity]. }
  destruct Hrest as (lo & E & H0). rewrite E. unfold IOAddress_parse.
  destruct (handle "carbide-provisioning-server-ipv4") as [[value|]|];
    [destruct (inet_pton4 value [] 0 false) as [o|];
       [|destruct (inet_pton6 value)]| |]; simpl;
    first [ exists lo; split; [reflexivity | exact H0]
          | eexists; split; [reflexivity | discriminate] ].
Qed.
Lemma string_parameter_requests (p : option Element)
  (setter : string -> LoadEvent) (rest : Z * list LoadEvent)
  (reqs : list Request) :
  (forall s, is_setting (setter s) = true) ->
  filter is_setting (snd rest) = settings_before_refusal reqs
  /\ (fst rest = 1 <-> In refused reqs) ->
  filter is_setting (snd (string_parameter p setter rest))
  = settings_before_refusal (text_request p setter :: reqs)
  /\ (fst (string_parameter p setter rest) = 1
      <-> In refused (text_request p setter :: reqs)).
Proof.
  intros Hs [E H1]. unfold string_parameter, text_request.
  destruct p as [[value|]|]; simpl.
  - rewrite Hs, E. split; [reflexivity|]. rewrite H1.
    split; [tauto | intros [H|H]; [discriminate H | exact H]].
  - split; [reflexivity|]. split; [now left | reflexivity].
  - split; [exact E|]. rewrite H1.
    split; [tauto | intros [H|H]; [discriminate H | exact H]].
Qed.

(** The settings that [shim_load] makes are exactly those that the
    configuration asks for before the first parameter that it refuses, in the
    order of the parameters: a setting made before the refusal stays made,
    and none is made after it.  [shim_load] returns 1 exactly when a
    parameter is refused; and what it has set is the beginning of what the
    configuration asks for, all of it when it returns 0. *)
Theorem shim_load_settings (handle : LibraryHandle) :
  let r := shim_load inet_pton6 (Some handle) in
  filter is_setting (snd r) = settings_before_refusal (requests_of handle)
  /\ (fst r = 1 <-> In refused (requests_of handle))
  /\ exists left_out,
       settings_of handle = (filter is_setting (snd r) ++ left_out)%list
       /\ (fst r = 0 -> left_out = []).
Proof.
  intros r.
  cut (filter is_setting (snd r) = settings_before_refusal (requests_of handle)
       /\ (fst r = 1 <-> In refused (requests_of handle))).
  { intros [H1 H2]. split; [exact H1|]. split; [exact H2|].
    apply shim_load_settings_prefix. }
  unfold r, shim_load, requests_of. cbv zeta. cbn [fst snd].
  match goal with
  | |- context [string_parameter (handle "carbide-api-url") ?f ?k] =>
      assert (Hrest :
        filter is_setting
          (snd (string_parameter (handle "carbide-api-url") f k))
        = settings_before_refusal
            [text_request (handle "carbide-api-url") carbide_set_config_api;
             text_request (handle "carbide-ntpserver") carbide_set_config_ntp;
             text_request (handle "carbide-nameservers")
               carbide_set_config_name_servers;
             text_request (handle "carbide-mqtt-server")
               carbide_set_config_mqtt_server;
             text_request (handle "carbide-metrics-endpoint")
               carbide_set_config_metrics_endpoint]
        /\ (fst (string_parameter (handle "carbide-api-url") f k) = 1
            <-> In refused
                  [text_request (handle "carbide-api-url") carbide_set_config_api;
                   text_request (handle "carbide-ntpserver") carbide_set_config_ntp;
                   text_request (handle "carbide-nameservers")
                     carbide_set_config_name_servers;
                   text_request (handle "carbide-mqtt-server")
                     carbide_set_config_mqtt_server;
                   text_request (handle "carbide-metrics-endpoint")
                     carbide_set_config_metrics_endpoint]));
      [|set (R := string_parameter (handle "carbide-api-url") f k) in *;
        clearbody R]
  end.
  { do 5 (apply string_parameter_requests; [reflexivity|]).
    split; [reflexivity|]. simpl. split; [discriminate | tauto]. }
  match type of Hrest with
  | _ = settings_before_refusal ?l /\ _ => set (Q := l) in *; clearbody Q
  end.
  destruct Hrest as [E H1]. unfold IOAddress_parse.
  destruct (handle "carbide-provisioning-server-ipv4") as [[value|]|];
    [destruct (inet_pton4 value [] 0 false) as [o|];
       [|destruct (inet_pton6 value)]| |];
    cbn [fst snd filter is_setting settings_before_refusal];
    rewrite ?E; (split; [reflexivity|]); cbn [In]; rewrite ?H1;
    split; try tauto; try (intros [H|H]; [discriminate H | exact H]);
    intros _; now left.
Qed.


End LoaderFacts.

Lemma shim_load_succeeds_witness :
  fst (shim_load no_ipv6 (Some example_config)) = 0
  /\ fst (shim_load no_ipv6 (Some bad_ntp_config)) <> 0.
Proof.
  split.
  - apply (proj2 (shim_load_succeeds no_ipv6 (Some example_config))).
    exists example_config. split; [reflexivity|]. split.
    + intros name Hin. unfold loader_parameters in Hin. simpl in Hin.
      repeat (destruct Hin as [<-|Hin]; [discriminate|]). contradiction Hin.
    + intros value [= <-]. discriminate.
  - intros H.
    apply (proj1 (shim_load_succeeds no_ipv6 (Some bad_ntp_config))) in H.
    destruct H as (handle & [= <-] & Hnames & _).
    apply (Hnames "carbide-ntpserver"); [|reflexivity].
    unfold loader_parameters. simpl. tauto.
Defined.

(** The configuration with the bad NTP server: the load fails after the next
    server and the API URL have been set, and they stay set. *)
Lemma shim_load_settings_witness :
  filter is_setting (snd (shim_load no_ipv6 (Some bad_ntp_config)))
  = [carbide_set_config_next_server_ipv4 167772162;
     carbide_set_config_api "https://carbide-api:1079"]
  /\ fst (shim_load no_ipv6 (Some bad_ntp_config)) = 1.
Proof.
  destruct (shim_load_settings no_ipv6 bad_ntp_config) as (E & H1 & _).
  split.
  - rewrite E. reflexivity.
  - apply (proj2 H1). simpl. tauto.
Defined.

(** * The send phase on a fresh response, and the two phases together *)

Section FreshResponse.

Variable unique_v4 : bool.

Lemma update_option_sorted (h : CalloutHandle) (pkt : Pkt4) (c : Z) (a : any) :
  code_sorted (options pkt) ->
  code_sorted (options (snd (update_option unique_v4 h pkt c a))).
Proof.
  intros Hs.
  rewrite update_option_snd, update_option_try_eq, resetAndAddOption_eq.
  assert (H0 : code_sorted
                 (options (if c =? DHO_INTERFACE_MTU
                           then pkt_del (pkt_del pkt c) c else pkt_del pkt c))).
  { destruct (c =? DHO_INTERFACE_MTU); unfold pkt_del; simpl;
      repeat apply coll_del_sorted; exact Hs. }
  cbv zeta.
  destruct (handed_option c (coll_get (options pkt) c) a) as [[o|]|e];
    simpl; try exact H0.
  rewrite Pkt4_addOption_options. unfold addOption_to.
  destruct (coll_get _ (getType o)); [destruct unique_v4|];
    try exact H0; now apply coll_insert_sorted.
Qed.

Lemma run_calls_sorted (calls : list (Z * any)) :
  forall st : CalloutHandle * Pkt4,
    code_sorted (options (snd st)) ->
    code_sorted (options (snd (run_calls unique_v4 calls st))).
Proof.
  induction calls as [|[c a] calls IH]; intros st Hs; [exact Hs|].
  unfold run_calls. cbn [fold_left fst snd].
  apply IH. now apply update_option_sorted.
Qed.

Lemma update_option_fresh (h : CalloutHandle) (pkt : Pkt4) (c c' : Z) (a : any) :
  options_with c (options pkt) = [] ->
  options_with c' (options (snd (update_option unique_v4 h pkt c a)))
  = (options_with c' (options pkt) ++ options_with c' (written_by (c, a)))%list.
Proof.
  intros Hnone.
  assert (Hget : coll_get (options pkt) c = None)
    by (now rewrite coll_get_hd, Hnone).
  rewrite update_option_snd, update_option_try_eq, resetAndAddOption_eq.
  cbv zeta. rewrite Hget, !(pkt_del_absent pkt c Hget).
  assert (E : (if c =? DHO_INTERFACE_MTU then pkt else pkt) = pkt)
    by (now destruct (c =? DHO_INTERFACE_MTU)).
  rewrite E. unfold written_by. cbn [fst snd].
  destruct (handed_option c None a) as [[o|]|e] eqn:Eh; simpl;
    try (now rewrite app_nil_r).
  assert (Ht : getType o = c).
  { apply (handed_option_type c None a o); [discriminate | exact Eh]. }
  rewrite Pkt4_addOption_options, addOption_to_absent by (now rewrite Ht).
  apply options_with_insert.
Qed.

Lemma written_by_type (call : Z * any) (o : KeaOption) :
  In o (written_by call) -> getType o = fst call.
Proof.
  unfold written_by.
  destruct (handed_option (fst call) None (snd call)) as [[o'|]|e] eqn:Eh;
    simpl; try contradiction.
  intros [<-|[]].
  apply (handed_option_type (fst call) None (snd call) o'); [discriminate|exact Eh].
Qed.

Lemma written_by_other (call : Z * any) (c : Z) :
  c <> fst call -> options_with c (written_by call) = [].
Proof.
  intros Hne. apply filter_all_false. intros o Ho.
  apply written_by_type in Ho. apply Z.eqb_neq. congruence.
Qed.

Lemma run_calls_fresh (calls : list (Z * any)) :
  forall st : CalloutHandle * Pkt4,
    NoDup (map fst calls) ->
    (forall c, In c (map fst calls) -> options_with c (options (snd st)) = []) ->
    forall c,
      options_with c (options (snd (run_calls unique_v4 calls st)))
      = (options_with c (options (snd st))
         ++ options_with c (flat_map written_by calls))%list.
Proof.
  induction calls as [|[k a] calls IH]; intros st Hnd Hfresh c.
  - simpl. now rewrite app_nil_r.
  - cbn [map fst] in Hnd. inversion Hnd as [|x l Hnotin Hnd']; subst.
    unfold run_calls. cbn [fold_left fst snd flat_map].
    fold (run_calls unique_v4 calls
            (update_option unique_v4 (fst st) (snd st) k a)).
    assert (Hk : options_with k (options (snd st)) = [])
      by (apply Hfresh; left; reflexivity).
    rewrite IH; [| exact Hnd' |].
    + rewrite (update_option_fresh _ _ _ _ _ Hk). unfold options_with.
      now rewrite filter_app, <- app_assoc.
    + intros c' Hin. rewrite (update_option_fresh _ _ _ _ _ Hk).
      rewrite (Hfresh c') by (right; exact Hin).
      apply written_by_other. simpl. intros ->. now apply Hnotin.
Qed.

(** On a response that has none of the options that [set_options] writes,
    the options of every code after [set_options] are those that were there
    followed by those that the calls of [set_options] write for the code,
    a call whose option cannot be built writing none; and a response whose
    collection is in the order of the codes stays so. *)
Theorem set_options_fresh (h : CalloutHandle) (pkt : Pkt4) (m : Machine) :
  (forall c, In c handled_codes -> options_with c (options pkt) = []) ->
  let pkt' := snd (set_options unique_v4 h pkt m) in
  (forall c,
      options_with c (options pkt')
      = (options_with c (options pkt)
         ++ options_with c (flat_map written_by (set_options_calls m)))%list)
  /\ (code_sorted (options pkt) -> code_sorted (options pkt')).
Proof.
  intros Hfresh pkt'. unfold pkt'. rewrite set_options_run. split.
  - apply run_calls_fresh; [apply set_options_calls_NoDup|].
    intros c Hin. apply Hfresh. now apply (set_options_calls_handled m).
  - intros Hs. now apply run_calls_sorted.
Qed.

End FreshResponse.

Lemma set_options_fresh_witness :
  let pkt' := snd (set_options true example_handle
                     (response_of [new_OptionInt32 51 3600]) example_machine) in
  options_with DHO_ROUTERS (options pkt')
  = [MkOption DHO_ROUTERS (AddrLst [167772161]) []]
  /\ options_with DHO_MQTT_SERVER (options pkt') = []
  /\ options_with 51 (options pkt') = [MkOption 51 (Uint32 3600) []]
  /\ code_sorted (options pkt')
  /\ map getType (options pkt') = [1; 3; 5; 6; 12; 26; 28; 42; 51].
Proof.
  intros pkt'. subst pkt'.
  assert (Hfresh : forall c, In c handled_codes ->
             options_with c (options (response_of [new_OptionInt32 51 3600])) = []).
  { intros c Hin. unfold handled_codes in Hin. simpl in Hin.
    repeat (destruct Hin as [<-|Hin]; [reflexivity|]). contradiction Hin. }
  pose proof (set_options_fresh true example_handle
                (response_of [new_OptionInt32 51 3600]) example_machine Hfresh)
    as H.
  cbv zeta in H. destruct H as [Hcode Hsorted].
  split; [rewrite (Hcode DHO_ROUTERS); reflexivity|].
  split; [rewrite (Hcode DHO_MQTT_SERVER); reflexivity|].
  split; [rewrite (Hcode 51); reflexivity|].
  split; [|reflexivity].
  apply Hsorted. repeat constructor.
Defined.

Section BothPhases.

Variable unique_v4 : bool.
Variable ffi_result : FFICall -> DiscoveryBuilderResult.
Variable fetched_machine : option Machine.

Local Arguments update_discovery_parameters : simpl never.
Local Arguments desired_address_block : simpl never.

Lemma handle_after_app (h : CalloutHandle) (a b : list Event) :
  handle_after h (a ++ b) = handle_after (handle_after h a) b.
Proof. apply fold_left_app. Qed.

Lemma handle_after_extraction (t : list Event) :
  Forall (fun e => extraction_event e = true) t ->
  forall h, handle_after h t = h.
Proof.
  induction 1 as [|e t He Ht IH]; intros h; [reflexivity|].
  destruct e as [sev msg|call| |reason|st|m]; simpl in *;
    try discriminate He; apply IH.
Qed.

Lemma handle_after_requested_address (t : list Event) :
  Forall (fun e => requested_address_event e = true) t ->
  forall h, handle_after h t = h.
Proof.
  induction 1 as [|e t He Ht IH]; intros h; [reflexivity|].
  destruct e as [sev msg|call| |reason|st|m]; simpl in *;
    try discriminate He; apply IH.
Qed.

Lemma addOption_to_throws (l : list KeaOption) (o : KeaOption) (e : Exception) :
  addOption_to unique_v4 l o = Throw e -> e = BadValue.
Proof.
  unfold addOption_to.
  destruct (coll_get l (getType o)); [destruct unique_v4|]; congruence.
Qed.

(** The two callouts of one request, on a handle whose context has no item
    "machine".  After [pkt4_receive], either the context holds the machine
    that [discovery_fetch_machine] gave, the status is untouched and
    [pkt4_receive] returned 0, and then [pkt4_send] goes on to the options of
    that machine: it returns 0, or [addOption] refuses an option; or the
    context still has no item and the status asks for the drop, and
    [pkt4_send], were it called, would be left by the exception of
    [getContext] with the response as it is.  The context never holds a null
    pointer, so the test of [pkt4_send] for a null machine does not fire
    after [pkt4_receive]. *)
Theorem send_after_receive (h0 : CalloutHandle) (query4 response4 : Pkt4) :
  context_machine h0 = no_item ->
  let run := pkt4_receive ffi_result fetched_machine query4 in
  let h1 := handle_after h0 (snd run) in
  (exists m,
      fetched_machine = Some m /\ fst run = 0
      /\ h1 = mkHandle (status h0) (item (Some m))
      /\ (fst (fst (pkt4_send unique_v4 h1 response4)) = Ok 0
          \/ fst (fst (pkt4_send unique_v4 h1 response4)) = Throw BadValue))
  \/ (h1 = setStatus h0 NEXT_STEP_DROP
      /\ pkt4_send unique_v4 h1 response4
         = (Throw NoSuchCalloutContext, h1, response4)).
Proof.
  intros Hctx run h1. unfold h1, run.
  assert (Hsend : pkt4_send unique_v4 (setStatus h0 NEXT_STEP_DROP) response4
                  = (Throw NoSuchCalloutContext, setStatus h0 NEXT_STEP_DROP,
                     response4)).
  { unfold pkt4_send, getContext. simpl. now rewrite Hctx. }
  assert (Hgo : forall m,
             fst (fst (pkt4_send unique_v4 (mkHandle (status h0) (item (Some m)))
                         response4)) = Ok 0
             \/ fst (fst (pkt4_send unique_v4
                            (mkHandle (status h0) (item (Some m))) response4))
                = Throw BadValue).
  { intros m.
    rewrite (pkt4_send_result unique_v4 (mkHandle (status h0) (item (Some m)))
               response4 m eq_refl).
    destruct (addOption_to unique_v4 _ (vendor_option_of m)) as [l|e] eqn:Ea;
      [now left | right].
    now rewrite (addOption_to_throws _ _ _ Ea). }
  unfold pkt4_receive, rx_bind, rx_ret, ffi, LOG_INFO, LOG_ERROR, emit.
  pose proof (handle_after_extraction _
    (update_discovery_parameters_events ffi_result T_OptionCustom query4
       DHO_DHCP_AGENT_OPTIONS)) as A1.
  pose proof (handle_after_extraction _
    (update_discovery_parameters_events ffi_result T_OptionString query4
       DHO_VENDOR_CLASS_IDENTIFIER)) as A2.
  pose proof (handle_after_extraction _
    (update_discovery_parameters_events ffi_result T_OptionUint16 query4
       DHO_SYSTEM)) as A3.
  pose proof (handle_after_requested_address _
    (desired_address_block_events ffi_result query4)) as A50.
  destruct (update_discovery_parameters ffi_result T_OptionCustom query4
              DHO_DHCP_AGENT_OPTIONS) as [r1 t1].
  destruct (update_discovery_parameters ffi_result T_OptionString query4
              DHO_VENDOR_CLASS_IDENTIFIER) as [r2 t2].
  destruct (update_discovery_parameters ffi_result T_OptionUint16 query4
              DHO_SYSTEM) as [r3 t3].
  destruct (desired_address_block ffi_result query4) as [u t50].
  simpl in A1, A2, A3, A50.
  destruct (isRelayed query4); cbn [negb];
    [|right; split; [reflexivity | exact Hsend]].
  destruct r1; [destruct r2; [destruct r3;
    [destruct (ffi_result (discovery_set_relay (giaddr query4)));
       [destruct (ffi_result (discovery_set_mac_address (hwaddr query4)));
          [destruct (ffi_result discovery_fetch_machine);
             destruct fetched_machine as [m|]|]|]|]|]|];
    simpl;
    repeat (rewrite ?handle_after_app, ?A1, ?A2, ?A3, ?A50; simpl);
    first [ left; exists m; split; [reflexivity|]; split; [reflexivity|];
            split; [reflexivity | apply Hgo]
          | right; split; [reflexivity | exact Hsend] ].
Qed.

End BothPhases.

Lemma send_after_receive_witness :
  let h0 := mkHandle NEXT_STEP_CONTINUE no_item in
  handle_after h0 (snd (pkt4_receive all_succeed (Some example_machine) (query_of [])))
  = example_handle
  /\ handle_after h0 (snd (pkt4_receive relay_refused (Some example_machine) (query_of [])))
     = mkHandle NEXT_STEP_DROP no_item.
Proof.
  intros h0. split.
  - destruct (send_after_receive true all_succeed (Some example_machine) h0
                (query_of []) (response_of []) eq_refl)
      as [(m & Hm & _ & H & _)|[H _]].
    + injection Hm as <-. exact H.
    + vm_compute in H. discriminate H.
  - destruct (send_after_receive true relay_refused (Some example_machine) h0
                (query_of []) (response_of []) eq_refl)
      as [(m & _ & Hret & _)|[H _]].
    + vm_compute in Hret. discriminate Hret.
    + exact H.
Defined.
